(** * whisperVox: the Whisper model manager (hooks/use-whisper-model.ts)

    A shallow embedding of the React hook [useWhisperModels] and of its
    earlier draft [useWhisperModel], together with the properties of the
    model acquisition and engine lifecycle that the specification states.

    The hook is asynchronous JavaScript over three external collaborators:
    the Expo file system, the resumable HTTP download and the native
    whisper.rn module.  Each hook function becomes a computation in a small
    state-and-exception monad over
      - the hook's React state ([Manager]),
      - the outside world ([World]: disk, network, native module),
      - the trace of calls made to the outside world ([Event]).
    A thrown JavaScript exception keeps every state change made before it,
    exactly as in the source; [try_catch] and [try_finally] are the
    source's [try]/[catch]/[finally]. *)

From Stdlib Require Import ZArith QArith String List Sorted Lia.
From stdpp Require Import base option gmap strings list fin_maps.

Local Open Scope string_scope.
Local Open Scope Z_scope.
Local Open Scope list_scope.

(** ** Data model *)

Module Capabilities.
Record t := mk {
  multilingual : bool;
  quantizable : bool;
  tdrz : option bool            (* tdrz?: boolean *)
}.
End Capabilities.

Module WhisperModel.
Record t := mk {
  id : string;
  label : string;
  url : string;
  filename : string;
  capabilities : Capabilities.t
}.
End WhisperModel.

Module ModelFileInfo.
Record t := mk {
  path : string;
  size : Z
}.
End ModelFileInfo.

Definition WHISPER_MODELS : list WhisperModel.t :=
  [ WhisperModel.mk "large-v3-turbo" "Large Multilanguae"
      "https://huggingface.co/ggerganov/whisper.cpp/resolve/main/ggml-large-v3-turbo.bin"
      "ggml-large-v3-turbo.bin"
      (Capabilities.mk true false None);
    WhisperModel.mk "tiny-en" "Tiny (en)"
      "https://huggingface.co/ggerganov/whisper.cpp/resolve/main/ggml-tiny.en.bin"
      "ggml-tiny.en.bin"
      (Capabilities.mk false false None);
    WhisperModel.mk "base" "Base Model"
      "https://huggingface.co/ggerganov/whisper.cpp/resolve/main/ggml-base.bin"
      "ggml-base.bin"
      (Capabilities.mk true false None);
    WhisperModel.mk "small" "Small Model"
      "https://huggingface.co/ggerganov/whisper.cpp/resolve/main/ggml-small.bin"
      "ggml-small.bin"
      (Capabilities.mk true false None);
    WhisperModel.mk "small-tdrz" "Small (tdrz)"
      "https://huggingface.co/ggerganov/whisper.cpp/resolve/main/ggml-small.en-tdrz.bin"
      "ggml-small.en-tdrz.bin"
      (Capabilities.mk false false (Some true)) ].

(** [WHISPER_MODELS.find((m) => m.id === modelId)] *)
Definition find_model (catalog : list WhisperModel.t) (modelId : string)
  : option WhisperModel.t :=
  List.find (fun m => String.eqb (WhisperModel.id m) modelId) catalog.

(** ** Errors

    One constructor for each [new Error(...)] of the source, and [Foreign]
    for an exception raised by the platform or by the native module, which
    the source only logs and rethrows. *)
Inductive Error :=
| DocumentDirectoryNotAvailable   (* "Document directory is not available." *)
| FileNotFound                    (* "File not found" *)
| DownloadFailedWithStatus (status : option Z)
                                  (* `Download failed with status: ${downloadResult?.status}` *)
| InvalidModelSelected            (* "Invalid model selected" *)
| ModelWithIdNotFound (modelId : string)
                                  (* `Model with id ${modelId} not found` (the draft) *)
| NativeModuleNotAvailable        (* "Native module 'whisper.rn' not available in this runtime ..." *)
| InitWhisperExportMissing        (* "initWhisper export missing" *)
| NotAFunction (what : string)    (* TypeError of calling a missing export *)
| Foreign (e : string).

Inductive Completion (A : Type) :=
| Returned (a : A)
| Threw (e : Error).
Arguments Returned {A} a.
Arguments Threw {A} e.

(** ** Handles of the native module *)

(** What [context.release()] does when it is called. *)
Inductive ReleaseBehaviour :=
| ReleaseResolves
| ReleaseThrows (e : string).

Module WhisperContext.
Record t := mk {
  handle : nat;
  release : option ReleaseBehaviour   (* None: the object has no release member *)
}.
End WhisperContext.

Definition VadContext := nat.

Module WhisperNative.
(** The exports of "whisper.rn/index.js" that the hook touches. *)
Record t := mk {
  initWhisper : option (string -> Completion WhisperContext.t);
  initWhisperVad : option (string -> Completion VadContext)
}.
End WhisperNative.

Inductive ImportResult :=
| ImportRejects (e : string)                 (* the dynamic import throws *)
| ImportResolves (m : option WhisperNative.t). (* None: a falsy module object *)

(** ** The outside world *)

Module FileInfo.
(** The result of [file.info()]. *)
Record t := mk {
  exists_ : bool;
  size : option Z                (* size?: number *)
}.
End FileInfo.

Module DownloadProgressData.
Record t := mk {
  totalBytesWritten : Z;
  totalBytesExpectedToWrite : Z
}.
End DownloadProgressData.

Module FileSystemDownloadResult.
Record t := mk { status : Z }.
End FileSystemDownloadResult.

Module Transfer.
(** What one [downloadAsync()] of a URL does: the progress callbacks it
    makes, the file it leaves at the target (if any, with its stat size)
    and how the promise settles. *)
Record t := mk {
  ticks : list DownloadProgressData.t;
  leaves : option (option Z);
  settles : Completion (option FileSystemDownloadResult.t)
}.
End Transfer.

(** [Paths.document] *)
Inductive DocumentRoot :=
| DocumentThrows (e : string)           (* the getter throws *)
| DocumentMissing                       (* null / undefined *)
| DocumentAt (uri : string).            (* a Directory; uri may be empty *)

Module World.
Record t := mk {
  document : DocumentRoot;
  create_error : option string;       (* Some e: directory.create throws e *)
  directories : list string;          (* directories on disk, by uri *)
  files : gmap string (option Z);     (* files on disk, by uri, with their stat size *)
  info_error : string -> option string;    (* file.info() throws for this uri *)
  delete_error : string -> option string;  (* file.delete() throws for this uri *)
  network : string -> Transfer.t;     (* by url *)
  whisper_rn : ImportResult
}.
End World.

(** What a run of a hook function lets the outside observe: its calls to the
    file system, the network, the native module and the console, and the
    progress values it publishes for a model. *)
Inductive Level := LLog | LWarn | LError.

Inductive Event :=
| FsCreateDirectory (uri : string)
| FsInfo (uri : string)
| FsDelete (uri : string)
| NetDownload (url uri : string)
| NativeImport
| NativeInitWhisper (filePath : string)
| NativeInitWhisperVad (filePath : string)
| NativeRelease (handle : nat)
| ProgressPublished (modelId : string) (value : Q)
| Console (level : Level) (message : string).

Definition is_network (e : Event) : bool :=
  match e with NetDownload _ _ => true | _ => false end.

Definition is_filesystem (e : Event) : bool :=
  match e with
  | FsCreateDirectory _ | FsInfo _ | FsDelete _ => true
  | _ => false
  end.

Definition is_native (e : Event) : bool :=
  match e with
  | NativeImport | NativeInitWhisper _ | NativeInitWhisperVad _
  | NativeRelease _ => true
  | _ => false
  end.

(** ** The hook's React state *)

Module Manager.
Record t := mk {
  modelFiles : gmap string ModelFileInfo.t;
  downloadProgress : gmap string Q;
  isDownloading : bool;
  isInitializingModel : bool;
  whisperContext : option WhisperContext.t;
  vadContext : option VadContext;
  currentModelId : option string
}.

(** The [useState] initial values. *)
Definition initial : t := mk ∅ ∅ false false None None None.

(** The state after one setter call. *)
Definition map_modelFiles
    (f : gmap string ModelFileInfo.t -> gmap string ModelFileInfo.t) (m : t) : t :=
  mk (f (modelFiles m)) (downloadProgress m) (isDownloading m)
    (isInitializingModel m) (whisperContext m) (vadContext m) (currentModelId m).

Definition map_downloadProgress (f : gmap string Q -> gmap string Q) (m : t) : t :=
  mk (modelFiles m) (f (downloadProgress m)) (isDownloading m)
    (isInitializingModel m) (whisperContext m) (vadContext m) (currentModelId m).

Definition with_isDownloading (b : bool) (m : t) : t :=
  mk (modelFiles m) (downloadProgress m) b
    (isInitializingModel m) (whisperContext m) (vadContext m) (currentModelId m).

Definition with_isInitializingModel (b : bool) (m : t) : t :=
  mk (modelFiles m) (downloadProgress m) (isDownloading m)
    b (whisperContext m) (vadContext m) (currentModelId m).

Definition with_whisperContext (c : option WhisperContext.t) (m : t) : t :=
  mk (modelFiles m) (downloadProgress m) (isDownloading m)
    (isInitializingModel m) c (vadContext m) (currentModelId m).

Definition with_vadContext (v : option VadContext) (m : t) : t :=
  mk (modelFiles m) (downloadProgress m) (isDownloading m)
    (isInitializingModel m) (whisperContext m) v (currentModelId m).

Definition with_currentModelId (i : option string) (m : t) : t :=
  mk (modelFiles m) (downloadProgress m) (isDownloading m)
    (isInitializingModel m) (whisperContext m) (vadContext m) i.
End Manager.

Module Sys.
Record t := mk {
  mgr : Manager.t;
  world : World.t;
  trace : list Event               (* what was observed so far, oldest first *)
}.
End Sys.

(** ** The monad of hook computations *)

Definition Task (A : Type) : Type := Sys.t -> Completion A * Sys.t.

Definition ret {A} (a : A) : Task A := fun s => (Returned a, s).

Definition throw {A} (e : Error) : Task A := fun s => (Threw e, s).

Definition bind {A B} (m : Task A) (k : A -> Task B) : Task B :=
  fun s =>
    match m s with
    | (Returned a, s') => k a s'
    | (Threw e, s') => (Threw e, s')
    end.

Declare Scope task_scope.
Delimit Scope task_scope with task.
Notation "x <- m ;; k" := (bind m (fun x => k))
  (at level 100, m at next level, right associativity) : task_scope.
Notation "m ;; k" := (bind m (fun _ => k))
  (at level 100, right associativity) : task_scope.
Local Open Scope task_scope.

(** [try { m } catch (e) { h e }] *)
Definition try_catch {A} (m : Task A) (h : Error -> Task A) : Task A :=
  fun s =>
    match m s with
    | (Returned a, s') => (Returned a, s')
    | (Threw e, s') => h e s'
    end.

(** [try { m } finally { f }]; a [finally] block that throws replaces the
    completion of the [try] block. *)
Definition try_finally {A} (m : Task A) (f : Task unit) : Task A :=
  fun s =>
    match m s with
    | (c, s') =>
        match f s' with
        | (Returned _, s'') => (c, s'')
        | (Threw e, s'') => (Threw e, s'')
        end
    end.

Definition emit (e : Event) : Task unit :=
  fun s => (Returned tt, Sys.mk (Sys.mgr s) (Sys.world s) (Sys.trace s ++ [e])).

Definition console (l : Level) (message : string) : Task unit :=
  emit (Console l message).

Definition get_world : Task World.t := fun s => (Returned (Sys.world s), s).

Definition put_world (w : World.t) : Task unit :=
  fun s => (Returned tt, Sys.mk (Sys.mgr s) w (Sys.trace s)).

Definition update (f : Manager.t -> Manager.t) : Task unit :=
  fun s => (Returned tt, Sys.mk (f (Sys.mgr s)) (Sys.world s) (Sys.trace s)).

(** The [useState] setters.  The map setters take the updater function
    [(prev) => next], as every call in the source does. *)
Definition setModelFiles
    (f : gmap string ModelFileInfo.t -> gmap string ModelFileInfo.t) : Task unit :=
  update (Manager.map_modelFiles f).

Definition setDownloadProgress (f : gmap string Q -> gmap string Q) : Task unit :=
  update (Manager.map_downloadProgress f).

Definition setIsDownloading (b : bool) : Task unit :=
  update (Manager.with_isDownloading b).

Definition setIsInitializingModel (b : bool) : Task unit :=
  update (Manager.with_isInitializingModel b).

Definition setWhisperContext (c : option WhisperContext.t) : Task unit :=
  update (Manager.with_whisperContext c).

Definition setVadContext (v : option VadContext) : Task unit :=
  update (Manager.with_vadContext v).

Definition setCurrentModelId (i : option string) : Task unit :=
  update (Manager.with_currentModelId i).

(** A callback invoked through the function of the latest render: every
    state variable a callback reads is named in its [useCallback]
    dependency list, so that function's closure holds the state of the
    latest render.  A caller that kept the function of an earlier render
    (a handler that awaits two hook calls, say) runs it with the state of
    that render: the hook functions below take the state of their render
    as the argument [rendered]. *)
Definition on_render {A} (f : Manager.t -> Task A) : Task A :=
  fun s => f (Sys.mgr s) s.

(** ** Reading a plain object *)

(** [modelFiles] and [downloadProgress] are plain objects.  A read [o[k]]
    gives the own property [k] of [o], and for a key [o] does not own the
    member of [Object.prototype] of that name, when there is one; every
    such member is truthy and is not [undefined].  Writes with a computed
    key, spreads and [delete] act on own properties only. *)
Definition Object_prototype : list string :=
  [ "constructor"; "__defineGetter__"; "__defineSetter__"; "hasOwnProperty";
    "__lookupGetter__"; "__lookupSetter__"; "isPrototypeOf";
    "propertyIsEnumerable"; "toString"; "valueOf"; "__proto__";
    "toLocaleString" ].

Definition inherited (k : string) : bool := bool_decide (k ∈ Object_prototype).

Inductive Member (A : Type) :=
| Own (a : A)
| Inherited
| Undefined.
Arguments Own {A} a.
Arguments Inherited {A}.
Arguments Undefined {A}.

Definition get_member {A} (o : gmap string A) (k : string) : Member A :=
  match o !! k with
  | Some a => Own a
  | None => if inherited k then Inherited else Undefined
  end.

Fixpoint for_each {A} (l : list A) (f : A -> Task unit) : Task unit :=
  match l with
  | [] => ret tt
  | x :: l' => f x ;; for_each l' f
  end.

(** ** The Expo file system *)

Module Directory.
Record t := mk { uri : string }.
End Directory.

Module File.
Record t := mk { uri : string }.
End File.

(** The constructors join their arguments with one separator: a parent
    uri that already ends with it gets no second one. *)
Definition ends_with_separator (base : string) : bool :=
  String.eqb (substring (String.length base - 1) 1 base) "/".

Definition join_uri (base name : string) : string :=
  if ends_with_separator base then base ++ name else base ++ "/" ++ name.

(** [new Directory(parent, name)] and [new File(parent, name)] *)
Definition new_Directory (parent : Directory.t) (name : string) : Directory.t :=
  Directory.mk (join_uri (Directory.uri parent) name).

Definition new_File (parent : Directory.t) (name : string) : File.t :=
  File.mk (join_uri (Directory.uri parent) name).

(** [Paths.document] *)
Definition Paths_document : Task (option Directory.t) :=
  w <- get_world ;;
  match World.document w with
  | DocumentThrows e => throw (Foreign e)
  | DocumentMissing => ret None
  | DocumentAt u => ret (Some (Directory.mk u))
  end.

Definition with_directories (w : World.t) (ds : list string) : World.t :=
  World.mk (World.document w) (World.create_error w) ds (World.files w)
    (World.info_error w) (World.delete_error w) (World.network w)
    (World.whisper_rn w).

Definition with_files (w : World.t) (fs : gmap string (option Z)) : World.t :=
  World.mk (World.document w) (World.create_error w) (World.directories w) fs
    (World.info_error w) (World.delete_error w) (World.network w)
    (World.whisper_rn w).

(** [directory.create({ idempotent: true, intermediates: true })]: the
    platform's contract is that an existing directory is left as it is and
    is no error. *)
Definition Directory_create (d : Directory.t) : Task unit :=
  emit (FsCreateDirectory (Directory.uri d)) ;;
  w <- get_world ;;
  match World.create_error w with
  | Some e => throw (Foreign e)
  | None =>
      if bool_decide (Directory.uri d ∈ World.directories w) then ret tt
      else put_world (with_directories w (World.directories w ++ [Directory.uri d]))
  end.

(** [file.info()] *)
Definition File_info (f : File.t) : Task FileInfo.t :=
  emit (FsInfo (File.uri f)) ;;
  w <- get_world ;;
  match World.info_error w (File.uri f) with
  | Some e => throw (Foreign e)
  | None =>
      match World.files w !! File.uri f with
      | Some sz => ret (FileInfo.mk true sz)
      | None => ret (FileInfo.mk false None)
      end
  end.

(** [file.delete()] *)
Definition File_delete (f : File.t) : Task unit :=
  emit (FsDelete (File.uri f)) ;;
  w <- get_world ;;
  match World.delete_error w (File.uri f) with
  | Some e => throw (Foreign e)
  | None => put_world (with_files w (delete (File.uri f) (World.files w)))
  end.

(** [Number(x) || 0] for [x : number | undefined] *)
Definition number_or_zero (x : option Z) : Z := default 0 x.

(** ** The resumable download *)

Definition settle {A} (c : Completion A) : Task A :=
  match c with
  | Returned a => ret a
  | Threw e => throw e
  end.

Module DownloadResumable.
Record t := mk {
  downloadAsync : Task (option FileSystemDownloadResult.t)
}.
End DownloadResumable.

(** [createDownloadResumable(url, fileUri, undefined, callback)] *)
Definition createDownloadResumable (url fileUri : string)
    (callback : DownloadProgressData.t -> Task unit) : DownloadResumable.t :=
  DownloadResumable.mk
    (emit (NetDownload url fileUri) ;;
     w <- get_world ;;
     for_each (Transfer.ticks (World.network w url)) callback ;;
     w' <- get_world ;;
     match Transfer.leaves (World.network w url) with
     | Some sz => put_world (with_files w' (<[fileUri := sz]> (World.files w')))
     | None => ret tt
     end ;;
     settle (Transfer.settles (World.network w url))).

(** ** The native module *)

(** [loadWhisperNative]: the module if it loads and exports [initWhisper],
    otherwise null after a warning. *)
Definition loadWhisperNative : Task (option WhisperNative.t) :=
  try_catch
    (emit NativeImport ;;
     w <- get_world ;;
     match World.whisper_rn w with
     | ImportRejects e => throw (Foreign e)
     | ImportResolves None => throw InitWhisperExportMissing
     | ImportResolves (Some mod_) =>
         match WhisperNative.initWhisper mod_ with
         | None => throw InitWhisperExportMissing
         | Some _ => ret (Some mod_)
         end
     end)
    (fun err =>
       console LWarn "whisper.rn native module not available (Expo Go?). To use native features build a dev client or a native app." ;;
       ret None).

(** [whisperNative.initWhisper({ filePath })] *)
Definition call_initWhisper (native : WhisperNative.t) (filePath : string)
  : Task WhisperContext.t :=
  match WhisperNative.initWhisper native with
  | None => throw (NotAFunction "initWhisper")
  | Some f => emit (NativeInitWhisper filePath) ;; settle (f filePath)
  end.

(** [context.release()] on a context that has the member *)
Definition call_release (c : WhisperContext.t) (b : ReleaseBehaviour) : Task unit :=
  emit (NativeRelease (WhisperContext.handle c)) ;;
  match b with
  | ReleaseResolves => ret tt
  | ReleaseThrows e => throw (Foreign e)
  end.

(** ** The hook [useWhisperModels] (hooks/use-whisper-model.ts) *)

(** [getModelDirectory]: ensure the model directory exists.  [create] is
    a method of the Expo [Directory] class, so the guard
    [typeof directory.create === "function"] always holds; the call is made
    unconditionally here. *)
Definition getModelDirectory : Task Directory.t :=
  documentDirectory <-
    try_catch Paths_document (fun error => throw DocumentDirectoryNotAvailable) ;;
  match documentDirectory with
  | None => throw DocumentDirectoryNotAvailable
  | Some root =>
      if String.eqb (Directory.uri root) EmptyString then throw DocumentDirectoryNotAvailable
      else
        let directory := new_Directory root "whisper-models" in
        try_catch (Directory_create directory)
          (fun error =>
             console LWarn "Failed to ensure Whisper model directory exists:" ;;
             throw error) ;;
        ret directory
  end.

(** The progress fraction of one tick. *)
Definition fraction (progressData : DownloadProgressData.t) : Q :=
  if 0 <? DownloadProgressData.totalBytesExpectedToWrite progressData
  then (inject_Z (DownloadProgressData.totalBytesWritten progressData)
        / inject_Z (DownloadProgressData.totalBytesExpectedToWrite progressData))%Q
  else 0%Q.

(** [setDownloadProgress((prev) => ({ ...prev, [modelId]: value }))]: the
    value enters the progress map, where its observers see it. *)
Definition publishProgress (modelId : string) (value : Q) : Task unit :=
  setDownloadProgress (fun prev => <[modelId := value]> prev) ;;
  emit (ProgressPublished modelId value).

(** The progress callback handed to [createDownloadResumable]; the logged
    percentage is not kept in the message. *)
Definition onProgress (model : WhisperModel.t)
    (progressData : DownloadProgressData.t) : Task unit :=
  publishProgress (WhisperModel.id model) (fraction progressData) ;;
  console LLog ("Download progress for " ++ WhisperModel.id model).

(** [updateModelFileInfo]: update the cache with the latest stat. *)
Definition updateModelFileInfo (model : WhisperModel.t) (file : File.t) : Task unit :=
  try_catch
    (stats <- File_info file ;;
     if negb (FileInfo.exists_ stats) then throw FileNotFound
     else
       setModelFiles (fun prev =>
         <[WhisperModel.id model :=
             ModelFileInfo.mk (File.uri file) (number_or_zero (FileInfo.size stats))]> prev))
    (fun statError =>
       console LWarn ("Failed to stat model file " ++ WhisperModel.id model
                      ++ " at " ++ File.uri file ++ ":") ;;
       setModelFiles (fun prev =>
         <[WhisperModel.id model := ModelFileInfo.mk (File.uri file) 0]> prev)).

(** [downloadResult && (status === 0 || (status >= 200 && status < 300))] *)
Definition download_succeeded (downloadResult : option FileSystemDownloadResult.t) : bool :=
  match downloadResult with
  | None => false
  | Some r =>
      (FileSystemDownloadResult.status r =? 0)
      || ((200 <=? FileSystemDownloadResult.status r)
          && (FileSystemDownloadResult.status r <? 300))
  end.

(** The branch of [downloadModel] for a file that is already there. *)
Definition downloadModel_existing (model : WhisperModel.t) (file : File.t) : Task string :=
  console LLog ("Model " ++ WhisperModel.id model ++ " already exists at "
                ++ File.uri file) ;;
  updateModelFileInfo model file ;;
  ret (File.uri file).

(** The branch of [downloadModel] that transfers the file. *)
Definition downloadModel_transfer (model : WhisperModel.t) (file : File.t) : Task string :=
  setIsDownloading true ;;
  console LLog ("Downloading model " ++ WhisperModel.id model ++ " from "
                ++ WhisperModel.url model) ;;
  try_finally
    (try_catch
       (let downloadResumable :=
          createDownloadResumable (WhisperModel.url model) (File.uri file)
            (onProgress model) in
        downloadResult <- DownloadResumable.downloadAsync downloadResumable ;;
        if download_succeeded downloadResult then
          console LLog ("Successfully downloaded model " ++ WhisperModel.id model) ;;
          updateModelFileInfo model file ;;
          publishProgress (WhisperModel.id model) 1%Q ;;
          ret (File.uri file)
        else
          throw (DownloadFailedWithStatus
                   (FileSystemDownloadResult.status <$> downloadResult)))
       (fun error =>
          console LError ("Error downloading model " ++ WhisperModel.id model ++ ":") ;;
          throw error))
    (setIsDownloading false).

(** [downloadModel]: download a model with resumable support. *)
Definition downloadModel (model : WhisperModel.t) : Task string :=
  directory <- getModelDirectory ;;
  let file := new_File directory (WhisperModel.filename model) in
  existingInfo <-
    try_catch (File_info file)
      (fun infoError =>
         console LWarn ("Failed to read info for model " ++ WhisperModel.id model
                        ++ " at " ++ File.uri file ++ ":") ;;
         ret (FileInfo.mk false None)) ;;
  if FileInfo.exists_ existingInfo then downloadModel_existing model file
  else downloadModel_transfer model file.

Module InitOptions.
(** [options?: { initVad?: boolean }] *)
Record t := mk { initVad : option bool }.
End InitOptions.

(** [options?.initVad] as a condition *)
Definition initVad_requested (options : option InitOptions.t) : bool :=
  match options with
  | Some o => default false (InitOptions.initVad o)
  | None => false
  end.

Module InitResult.
Record t := mk {
  whisperContext : WhisperContext.t;
  vadContext : option VadContext
}.
End InitResult.

(** The optional VAD step of [initializeWhisperModel]. *)
Definition initializeVad (native : WhisperNative.t) (modelPath : string) : Task unit :=
  console LLog "Initializing VAD context..." ;;
  try_catch
    (match WhisperNative.initWhisperVad native with
     | Some initWhisperVad =>
         emit (NativeInitWhisperVad modelPath) ;;
         vad <- settle (initWhisperVad modelPath) ;;
         setVadContext (Some vad) ;;
         console LLog "VAD context initialized successfully"
     | None =>
         console LWarn "initWhisperVad not available on native module"
     end)
    (fun vadError => console LWarn "VAD initialization failed:").

(** [initializeWhisperModel]: the closure reads [vadContext] of the render
    it was created in ([rendered]). *)
Definition initializeWhisperModel (rendered : Manager.t) (modelId : string)
    (options : option InitOptions.t) : Task InitResult.t :=
  match find_model WHISPER_MODELS modelId with
  | None => throw InvalidModelSelected
  | Some model =>
      try_finally
        (try_catch
           (setIsInitializingModel true ;;
            console LLog ("Initializing Whisper model: " ++ WhisperModel.label model) ;;
            modelPath <- downloadModel model ;;
            whisperNative <- loadWhisperNative ;;
            match whisperNative with
            | None => throw NativeModuleNotAvailable
            | Some native =>
                context <- call_initWhisper native modelPath ;;
                setWhisperContext (Some context) ;;
                setCurrentModelId (Some modelId) ;;
                console LLog ("Whisper context initialized for model: "
                              ++ WhisperModel.label model) ;;
                (if initVad_requested options then initializeVad native modelPath
                 else ret tt) ;;
                ret (InitResult.mk context
                       (if initVad_requested options
                        then Manager.vadContext rendered else None))
            end)
           (fun error =>
              console LError "Model initialization error:" ;;
              throw error))
        (setIsInitializingModel false)
  end.

(** [resetWhisperContext] *)
Definition resetWhisperContext : Task unit :=
  setWhisperContext None ;;
  setVadContext None ;;
  setCurrentModelId None ;;
  console LLog "Whisper contexts reset".

Definition getModelById (modelId : string) : option WhisperModel.t :=
  find_model WHISPER_MODELS modelId.

Definition getCurrentModel (rendered : Manager.t) : option WhisperModel.t :=
  match Manager.currentModelId rendered with
  | Some i => if String.eqb i EmptyString then None else getModelById i
  | None => None
  end.

(** [modelFiles[modelId] !== undefined] *)
Definition isModelDownloaded (rendered : Manager.t) (modelId : string) : bool :=
  match get_member (Manager.modelFiles rendered) modelId with
  | Undefined => false
  | _ => true
  end.

(** What [getDownloadProgress] returns: a number, or for a key of
    [Object.prototype] that the progress map does not own, the member of
    that name. *)
Inductive ProgressValue :=
| ProgressNumber (q : Q)
| ProgressMember (name : string).

(** [downloadProgress[modelId] || 0]: an own value [q] gives [q] (for
    [q = 0] the result [0] is the same number). *)
Definition getDownloadProgress (rendered : Manager.t) (modelId : string) : ProgressValue :=
  match get_member (Manager.downloadProgress rendered) modelId with
  | Own q => ProgressNumber q
  | Inherited => ProgressMember modelId
  | Undefined => ProgressNumber 0%Q
  end.

(** [deleteModel]: the closure reads [modelFiles], [currentModelId] and
    [whisperContext] of the render it was created in. *)
Definition deleteModel (rendered : Manager.t) (modelId : string) : Task unit :=
  match get_member (Manager.modelFiles rendered) modelId with
  | Undefined =>
      console LWarn ("Attempted to delete non-downloaded model: " ++ modelId)
  | Inherited =>
      (* [fileInfo] is a member of Object.prototype: it is truthy and has
         no [path], and [new File(undefined)] throws inside the [try] *)
      try_catch (throw (Foreign "TypeError"))
        (fun error =>
           console LError ("Failed to delete model " ++ modelId ++ ":") ;;
           throw error)
  | Own fileInfo =>
      try_catch
        (let file := File.mk (ModelFileInfo.path fileInfo) in
         info <- File_info file ;;
         if FileInfo.exists_ info then
           File_delete file ;;
           console LLog ("Deleted model file at " ++ ModelFileInfo.path fileInfo)
         else ret tt)
        (fun error =>
           console LError ("Failed to delete model " ++ modelId ++ ":") ;;
           throw error) ;;
      setModelFiles (fun prev => delete modelId prev) ;;
      setDownloadProgress (fun prev => delete modelId prev) ;;
      if bool_decide (Manager.currentModelId rendered = Some modelId) then
        match Manager.whisperContext rendered with
        | Some ctx =>
            match WhisperContext.release ctx with
            | Some b =>
                try_catch (call_release ctx b)
                  (fun releaseError =>
                     console LWarn "Failed to release Whisper context during model deletion:")
            | None => ret tt
            end
        | None => ret tt
        end ;;
        setWhisperContext None ;;
        setCurrentModelId None ;;
        setVadContext None
      else ret tt
  end.

(** The mount effect: scan the model directory for the catalog's files. *)
Definition stat_existing (directory : Directory.t) (model : WhisperModel.t)
  : Task (option (string * ModelFileInfo.t)) :=
  let file := new_File directory (WhisperModel.filename model) in
  try_catch
    (fileInfo <- File_info file ;;
     if negb (FileInfo.exists_ fileInfo) then ret None
     else ret (Some (WhisperModel.id model,
                     ModelFileInfo.mk (File.uri file)
                       (number_or_zero (FileInfo.size fileInfo)))))
    (fun statError =>
       console LWarn ("Failed to stat existing model file " ++ WhisperModel.id model ++ ":") ;;
       ret (Some (WhisperModel.id model, ModelFileInfo.mk (File.uri file) 0))).

Fixpoint map_task {A B} (f : A -> Task B) (l : list A) : Task (list B) :=
  match l with
  | [] => ret []
  | x :: l' => y <- f x ;; ys <- map_task f l' ;; ret (y :: ys)
  end.

Definition add_entry (fileMap : gmap string ModelFileInfo.t)
    (entry : option (string * ModelFileInfo.t)) : gmap string ModelFileInfo.t :=
  match entry with
  | Some (i, info) => <[i := info]> fileMap
  | None => fileMap
  end.

Definition loadExistingModels (isMounted : bool) : Task unit :=
  try_catch
    (directory <- getModelDirectory ;;
     entries <- map_task (stat_existing directory) WHISPER_MODELS ;;
     if negb isMounted then ret tt
     else
       let fileMap := fold_left add_entry entries ∅ in
       if bool_decide (fileMap = ∅) then ret tt
       else setModelFiles (fun prev => fileMap ∪ prev))
    (fun error => console LWarn "Failed to load existing Whisper models:").

(** ** The draft hook [useWhisperModel]

    An earlier version of the hook that the repository keeps: its own
    catalog, a static import of [initWhisper], no VAD, no reset and no
    delete.  It calls [updateModelFileInfo()] without awaiting it: the
    stat runs at once, and the cache update that follows the [await] inside
    runs when the caller's synchronous code has finished. *)
Module Draft.

Definition WHISPER_MODELS : list WhisperModel.t :=
  [ WhisperModel.mk "tiny" "Tiny Model"
      "https://huggingface.co/ggerganov/whisper.cpp/resolve/main/ggml-tiny.bin"
      "ggml-tiny-bin"
      (Capabilities.mk true false None);
    WhisperModel.mk "tiny (en)" "Tiny English Model"
      "https://huggingface.co/ggerganov/whisper.cpp/resolve/main/ggml-tiny-en.bin"
      "ggml-tiny-en.bin"
      (Capabilities.mk true false None);
    WhisperModel.mk "base" "Base Model"
      "https://huggingface.co/ggerganov/whisper.cpp/resolve/main/ggml-base.bin"
      "ggml-base.bin"
      (Capabilities.mk true false None);
    WhisperModel.mk "small" "Small Model"
      "https://huggingface.co/ggerganov/whisper.cpp/resolve/main/ggml-small.bin"
      "ggml-small.bin"
      (Capabilities.mk true false None) ].

(** The draft's name of the initializing flag. *)
Definition setInitializingModel : bool -> Task unit := setIsInitializingModel.

(** No check of the root's uri, and [create] is called outside any
    [try]; [console.log(e)] prints the error alone.  A null root makes
    the [Directory] constructor throw. *)
Definition getModelDirectory : Task Directory.t :=
  documentsDirectory <-
    try_catch Paths_document
      (fun e => console LLog EmptyString ;; throw DocumentDirectoryNotAvailable) ;;
  match documentsDirectory with
  | None => throw (Foreign "TypeError")
  | Some root =>
      let directory := new_Directory root "whisper-models" in
      Directory_create directory ;;
      ret directory
  end.

(** The [catch] block of [updateModelFileInfo]. *)
Definition stat_failed (model : WhisperModel.t) (file : File.t) : Task unit :=
  console LWarn ("Failed to stat model file " ++ WhisperModel.id model
                 ++ " at " ++ File.uri file ++ ":") ;;
  setModelFiles (fun prev =>
    <[WhisperModel.id model := ModelFileInfo.mk (File.uri file) 0]> prev).

(** The un-awaited [updateModelFileInfo()]: the part that runs at the
    call, returning the part that runs later. *)
Definition updateModelFileInfo (model : WhisperModel.t) (file : File.t)
  : Task (Task unit) :=
  try_catch
    (stats <- File_info file ;;
     ret (if negb (FileInfo.exists_ stats) then stat_failed model file
          else
            setModelFiles (fun prev =>
              <[WhisperModel.id model :=
                  ModelFileInfo.mk (File.uri file)
                    (number_or_zero (FileInfo.size stats))]> prev)))
    (fun statError => stat_failed model file ;; ret (ret tt)).

Definition onProgress (model : WhisperModel.t)
    (progressData : DownloadProgressData.t) : Task unit :=
  publishProgress (WhisperModel.id model) (fraction progressData) ;;
  console LLog ("Downlod progress for " ++ WhisperModel.id model).

Definition downloadModel_existing (model : WhisperModel.t) (file : File.t)
  : Task string :=
  console LLog ("Model " ++ WhisperModel.id model ++ " already exists at "
                ++ File.uri file) ;;
  later <- updateModelFileInfo model file ;;
  later ;;
  ret (File.uri file).

Definition downloadModel_transfer (model : WhisperModel.t) (file : File.t)
  : Task string :=
  setIsDownloading true ;;
  console LLog ("Downloading model " ++ WhisperModel.id model ++ " from "
                ++ WhisperModel.url model) ;;
  settled <-
    try_finally
      (try_catch
         (let downloadResumable :=
            createDownloadResumable (WhisperModel.url model) (File.uri file)
              (onProgress model) in
          downloadResult <- DownloadResumable.downloadAsync downloadResumable ;;
          if download_succeeded downloadResult then
            console LLog ("Successfully downloaded model " ++ WhisperModel.id model) ;;
            later <- updateModelFileInfo model file ;;
            publishProgress (WhisperModel.id model) 1%Q ;;
            ret (File.uri file, later)
          else
            throw (DownloadFailedWithStatus
                     (FileSystemDownloadResult.status <$> downloadResult)))
         (fun error =>
            console LError ("Error downloading model " ++ WhisperModel.id model ++ ":") ;;
            throw error))
      (setIsDownloading false) ;;
  snd settled ;;
  ret (fst settled).

Definition downloadModel (model : WhisperModel.t) : Task string :=
  directory <- getModelDirectory ;;
  let file := new_File directory (WhisperModel.filename model) in
  existingInfo <-
    try_catch (File_info file)
      (fun infoError =>
         console LWarn ("Failed to read info for model " ++ WhisperModel.id model
                        ++ " at " ++ File.uri file ++ ":") ;;
         ret (FileInfo.mk false None)) ;;
  if FileInfo.exists_ existingInfo then downloadModel_existing model file
  else downloadModel_transfer model file.

(** The statically imported [initWhisper({ filePath })]. *)
Definition initWhisper (filePath : string) : Task WhisperContext.t :=
  w <- get_world ;;
  match World.whisper_rn w with
  | ImportResolves (Some native) => call_initWhisper native filePath
  | ImportResolves None => throw (NotAFunction "initWhisper")
  | ImportRejects e => throw (Foreign e)
  end.

(** [initializeModel]: an unknown id throws; any later failure is logged
    and the function returns undefined. *)
Definition initializeModel (modelId : string) : Task (option InitResult.t) :=
  match find_model WHISPER_MODELS modelId with
  | None => throw (ModelWithIdNotFound modelId)
  | Some model =>
      try_finally
        (try_catch
           (setInitializingModel true ;;
            modelPath <- downloadModel model ;;
            context <- initWhisper modelPath ;;
            setWhisperContext (Some context) ;;
            setCurrentModelId (Some modelId) ;;
            console LLog ("Whisper context initialized for model: "
                          ++ WhisperModel.label model) ;;
            ret (Some (InitResult.mk context None)))
           (fun error =>
              console LError "Error initializing model:" ;;
              ret None))
        (setInitializingModel false)
  end.

End Draft.

(** * Specification vocabulary *)

(** The document root resolves to an addressable directory and the
    platform lets the model directory be created. *)
Definition storage_ready (w : World.t) (root : string) : Prop :=
  World.document w = DocumentAt root /\ root <> EmptyString /\ World.create_error w = None.

Definition model_directory (root : string) : string := join_uri root "whisper-models".

Definition model_file (root : string) (model : WhisperModel.t) : string :=
  join_uri (model_directory root) (WhisperModel.filename model).

(** The disk after [create({ idempotent: true, intermediates: true })]. *)
Definition ensure_directory (w : World.t) (d : string) : World.t :=
  if bool_decide (d ∈ World.directories w) then w
  else with_directories w (World.directories w ++ [d]).

(** What [file.info()] answers for a uri. *)
Definition stat (w : World.t) (uri : string) : Completion FileInfo.t :=
  match World.info_error w uri with
  | Some e => Threw (Foreign e)
  | None =>
      match World.files w !! uri with
      | Some sz => Returned (FileInfo.mk true sz)
      | None => Returned (FileInfo.mk false None)
      end
  end.

(** The stat reports that the file exists. *)
Definition stat_exists (w : World.t) (uri : string) : bool :=
  match stat w uri with
  | Returned i => FileInfo.exists_ i
  | Threw _ => false
  end.

(** The size the cache records for a uri: the stat size, 0 when the stat
    fails, reports no file or reports no size. *)
Definition stat_size (w : World.t) (uri : string) : Z :=
  match stat w uri with
  | Returned i => if FileInfo.exists_ i then number_or_zero (FileInfo.size i) else 0
  | Threw _ => 0
  end.

Definition observe (evs : list Event) (s : Sys.t) : Sys.t :=
  Sys.mk (Sys.mgr s) (Sys.world s) (Sys.trace s ++ evs).

(** The progress map after the callbacks of a list of ticks. *)
Definition after_ticks (modelId : string) (ticks : list DownloadProgressData.t)
    (progress : gmap string Q) : gmap string Q :=
  fold_left (fun p t => <[modelId := fraction t]> p) ticks progress.

Definition tick_events (modelId message : string) (ticks : list DownloadProgressData.t)
  : list Event :=
  flat_map (fun t => [ProgressPublished modelId (fraction t); Console LLog message]) ticks.

(** The disk after a transfer that leaves (or does not leave) a file. *)
Definition write_file (w : World.t) (uri : string) (leaves : option (option Z)) : World.t :=
  match leaves with
  | Some sz => with_files w (<[uri := sz]> (World.files w))
  | None => w
  end.

(** A terminal status of 0 or in 200..299. *)
Definition status_ok (r : option FileSystemDownloadResult.t) : Prop :=
  exists st, r = Some (FileSystemDownloadResult.mk st) /\ (st = 0 \/ 200 <= st <= 299).

(** The progress values published for a model, in order. *)
Definition published (modelId : string) (tr : list Event) : list Q :=
  omap (fun e =>
          match e with
          | ProgressPublished i q => if String.eqb i modelId then Some q else None
          | _ => None
          end) tr.

(** The stat warning of [updateModelFileInfo], when there is one. *)
Definition stat_warning (w : World.t) (model : WhisperModel.t) (uri : string) : list Event :=
  if stat_exists w uri then []
  else [Console LWarn ("Failed to stat model file " ++ WhisperModel.id model
                       ++ " at " ++ uri ++ ":")].

(** The warning of the first stat of [downloadModel], when it throws. *)
Definition info_warning (w : World.t) (model : WhisperModel.t) (uri : string) : list Event :=
  match stat w uri with
  | Returned _ => []
  | Threw _ => [Console LWarn ("Failed to read info for model " ++ WhisperModel.id model
                               ++ " at " ++ uri ++ ":")]
  end.

(** How a run of a download function that reached the transfer relates to
    the terminal result [r] of the transfer. *)
Definition settles_by_status (run : Completion string * Sys.t) (before : Sys.t)
    (uri : string) (r : option FileSystemDownloadResult.t) : Prop :=
  (fst run = Returned uri <-> status_ok r) /\
  (~ status_ok r ->
     fst run = Threw (DownloadFailedWithStatus (FileSystemDownloadResult.status <$> r)) /\
     Manager.modelFiles (Sys.mgr (snd run)) = Manager.modelFiles (Sys.mgr before)).

(** A model's progress reads as complete: published as 1, or never
    published. *)
Definition progress_complete (m : Manager.t) (modelId : string) : Prop :=
  match Manager.downloadProgress m !! modelId with
  | Some q => (q == 1)%Q
  | None => True
  end.

(** A sequence of progress values that never goes down. *)
Definition nondecreasing (l : list Q) : Prop := StronglySorted Qle l.

(** The transfer ended with a result that [downloadModel] accepts. *)
Definition terminal_ok (c : Completion (option FileSystemDownloadResult.t)) : bool :=
  match c with
  | Returned r => download_succeeded r
  | Threw _ => false
  end.

(** The values one run of the transfer branch publishes. *)
Definition run_publishes (t : Transfer.t) : list Q :=
  map fraction (Transfer.ticks t) ++ (if terminal_ok (Transfer.settles t) then [1%Q] else []).

(** The catalog has an entry with this id. *)
Definition known (catalog : list WhisperModel.t) (modelId : string) : Prop :=
  exists model, In model catalog /\ WhisperModel.id model = modelId.

(** The module [loadWhisperNative] returns: the imported module when it
    exports [initWhisper], otherwise null. *)
Definition native_module (w : World.t) : option WhisperNative.t :=
  match World.whisper_rn w with
  | ImportResolves (Some mod_) =>
      match WhisperNative.initWhisper mod_ with
      | Some _ => Some mod_
      | None => None
      end
  | _ => None
  end.

Definition native_warning : Event :=
  Console LWarn "whisper.rn native module not available (Expo Go?). To use native features build a dev client or a native app.".

(** The system when [initializeWhisperModel] has entered its [try] block
    for a catalog entry, and when it leaves through [finally]. *)
Definition entering (s : Sys.t) (model : WhisperModel.t) : Sys.t :=
  Sys.mk (Manager.with_isInitializingModel true (Sys.mgr s)) (Sys.world s)
    (Sys.trace s ++ [Console LLog ("Initializing Whisper model: " ++ WhisperModel.label model)]).

Definition leaving (s : Sys.t) (evs : list Event) : Sys.t :=
  Sys.mk (Manager.with_isInitializingModel false (Sys.mgr s)) (Sys.world s)
    (Sys.trace s ++ evs).

(** The events of the VAD step when [initWhisperVad] does not give a
    handle: it is missing, or it throws. *)
Definition vad_failure_events (native : WhisperNative.t) (filePath : string) : list Event :=
  match WhisperNative.initWhisperVad native with
  | Some _ =>
      [Console LLog "Initializing VAD context..."; NativeInitWhisperVad filePath;
       Console LWarn "VAD initialization failed:"]
  | None =>
      [Console LLog "Initializing VAD context...";
       Console LWarn "initWhisperVad not available on native module"]
  end.

(** [initWhisperVad] gives no handle for this path. *)
Definition vad_fails (native : WhisperNative.t) (filePath : string) : Prop :=
  match WhisperNative.initWhisperVad native with
  | Some initWhisperVad => exists e, initWhisperVad filePath = Threw e
  | None => True
  end.

(** How the removal of a backing file by [deleteModel] ends: the stat may
    throw, and so may the delete of a file the stat reports. *)
Definition removal (w : World.t) (path : string) : Completion unit :=
  match stat w path with
  | Threw e => Threw e
  | Returned i =>
      if FileInfo.exists_ i then
        match World.delete_error w path with
        | Some e => Threw (Foreign e)
        | None => Returned tt
        end
      else Returned tt
  end.

Definition removal_events (w : World.t) (path : string) : list Event :=
  FsInfo path
  :: (if stat_exists w path then
        FsDelete path
        :: match World.delete_error w path with
           | Some _ => []
           | None => [Console LLog ("Deleted model file at " ++ path)]
           end
      else []).

(** The disk after the removal. *)
Definition after_removal (w : World.t) (path : string) : World.t :=
  if stat_exists w path then
    match World.delete_error w path with
    | Some _ => w
    | None => with_files w (delete path (World.files w))
    end
  else w.

(** The calls and logs of releasing the engine handle of a render. *)
Definition release_events (context : option WhisperContext.t) : list Event :=
  match context with
  | Some ctx =>
      match WhisperContext.release ctx with
      | Some ReleaseResolves => [NativeRelease (WhisperContext.handle ctx)]
      | Some (ReleaseThrows _) =>
          [NativeRelease (WhisperContext.handle ctx);
           Console LWarn "Failed to release Whisper context during model deletion:"]
      | None => []
      end
  | None => []
  end.

(** The hook state after [deleteModel] has cleared a model that was the
    current one. *)
Definition cleared (modelId : string) (m : Manager.t) : Manager.t :=
  Manager.with_vadContext None
    (Manager.with_currentModelId None
       (Manager.with_whisperContext None
          (Manager.map_downloadProgress (fun prev => delete modelId prev)
             (Manager.map_modelFiles (fun prev => delete modelId prev) m)))).

(** ** Reachable states *)

(** The calls a user of the hook can make, one after the other; [OpMount]
    is the mount effect.  A call of [initializeWhisperModel] or
    [deleteModel] goes through the function of some render, the latest or
    an earlier one: [rendered] is the state that function holds in its
    closure. *)
Inductive Op :=
| OpDownload (model : WhisperModel.t)
| OpInitialize (rendered : Manager.t) (modelId : string) (options : option InitOptions.t)
| OpReset
| OpDelete (rendered : Manager.t) (modelId : string)
| OpMount (isMounted : bool).

(** The system after a call has run to its end, whether it returned or
    threw. *)
Definition perform (op : Op) (s : Sys.t) : Sys.t :=
  match op with
  | OpDownload model => snd (downloadModel model s)
  | OpInitialize rendered modelId options =>
      snd (initializeWhisperModel rendered modelId options s)
  | OpReset => snd (resetWhisperContext s)
  | OpDelete rendered modelId => snd (deleteModel rendered modelId s)
  | OpMount isMounted => snd (loadExistingModels isMounted s)
  end.

(** The hook states that calls can produce from the initial state, in any
    world, with the world free to change between calls, and whatever
    render the called functions come from. *)
Inductive reachable : Manager.t -> Prop :=
| reachable_initial : reachable Manager.initial
| reachable_step (m : Manager.t) (op : Op) (w : World.t) (tr : list Event) :
    reachable m -> reachable (Sys.mgr (perform op (Sys.mk m w tr))).

(** The call goes through the function of the latest render. *)
Definition through_latest_render (m : Manager.t) (op : Op) : Prop :=
  match op with
  | OpInitialize rendered _ _ | OpDelete rendered _ => rendered = m
  | _ => True
  end.

(** The states that calls produce when every call goes through the
    function of the latest render. *)
Inductive reachable_by_latest : Manager.t -> Prop :=
| reachable_by_latest_initial : reachable_by_latest Manager.initial
| reachable_by_latest_step (m : Manager.t) (op : Op) (w : World.t) (tr : list Event) :
    reachable_by_latest m -> through_latest_render m op ->
    reachable_by_latest (Sys.mgr (perform op (Sys.mk m w tr))).

(** [currentModelId] is non-null exactly when the engine handle is. *)
Definition engine_slot_consistent (m : Manager.t) : Prop :=
  is_Some (Manager.currentModelId m) <-> is_Some (Manager.whisperContext m).


(** A step that leaves the engine slot alone and drops no cache entry. *)
Definition grows (m m' : Manager.t) : Prop :=
  Manager.whisperContext m' = Manager.whisperContext m /\
  Manager.currentModelId m' = Manager.currentModelId m /\
  forall k, is_Some (Manager.modelFiles m !! k) -> is_Some (Manager.modelFiles m' !! k).

(** Every run of the task relates the hook state before to the one after. *)
Definition respects (R : Manager.t -> Manager.t -> Prop) {A} (t : Task A) : Prop :=
  forall s, R (Sys.mgr s) (Sys.mgr (snd (t s))).

(** ** Repeated calls of [getModelDirectory] *)

(** [n] calls in a row: their completions, first call first, and the system
    after the last. *)
Fixpoint repeat_getModelDirectory (n : nat) (s : Sys.t)
  : list (Completion Directory.t) * Sys.t :=
  match n with
  | O => ([], s)
  | S n' =>
      let run := getModelDirectory s in
      let rest := repeat_getModelDirectory n' (snd run) in
      (fst run :: fst rest, snd rest)
  end.

(** The document root cannot be resolved, or has no address. *)
Definition document_unavailable (w : World.t) : Prop :=
  match World.document w with
  | DocumentThrows _ => True
  | DocumentMissing => True
  | DocumentAt uri => uri = EmptyString
  end.

(** ** Concrete scenarios *)
Module Scenario.

Definition root : string := "file:///documents".

(** The catalog entry with id "base". *)
Definition base : WhisperModel.t :=
  WhisperModel.mk "base" "Base Model"
    "https://huggingface.co/ggerganov/whisper.cpp/resolve/main/ggml-base.bin"
    "ggml-base.bin"
    (Capabilities.mk true false None).

Definition base_file : string := model_file root base.

Definition tick (written expected : Z) : DownloadProgressData.t :=
  DownloadProgressData.mk written expected.

(** A complete transfer: 500/2000, 2000/2000, status 200. *)
Definition transfer_complete : Transfer.t :=
  Transfer.mk [tick 500 2000; tick 2000 2000] (Some (Some 2000))
    (Returned (Some (FileSystemDownloadResult.mk 200))).

(** A transfer the server answers with 404 and a short error body. *)
Definition transfer_not_found : Transfer.t :=
  Transfer.mk [] (Some (Some 9)) (Returned (Some (FileSystemDownloadResult.mk 404))).

(** A transfer that stops at 500/2000 with status 500, leaving the
    partial file. *)
Definition transfer_interrupted : Transfer.t :=
  Transfer.mk [tick 500 2000] (Some (Some 500))
    (Returned (Some (FileSystemDownloadResult.mk 500))).

(** A transfer of a compressed body: more bytes are written than the
    announced total. *)
Definition transfer_compressed : Transfer.t :=
  Transfer.mk [tick 600 1000; tick 1500 1000] (Some (Some 1500))
    (Returned (Some (FileSystemDownloadResult.mk 200))).

Definition context7 : WhisperContext.t :=
  WhisperContext.mk 7 (Some (ReleaseThrows "context already released")).

Definition context8 : WhisperContext.t :=
  WhisperContext.mk 8 (Some ReleaseResolves).

(** A native module whose VAD initialisation works. *)
Definition native_with_vad : WhisperNative.t :=
  WhisperNative.mk (Some (fun _ => Returned context7)) (Some (fun _ => Returned 3%nat)).

Definition world (files : gmap string (option Z)) (t : Transfer.t)
    (native : ImportResult) : World.t :=
  World.mk (DocumentAt root) None [] files
    (fun _ => None) (fun _ => None) (fun _ => t) native.

(** Expo Go: the native module cannot be imported. *)
Definition expo_go : ImportResult := ImportRejects "Cannot find native module".

Definition start (w : World.t) : Sys.t := Sys.mk Manager.initial w [].

(** The same hook state in another world. *)
Definition move (s : Sys.t) (w : World.t) : Sys.t :=
  Sys.mk (Sys.mgr s) w (Sys.trace s).

(** The catalog entry with id "small". *)
Definition small : WhisperModel.t :=
  WhisperModel.mk "small" "Small Model"
    "https://huggingface.co/ggerganov/whisper.cpp/resolve/main/ggml-small.bin"
    "ggml-small.bin"
    (Capabilities.mk true false None).

(** A native module that can initialise VAD for the base model only. *)
Definition native_vad_for_base : WhisperNative.t :=
  WhisperNative.mk
    (Some (fun filePath =>
             if String.eqb filePath base_file
             then Returned context7 else Returned context8))
    (Some (fun filePath =>
             if String.eqb filePath base_file
             then Returned 3%nat else Threw (Foreign "vad model not supported"))).

Definition with_vad : option InitOptions.t := Some (InitOptions.mk (Some true)).

(** A world in which no file can be deleted. *)
Definition read_only (w : World.t) : World.t :=
  World.mk (World.document w) (World.create_error w) (World.directories w)
    (World.files w) (World.info_error w) (fun _ => Some "EACCES")
    (World.network w) (World.whisper_rn w).

(** The system after "base" was initialised with VAD on an empty disk. *)
Definition base_loaded : Sys.t :=
  perform (OpInitialize Manager.initial "base" with_vad)
    (Sys.mk Manager.initial
       (world ∅ transfer_complete
          (ImportResolves (Some native_with_vad)))
       []).

End Scenario.

(** ** Frames on the trace and on the errors *)

(** Every run of the task only appends to the trace, and every event it
    appends satisfies [P]. *)
Definition emits (P : Event -> Prop) {A} (t : Task A) : Prop :=
  forall s, exists evs,
    Sys.trace (snd (t s)) = Sys.trace s ++ evs /\ Forall P evs.

(** Every error the task throws satisfies [P]. *)
Definition throws_only (P : Error -> Prop) {A} (t : Task A) : Prop :=
  forall s e, fst (t s) = Threw e -> P e.

Definition is_release (e : Event) : bool :=
  match e with NativeRelease _ => true | _ => false end.

Definition is_delete (e : Event) : bool :=
  match e with FsDelete _ => true | _ => false end.

(** The calls [downloadModel] may make. *)
Definition download_event (model : WhisperModel.t) (e : Event) : Prop :=
  match e with
  | FsCreateDirectory _ | FsInfo _ | Console _ _ => True
  | NetDownload url _ => url = WhisperModel.url model
  | ProgressPublished i _ => i = WhisperModel.id model
  | _ => False
  end.

(** The calls the mount scan may make. *)
Definition scan_event (e : Event) : Prop :=
  match e with
  | FsCreateDirectory _ | FsInfo _ | Console _ _ => True
  | _ => False
  end.

(** The calls [initializeWhisperModel] may make for a model id: those of
    the download of a catalog entry with that id, the import of the native
    module and the two initialisations. *)
Definition initialize_event (modelId : string) (e : Event) : Prop :=
  match e with
  | FsCreateDirectory _ | FsInfo _ | Console _ _ => True
  | NetDownload _ _ => True
  | ProgressPublished i _ => i = modelId
  | NativeImport | NativeInitWhisper _ | NativeInitWhisperVad _ => True
  | FsDelete _ | NativeRelease _ => False
  end.

(** The calls [deleteModel] may make in a render: stat and delete of the
    cached path of the model, release of the rendered context. *)
Definition delete_event (rendered : Manager.t) (modelId : string) (e : Event) : Prop :=
  match e with
  | Console _ _ => True
  | FsInfo uri | FsDelete uri =>
      exists fileInfo,
        Manager.modelFiles rendered !! modelId = Some fileInfo /\
        uri = ModelFileInfo.path fileInfo
  | NativeRelease h =>
      exists ctx,
        Manager.whisperContext rendered = Some ctx /\
        Manager.currentModelId rendered = Some modelId /\
        h = WhisperContext.handle ctx
  | _ => False
  end.

Definition foreign_error (e : Error) : Prop :=
  match e with Foreign _ => True | _ => False end.

Definition no_error (e : Error) : Prop := False.

(** ** Frames on the hook state *)

(** A step that does not leave the downloading flag set. *)
Definition keeps_idle (m m' : Manager.t) : Prop :=
  Manager.isDownloading m = false -> Manager.isDownloading m' = false.

(** A step that does not touch the initializing flag. *)
Definition keeps_initializing (m m' : Manager.t) : Prop :=
  Manager.isInitializingModel m' = Manager.isInitializingModel m.

(** A step that does not touch the VAD handle. *)
Definition keeps_vad (m m' : Manager.t) : Prop :=
  Manager.vadContext m' = Manager.vadContext m.

(** A step that leaves the cache and progress entries of every model but
    [modelId] as they are. *)
Definition keeps_others (modelId : string) (m m' : Manager.t) : Prop :=
  forall k, k <> modelId ->
    Manager.modelFiles m' !! k = Manager.modelFiles m !! k /\
    Manager.downloadProgress m' !! k = Manager.downloadProgress m !! k.

(** The calls [initializeWhisperModel] may make when VAD is not asked for. *)
Definition initialize_without_vad_event (e : Event) : Prop :=
  match e with
  | NativeInitWhisperVad _ | FsDelete _ | NativeRelease _ => False
  | _ => True
  end.

(** ** The mount scan *)

(** What the scan finds for one catalog entry: the entry it will cache, if
    any. *)
Definition scan_entry (w : World.t) (directory : Directory.t) (model : WhisperModel.t)
  : option (string * ModelFileInfo.t) :=
  let uri := join_uri (Directory.uri directory) (WhisperModel.filename model) in
  match stat w uri with
  | Returned i =>
      if FileInfo.exists_ i
      then Some (WhisperModel.id model,
                 ModelFileInfo.mk uri (number_or_zero (FileInfo.size i)))
      else None
  | Threw _ => Some (WhisperModel.id model, ModelFileInfo.mk uri 0)
  end.

Definition scan_events (w : World.t) (directory : Directory.t) (model : WhisperModel.t)
  : list Event :=
  let uri := join_uri (Directory.uri directory) (WhisperModel.filename model) in
  FsInfo uri
  :: match stat w uri with
     | Returned _ => []
     | Threw _ =>
         [Console LWarn ("Failed to stat existing model file "
                         ++ WhisperModel.id model ++ ":")]
     end.

(** The map the scan builds from the catalog. *)
Definition scan_map (w : World.t) (root : string) : gmap string ModelFileInfo.t :=
  fold_left add_entry
    (map (scan_entry w (Directory.mk (model_directory root))) WHISPER_MODELS) ∅.

(** The cache entry the scan leaves for a catalog entry, given the one that
    was there. *)
Definition scanned (w : World.t) (root : string) (model : WhisperModel.t)
    (before : option ModelFileInfo.t) : option ModelFileInfo.t :=
  match stat w (model_file root model) with
  | Returned i =>
      if FileInfo.exists_ i
      then Some (ModelFileInfo.mk (model_file root model)
                   (number_or_zero (FileInfo.size i)))
      else before
  | Threw _ => Some (ModelFileInfo.mk (model_file root model) 0)
  end.

(** A step that changes nothing but the ModelFileInfo cache. *)
Definition same_but_cache (m m' : Manager.t) : Prop :=
  Manager.downloadProgress m' = Manager.downloadProgress m /\
  Manager.isDownloading m' = Manager.isDownloading m /\
  Manager.isInitializingModel m' = Manager.isInitializingModel m /\
  Manager.whisperContext m' = Manager.whisperContext m /\
  Manager.vadContext m' = Manager.vadContext m /\
  Manager.currentModelId m' = Manager.currentModelId m.

(** ** More scenarios *)
Module Case.

Definition small_file : string := model_file Scenario.root Scenario.small.

(** A disk that holds the base model (2000 bytes) and the small model, whose
    stat throws; nothing can be downloaded. *)
Definition disk_with_two : World.t :=
  World.mk (DocumentAt Scenario.root) None []
    {[ Scenario.base_file := Some 2000; small_file := Some 7 ]}
    (fun uri => if String.eqb uri small_file then Some "EIO" else None)
    (fun _ => None)
    (fun _ => Scenario.transfer_not_found)
    Scenario.expo_go.

(** A transfer whose connection breaks after 500 of 2000 bytes. *)
Definition transfer_broken : Transfer.t :=
  Transfer.mk [Scenario.tick 500 2000] None (Threw (Foreign "connection reset")).

(** A transfer that ends with status 200 but leaves no file. *)
Definition transfer_empty : Transfer.t :=
  Transfer.mk [] None (Returned (Some (FileSystemDownloadResult.mk 200))).

(** A native module whose [initWhisper] throws. *)
Definition native_broken : WhisperNative.t :=
  WhisperNative.mk (Some (fun _ => Threw (Foreign "invalid model file"))) None.

(** A world whose document root cannot be resolved. *)
Definition no_documents : World.t :=
  World.mk (DocumentThrows "no document directory") None [] ∅
    (fun _ => None) (fun _ => None) (fun _ => Scenario.transfer_complete)
    (ImportResolves (Some Scenario.native_with_vad)).

(** An empty disk with a working network and native module. *)
Definition fresh : World.t :=
  Scenario.world ∅ Scenario.transfer_complete
    (ImportResolves (Some Scenario.native_with_vad)).

End Case.


(** The size [downloadModel] caches after a transfer it accepts: the size
    of the file the transfer left, 0 when it left none or when the stat of
    the path throws. *)
Definition cached_size (w : World.t) (uri : string) (leaves : option (option Z)) : Z :=
  match World.info_error w uri, leaves with
  | None, Some sz => number_or_zero sz
  | _, _ => 0
  end.

(** A step that leaves the engine slot as it is: the context, the VAD
    context and the current model id. *)
Definition same_engine (m m' : Manager.t) : Prop :=
  Manager.whisperContext m' = Manager.whisperContext m /\
  Manager.currentModelId m' = Manager.currentModelId m /\
  Manager.vadContext m' = Manager.vadContext m.

(** What the native module answers when [initializeWhisperModel] asks it
    for a context on a model path: nothing when the module is not
    available. *)
Definition engine_answer (w : World.t) (modelPath : string)
  : option (Completion WhisperContext.t) :=
  match native_module w with
  | Some native =>
      match WhisperNative.initWhisper native with
      | Some initWhisper => Some (initWhisper modelPath)
      | None => None
      end
  | None => None
  end.

(** The completion of [initializeWhisperModel] for a catalog entry, from
    the completion of its download and the answer of the native module. *)
Definition initialize_result (rendered : Manager.t) (options : option InitOptions.t)
    (downloaded : Completion string) (w : World.t) : Completion InitResult.t :=
  match downloaded with
  | Threw e => Threw e
  | Returned modelPath =>
      match engine_answer w modelPath with
      | None => Threw NativeModuleNotAvailable
      | Some (Threw e) => Threw e
      | Some (Returned context) =>
          Returned (InitResult.mk context
                      (if initVad_requested options
                       then Manager.vadContext rendered else None))
      end
  end.

(** A tick that reports no more bytes than it expects, and a value of the
    unit interval. *)
Definition tick_in_range (t : DownloadProgressData.t) : Prop :=
  0 <= DownloadProgressData.totalBytesWritten t
    <= DownloadProgressData.totalBytesExpectedToWrite t.

Definition unit_interval (q : Q) : Prop := (0 <= q /\ q <= 1)%Q.

(** What [getDownloadProgress] returned is a number of the unit
    interval. *)
Definition in_unit_interval (v : ProgressValue) : Prop :=
  match v with
  | ProgressNumber q => unit_interval q
  | ProgressMember _ => False
  end.

Definition publishes_in_range (e : Event) : Prop :=
  match e with
  | ProgressPublished _ q => unit_interval q
  | _ => True
  end.

(** The hook state and the disk of two runs are the same, and so is the
    way they end. *)
Definition same_outcome {A} (a b : Completion A * Sys.t) : Prop :=
  fst a = fst b /\ Sys.mgr (snd a) = Sys.mgr (snd b) /\ Sys.world (snd a) = Sys.world (snd b).

(** * Properties *)

(** ** Running the primitives *)

Lemma settle_run {A} (c : Completion A) s : settle c s = (c, s).
Proof. destruct c; reflexivity. Qed.

Lemma getModelDirectory_ready s root :
  storage_ready (Sys.world s) root ->
  getModelDirectory s =
    (Returned (Directory.mk (model_directory root)),
     Sys.mk (Sys.mgr s) (ensure_directory (Sys.world s) (model_directory root))
       (Sys.trace s ++ [FsCreateDirectory (model_directory root)])).
Proof.
  intros (Hd & Hr & Hc). destruct s as [m w tr]. cbn in *.
  unfold getModelDirectory, try_catch, bind, Paths_document. cbn.
  rewrite Hd. cbn.
  apply String.eqb_neq in Hr. rewrite Hr.
  unfold Directory_create, bind, emit, get_world. cbn. rewrite Hc.
  unfold ensure_directory, model_directory. cbn.
  case_bool_decide; reflexivity.
Qed.

Lemma File_info_stat f s :
  File_info f s = (stat (Sys.world s) (File.uri f), observe [FsInfo (File.uri f)] s).
Proof.
  destruct s as [m w tr]. unfold File_info, stat, bind, emit, get_world, observe. cbn.
  destruct (World.info_error w (File.uri f)); [reflexivity|].
  destruct (World.files w !! File.uri f); reflexivity.
Qed.

Lemma ensure_directory_network w d :
  World.network (ensure_directory w d) = World.network w.
Proof. unfold ensure_directory. case_bool_decide; reflexivity. Qed.

Lemma ensure_directory_files w d :
  World.files (ensure_directory w d) = World.files w.
Proof. unfold ensure_directory. case_bool_decide; reflexivity. Qed.

Lemma ensure_directory_whisper_rn w d :
  World.whisper_rn (ensure_directory w d) = World.whisper_rn w.
Proof. unfold ensure_directory. case_bool_decide; reflexivity. Qed.

Lemma stat_ensure_directory w d uri : stat (ensure_directory w d) uri = stat w uri.
Proof. unfold ensure_directory. case_bool_decide; reflexivity. Qed.

Lemma stat_exists_ensure_directory w d uri :
  stat_exists (ensure_directory w d) uri = stat_exists w uri.
Proof. unfold stat_exists. rewrite stat_ensure_directory. reflexivity. Qed.

Lemma stat_size_ensure_directory w d uri :
  stat_size (ensure_directory w d) uri = stat_size w uri.
Proof. unfold stat_size. rewrite stat_ensure_directory. reflexivity. Qed.

Lemma stat_warning_exists w model uri :
  stat_exists w uri = true -> stat_warning w model uri = [].
Proof. unfold stat_warning. intros ->. reflexivity. Qed.

Lemma info_warning_exists w model uri :
  stat_exists w uri = true -> info_warning w model uri = [].
Proof.
  unfold stat_exists, info_warning. destruct (stat w uri); [reflexivity|discriminate].
Qed.

Lemma updateModelFileInfo_run model file s :
  updateModelFileInfo model file s =
    (Returned tt,
     Sys.mk
       (Manager.map_modelFiles
          (fun prev => <[WhisperModel.id model :=
             ModelFileInfo.mk (File.uri file) (stat_size (Sys.world s) (File.uri file))]> prev)
          (Sys.mgr s))
       (Sys.world s)
       (Sys.trace s ++ FsInfo (File.uri file)
          :: stat_warning (Sys.world s) model (File.uri file))).
Proof.
  unfold updateModelFileInfo, try_catch. unfold bind at 1. rewrite File_info_stat.
  unfold stat_warning, stat_size, stat_exists.
  destruct s as [m w tr]. cbn [Sys.world Sys.mgr Sys.trace observe].
  destruct (stat w (File.uri file)) as [[[] sz]|e]; cbn;
    rewrite <- ?app_assoc; reflexivity.
Qed.

Lemma for_each_progress modelId message ticks s :
  for_each ticks
    (fun t => publishProgress modelId (fraction t) ;; console LLog message) s =
    (Returned tt,
     Sys.mk
       (Manager.map_downloadProgress (after_ticks modelId ticks) (Sys.mgr s))
       (Sys.world s)
       (Sys.trace s ++ tick_events modelId message ticks)).
Proof.
  revert s. induction ticks as [|t ticks IH]; intros [m w tr].
  - cbn. rewrite app_nil_r. destruct m; reflexivity.
  - cbn [for_each]. unfold bind at 1.
    unfold publishProgress, setDownloadProgress, console, emit, update, bind.
    unfold publishProgress, setDownloadProgress, console, emit, update, bind in IH.
    cbn. rewrite IH. cbn. rewrite <- !app_assoc. destruct m; reflexivity.
Qed.

Lemma downloadAsync_progress url modelId message uri s :
  DownloadResumable.downloadAsync
    (createDownloadResumable url uri
       (fun t => publishProgress modelId (fraction t) ;; console LLog message)) s =
  (Transfer.settles (World.network (Sys.world s) url),
   Sys.mk
     (Manager.map_downloadProgress
        (after_ticks modelId (Transfer.ticks (World.network (Sys.world s) url)))
        (Sys.mgr s))
     (write_file (Sys.world s) uri (Transfer.leaves (World.network (Sys.world s) url)))
     (Sys.trace s
      ++ NetDownload url uri
         :: tick_events modelId message
              (Transfer.ticks (World.network (Sys.world s) url)))).
Proof.
  destruct s as [m w tr]. cbn [createDownloadResumable DownloadResumable.downloadAsync].
  unfold bind at 1. unfold emit at 1. cbn [Sys.mgr Sys.world Sys.trace].
  unfold bind at 1. unfold get_world at 1. cbn [Sys.mgr Sys.world Sys.trace].
  unfold bind at 1. rewrite for_each_progress. cbn [Sys.mgr Sys.world Sys.trace].
  unfold bind at 1. unfold get_world at 1. cbn [Sys.mgr Sys.world Sys.trace].
  unfold bind at 1. rewrite <- app_assoc. cbn [app].
  destruct (Transfer.leaves (World.network w url)) as [sz|];
    cbn; rewrite settle_run;
    destruct (Transfer.settles (World.network w url)); reflexivity.
Qed.

Lemma downloadAsync_run model uri s :
  DownloadResumable.downloadAsync
    (createDownloadResumable (WhisperModel.url model) uri (onProgress model)) s =
  (Transfer.settles (World.network (Sys.world s) (WhisperModel.url model)),
   Sys.mk
     (Manager.map_downloadProgress
        (after_ticks (WhisperModel.id model)
           (Transfer.ticks (World.network (Sys.world s) (WhisperModel.url model))))
        (Sys.mgr s))
     (write_file (Sys.world s) uri
        (Transfer.leaves (World.network (Sys.world s) (WhisperModel.url model))))
     (Sys.trace s
      ++ NetDownload (WhisperModel.url model) uri
         :: tick_events (WhisperModel.id model)
              ("Download progress for " ++ WhisperModel.id model)
              (Transfer.ticks (World.network (Sys.world s) (WhisperModel.url model))))).
Proof. apply downloadAsync_progress. Qed.

Lemma download_succeeded_spec r : download_succeeded r = true <-> status_ok r.
Proof.
  unfold status_ok. destruct r as [[st]|]; cbn; split.
  - intros H. exists st. split; [reflexivity|]. lia.
  - intros (st' & [= <-] & H). lia.
  - discriminate.
  - intros (st' & H & _). discriminate.
Qed.

(** ** Running [downloadModel] *)

Lemma downloadModel_existing_run model file s :
  downloadModel_existing model file s =
    (Returned (File.uri file),
     Sys.mk
       (Manager.map_modelFiles
          (fun prev => <[WhisperModel.id model :=
             ModelFileInfo.mk (File.uri file) (stat_size (Sys.world s) (File.uri file))]> prev)
          (Sys.mgr s))
       (Sys.world s)
       (Sys.trace s
        ++ Console LLog ("Model " ++ WhisperModel.id model ++ " already exists at "
                         ++ File.uri file)
        :: FsInfo (File.uri file)
        :: stat_warning (Sys.world s) model (File.uri file))).
Proof.
  unfold downloadModel_existing. unfold bind at 1. unfold console, emit.
  unfold bind at 1. rewrite updateModelFileInfo_run.
  destruct s as [m w tr]. cbn [Sys.mgr Sys.world Sys.trace ret].
  rewrite <- app_assoc. reflexivity.
Qed.

Lemma downloadModel_transfer_run model file s :
  let t := World.network (Sys.world s) (WhisperModel.url model) in
  let w1 := write_file (Sys.world s) (File.uri file) (Transfer.leaves t) in
  let m1 :=
    Manager.map_downloadProgress
      (after_ticks (WhisperModel.id model) (Transfer.ticks t))
      (Manager.with_isDownloading true (Sys.mgr s)) in
  let tr1 : list Event :=
    (Sys.trace s
     ++ Console LLog ("Downloading model " ++ WhisperModel.id model ++ " from "
                      ++ WhisperModel.url model)%string
     :: NetDownload (WhisperModel.url model) (File.uri file)
     :: tick_events (WhisperModel.id model)
          ("Download progress for " ++ WhisperModel.id model)%string
          (Transfer.ticks t))%list in
  let failed :=
    Sys.mk (Manager.with_isDownloading false m1) w1
      (tr1 ++ [Console LError ("Error downloading model " ++ WhisperModel.id model ++ ":")]) in
  downloadModel_transfer model file s =
    match Transfer.settles t with
    | Returned r =>
        if download_succeeded r then
          (Returned (File.uri file),
           Sys.mk
             (Manager.with_isDownloading false
                (Manager.map_downloadProgress
                   (fun prev => <[WhisperModel.id model := 1%Q]> prev)
                   (Manager.map_modelFiles
                      (fun prev => <[WhisperModel.id model :=
                         ModelFileInfo.mk (File.uri file) (stat_size w1 (File.uri file))]> prev)
                      m1)))
             w1
             (tr1
              ++ Console LLog ("Successfully downloaded model " ++ WhisperModel.id model)
              :: FsInfo (File.uri file)
              :: stat_warning w1 model (File.uri file)
              ++ [ProgressPublished (WhisperModel.id model) 1%Q]))
        else
          (Threw (DownloadFailedWithStatus (FileSystemDownloadResult.status <$> r)), failed)
    | Threw e => (Threw e, failed)
    end.
Proof.
  cbn zeta. unfold downloadModel_transfer.
  unfold bind at 1. unfold setIsDownloading at 1, update at 1.
  unfold bind at 1. unfold console at 1, emit at 1.
  unfold try_finally, try_catch. unfold bind at 1.
  rewrite downloadAsync_run.
  destruct s as [m w tr]. cbn [Sys.mgr Sys.world Sys.trace].
  destruct (Transfer.settles (World.network w (WhisperModel.url model))) as [r|e].
  - destruct (download_succeeded r).
    + unfold bind at 1. unfold console at 1, emit at 1.
      unfold bind at 1. rewrite updateModelFileInfo_run.
      cbn. rewrite <- !app_assoc. reflexivity.
    + cbn. rewrite <- !app_assoc. reflexivity.
  - cbn. rewrite <- !app_assoc. reflexivity.
Qed.

Lemma downloadModel_run model s root :
  storage_ready (Sys.world s) root ->
  downloadModel model s =
    (if stat_exists (Sys.world s) (model_file root model)
     then downloadModel_existing model (File.mk (model_file root model))
     else downloadModel_transfer model (File.mk (model_file root model)))
      (Sys.mk (Sys.mgr s)
         (ensure_directory (Sys.world s) (model_directory root))
         (Sys.trace s
          ++ FsCreateDirectory (model_directory root)
          :: FsInfo (model_file root model)
          :: info_warning (Sys.world s) model (model_file root model))).
Proof.
  intros Hready. unfold downloadModel. unfold bind at 1.
  rewrite (getModelDirectory_ready _ _ Hready).
  unfold bind at 1. unfold try_catch at 1. rewrite File_info_stat.
  cbn [Sys.mgr Sys.world Sys.trace new_File File.uri Directory.uri observe].
  fold (model_file root model). rewrite stat_ensure_directory.
  unfold stat_exists, info_warning.
  unfold observe, new_File. cbn [Sys.mgr Sys.world Sys.trace Directory.uri].
  fold (model_file root model).
  destruct (stat (Sys.world s) (model_file root model)) as [i|e].
  - rewrite <- ?app_assoc. reflexivity.
  - cbn. rewrite <- ?app_assoc. reflexivity.
Qed.

Lemma downloadModel_settles model s root r :
  storage_ready (Sys.world s) root ->
  stat_exists (Sys.world s) (model_file root model) = false ->
  Transfer.settles (World.network (Sys.world s) (WhisperModel.url model)) = Returned r ->
  settles_by_status (downloadModel model s) s (model_file root model) r.
Proof.
  intros Hready Habsent Hsettle.
  rewrite (downloadModel_run _ _ _ Hready), Habsent, downloadModel_transfer_run.
  cbn zeta. cbn [Sys.world Sys.mgr Sys.trace File.uri].
  rewrite ensure_directory_network, Hsettle.
  pose proof (download_succeeded_spec r) as Hspec.
  destruct (download_succeeded r); split; cbn.
  - intuition.
  - intros Hno. exfalso. apply Hno, Hspec. reflexivity.
  - split; [discriminate|]. intros Hok. apply Hspec in Hok. discriminate.
  - intros _. split; reflexivity.
Qed.

(** ** Running the draft's [downloadModel] *)

Lemma Draft_getModelDirectory_ready s root :
  storage_ready (Sys.world s) root ->
  Draft.getModelDirectory s =
    (Returned (Directory.mk (model_directory root)),
     Sys.mk (Sys.mgr s) (ensure_directory (Sys.world s) (model_directory root))
       (Sys.trace s ++ [FsCreateDirectory (model_directory root)])).
Proof.
  intros (Hd & Hr & Hc). destruct s as [m w tr]. cbn in *.
  unfold Draft.getModelDirectory, try_catch, bind, Paths_document. cbn.
  rewrite Hd. cbn.
  unfold Directory_create, bind, emit, get_world. cbn. rewrite Hc.
  unfold ensure_directory, model_directory. cbn.
  case_bool_decide; reflexivity.
Qed.

Lemma Draft_stat_failed_run model file s :
  Draft.stat_failed model file s =
    (Returned tt,
     Sys.mk
       (Manager.map_modelFiles
          (fun prev => <[WhisperModel.id model := ModelFileInfo.mk (File.uri file) 0]> prev)
          (Sys.mgr s))
       (Sys.world s)
       (Sys.trace s ++ [Console LWarn ("Failed to stat model file " ++ WhisperModel.id model
                                       ++ " at " ++ File.uri file ++ ":")])).
Proof. destruct s; reflexivity. Qed.

(** The un-awaited cache update always starts, and the part it leaves for
    later always completes. *)
Lemma Draft_updateModelFileInfo_returns model file s :
  exists later,
    fst (Draft.updateModelFileInfo model file s) = Returned later /\
    forall s', fst (later s') = Returned tt.
Proof.
  unfold Draft.updateModelFileInfo, try_catch. unfold bind at 1.
  rewrite File_info_stat.
  destruct (stat (Sys.world s) (File.uri file)) as [[[] sz]|e].
  - eexists. split; [reflexivity|]. intros s'. reflexivity.
  - eexists. split; [reflexivity|]. intros s'. cbn [negb FileInfo.exists_].
    rewrite Draft_stat_failed_run. reflexivity.
  - eexists. unfold bind. rewrite Draft_stat_failed_run.
    split; [reflexivity|]. intros s'. reflexivity.
Qed.

Lemma Draft_downloadModel_run model s root :
  storage_ready (Sys.world s) root ->
  Draft.downloadModel model s =
    (if stat_exists (Sys.world s) (model_file root model)
     then Draft.downloadModel_existing model (File.mk (model_file root model))
     else Draft.downloadModel_transfer model (File.mk (model_file root model)))
      (Sys.mk (Sys.mgr s)
         (ensure_directory (Sys.world s) (model_directory root))
         (Sys.trace s
          ++ FsCreateDirectory (model_directory root)
          :: FsInfo (model_file root model)
          :: info_warning (Sys.world s) model (model_file root model))).
Proof.
  intros Hready. unfold Draft.downloadModel. unfold bind at 1.
  rewrite (Draft_getModelDirectory_ready _ _ Hready).
  unfold bind at 1. unfold try_catch at 1. rewrite File_info_stat.
  cbn [Sys.mgr Sys.world Sys.trace new_File File.uri Directory.uri observe].
  fold (model_file root model). rewrite stat_ensure_directory.
  unfold stat_exists, info_warning.
  unfold observe, new_File. cbn [Sys.mgr Sys.world Sys.trace Directory.uri].
  fold (model_file root model).
  destruct (stat (Sys.world s) (model_file root model)) as [i|e].
  - rewrite <- ?app_assoc. reflexivity.
  - cbn. rewrite <- ?app_assoc. reflexivity.
Qed.

Lemma Draft_downloadModel_transfer_settles model file s r :
  Transfer.settles (World.network (Sys.world s) (WhisperModel.url model)) = Returned r ->
  settles_by_status (Draft.downloadModel_transfer model file s) s (File.uri file) r.
Proof.
  intros Hsettle. unfold Draft.downloadModel_transfer.
  unfold bind at 1. unfold setIsDownloading at 1, update at 1.
  unfold bind at 1. unfold console at 1, emit at 1.
  unfold bind at 1. unfold try_finally, try_catch. unfold bind at 1.
  unfold Draft.onProgress. rewrite downloadAsync_progress.
  destruct s as [m w tr]. cbn [Sys.mgr Sys.world Sys.trace] in *.
  rewrite Hsettle.
  pose proof (download_succeeded_spec r) as Hspec.
  destruct (download_succeeded r).
  - unfold bind at 1. unfold console at 1, emit at 1. cbn [Sys.mgr Sys.world Sys.trace].
    unfold bind at 1.
    match goal with
    | |- context [Draft.updateModelFileInfo ?a ?b ?c] =>
        destruct (Draft_updateModelFileInfo_returns a b c) as (later & Hstart & Hlater);
        destruct (Draft.updateModelFileInfo a b c) as [c1 s1]
    end.
    cbn in Hstart. subst c1.
    unfold bind at 1. unfold publishProgress, setDownloadProgress, update, emit, bind.
    cbn [setIsDownloading update Sys.mgr Sys.world Sys.trace ret fst snd].
    match goal with
    | |- context [later ?x] => specialize (Hlater x); destruct (later x) as [c2 s2]
    end.
    cbn in Hlater. subst c2. split; cbn.
    + intuition.
    + intros Hno. exfalso. apply Hno, Hspec. reflexivity.
  - split; cbn.
    + split; [discriminate|]. intros Hok. apply Hspec in Hok. discriminate.
    + intros _. split; reflexivity.
Qed.

Lemma Draft_downloadModel_settles model s root r :
  storage_ready (Sys.world s) root ->
  stat_exists (Sys.world s) (model_file root model) = false ->
  Transfer.settles (World.network (Sys.world s) (WhisperModel.url model)) = Returned r ->
  settles_by_status (Draft.downloadModel model s) s (model_file root model) r.
Proof.
  intros Hready Habsent Hsettle.
  rewrite (Draft_downloadModel_run _ _ _ Hready), Habsent.
  match goal with
  | |- settles_by_status (Draft.downloadModel_transfer ?m ?f ?s1) _ _ _ =>
      pose proof (Draft_downloadModel_transfer_settles m f s1 r) as H
  end.
  cbn [Sys.world Sys.mgr] in H. rewrite ensure_directory_network in H.
  specialize (H Hsettle). exact H.
Qed.

(** ** Terminal status of a download *)

(** C1: once [downloadModel] has reached the transfer (the model
    directory is available and the stat does not report the file), it
    returns the local path if and only if the terminal status is 0 or in
    200..299; for any other terminal result it throws the download failure
    that carries the status, and the ModelFileInfo cache is what it was
    before the call.  The hook and its draft agree. *)
Theorem C1_download_succeeds_iff_status_ok
    (model : WhisperModel.t) (s : Sys.t) (root : string)
    (r : option FileSystemDownloadResult.t) :
  storage_ready (Sys.world s) root ->
  stat_exists (Sys.world s) (model_file root model) = false ->
  Transfer.settles (World.network (Sys.world s) (WhisperModel.url model)) = Returned r ->
  settles_by_status (downloadModel model s) s (model_file root model) r /\
  settles_by_status (Draft.downloadModel model s) s (model_file root model) r.
Proof.
  intros Hready Habsent Hsettle. split.
  - exact (downloadModel_settles model s root r Hready Habsent Hsettle).
  - exact (Draft_downloadModel_settles model s root r Hready Habsent Hsettle).
Qed.

Lemma C1_witness :
  let s := Scenario.start (Scenario.world ∅ Scenario.transfer_not_found Scenario.expo_go) in
  let r := Some (FileSystemDownloadResult.mk 404) in
  settles_by_status (downloadModel Scenario.base s) s Scenario.base_file r /\
  settles_by_status (Draft.downloadModel Scenario.base s) s Scenario.base_file r.
Proof.
  apply (C1_download_succeeds_iff_status_ok Scenario.base
           (Scenario.start (Scenario.world ∅ Scenario.transfer_not_found Scenario.expo_go))
           Scenario.root (Some (FileSystemDownloadResult.mk 404))).
  - repeat split. discriminate.
  - reflexivity.
  - reflexivity.
Defined.

(** The scenario of the specification: an empty disk, ticks 500/2000 and
    2000/2000, terminal status 200. *)
Example scenario_download_base :
  let s := Scenario.start
             (Scenario.world ∅ Scenario.transfer_complete Scenario.expo_go) in
  let run := downloadModel Scenario.base s in
  fst run = Returned "file:///documents/whisper-models/ggml-base.bin" /\
  published "base" (Sys.trace (snd run)) = [(500 # 2000)%Q; (2000 # 2000)%Q; 1%Q] /\
  Manager.modelFiles (Sys.mgr (snd run)) !! "base"
    = Some (ModelFileInfo.mk "file:///documents/whisper-models/ggml-base.bin" 2000) /\
  Manager.isDownloading (Sys.mgr (snd run)) = false.
Proof. vm_compute. repeat split. Qed.

(** ** A file that is already on disk *)

(** C2, as amended: when the stat reports the model's file, [downloadModel]
    returns the local path after one directory creation and two stats, with
    no network transfer; the ModelFileInfo entry of the model becomes the
    path with the stat size; the progress map, the downloading flag and the
    disk's files are what they were before the call. *)
Theorem C2_existing_file_returns_without_transfer
    (model : WhisperModel.t) (s : Sys.t) (root : string) :
  storage_ready (Sys.world s) root ->
  stat_exists (Sys.world s) (model_file root model) = true ->
  let run := downloadModel model s in
  fst run = Returned (model_file root model) /\
  Sys.trace (snd run)
    = Sys.trace s
      ++ [FsCreateDirectory (model_directory root);
          FsInfo (model_file root model);
          Console LLog ("Model " ++ WhisperModel.id model ++ " already exists at "
                        ++ model_file root model);
          FsInfo (model_file root model)] /\
  filter is_network (Sys.trace (snd run)) = filter is_network (Sys.trace s) /\
  Manager.modelFiles (Sys.mgr (snd run))
    = <[WhisperModel.id model :=
          ModelFileInfo.mk (model_file root model)
            (stat_size (Sys.world s) (model_file root model))]>
        (Manager.modelFiles (Sys.mgr s)) /\
  Manager.downloadProgress (Sys.mgr (snd run)) = Manager.downloadProgress (Sys.mgr s) /\
  Manager.isDownloading (Sys.mgr (snd run)) = Manager.isDownloading (Sys.mgr s) /\
  World.files (Sys.world (snd run)) = World.files (Sys.world s).
Proof.
  intros Hready Hexists. cbn zeta.
  rewrite (downloadModel_run _ _ _ Hready), Hexists, downloadModel_existing_run.
  cbn [fst snd Sys.mgr Sys.world Sys.trace File.uri].
  rewrite stat_size_ensure_directory, ensure_directory_files.
  rewrite (info_warning_exists _ _ _ Hexists).
  rewrite stat_warning_exists by (rewrite stat_exists_ensure_directory; exact Hexists).
  repeat split.
  - rewrite <- app_assoc. reflexivity.
  - rewrite <- app_assoc, filter_app. cbn. apply app_nil_r.
Qed.

Lemma C2_witness :
  let s := Scenario.start
             (Scenario.world {[ Scenario.base_file := Some 2000 ]}
                Scenario.transfer_complete Scenario.expo_go) in
  let run := downloadModel Scenario.base s in
  fst run = Returned Scenario.base_file /\
  Manager.modelFiles (Sys.mgr (snd run))
    = <[ "base" := ModelFileInfo.mk Scenario.base_file 2000 ]> ∅ /\
  Manager.downloadProgress (Sys.mgr (snd run)) = ∅.
Proof.
  pose proof (C2_existing_file_returns_without_transfer Scenario.base
    (Scenario.start
       (Scenario.world {[ Scenario.base_file := Some 2000 ]}
          Scenario.transfer_complete Scenario.expo_go))
    Scenario.root) as H.
  cbn zeta in H.
  destruct H as (Hret & _ & _ & Hfiles & Hprogress & _ & _).
  - repeat split. discriminate.
  - reflexivity.
  - cbn zeta. split; [exact Hret|]. split; [|exact Hprogress].
    rewrite Hfiles. reflexivity.
Defined.

(** C2 as stated fails: a transfer that stops at 500/2000 with status 500
    leaves a partial file and the progress 1/4; the retry finds the file,
    returns its path at once, and the published progress stays 1/4, which
    is neither 1 nor an absent entry. *)
Lemma C2_counterexample :
  let s0 := Scenario.start
              (Scenario.world ∅ Scenario.transfer_interrupted Scenario.expo_go) in
  let first := downloadModel Scenario.base s0 in
  let retry := downloadModel Scenario.base (snd first) in
  fst first = Threw (DownloadFailedWithStatus (Some 500)) /\
  storage_ready (Sys.world (snd first)) Scenario.root /\
  stat_exists (Sys.world (snd first)) Scenario.base_file = true /\
  fst retry = Returned Scenario.base_file /\
  Manager.downloadProgress (Sys.mgr (snd retry)) !! "base" = Some (500 # 2000)%Q /\
  ~ progress_complete (Sys.mgr (snd retry)) "base".
Proof.
  vm_compute. repeat split; try discriminate.
Qed.

(** ** Published progress *)

Lemma published_app modelId tr1 tr2 :
  published modelId (tr1 ++ tr2) = published modelId tr1 ++ published modelId tr2.
Proof. unfold published. apply omap_app. Qed.

Lemma published_tick_events modelId message ticks :
  published modelId (tick_events modelId message ticks) = map fraction ticks.
Proof.
  induction ticks as [|t ticks IH]; [reflexivity|].
  cbn. rewrite String.eqb_refl. cbn. f_equal. exact IH.
Qed.

Lemma published_stat_warning modelId w model uri :
  published modelId (stat_warning w model uri) = [].
Proof. unfold stat_warning. destruct (stat_exists w uri); reflexivity. Qed.

Lemma published_info_warning modelId w model uri :
  published modelId (info_warning w model uri) = [].
Proof. unfold info_warning. destruct (stat w uri); reflexivity. Qed.

Lemma fraction_unknown_total t :
  DownloadProgressData.totalBytesExpectedToWrite t <= 0 -> fraction t = 0%Q.
Proof.
  intros H. unfold fraction.
  destruct (Z.ltb_spec 0 (DownloadProgressData.totalBytesExpectedToWrite t)); [lia|reflexivity].
Qed.

Lemma fraction_known_total t :
  0 < DownloadProgressData.totalBytesExpectedToWrite t ->
  fraction t
  = (inject_Z (DownloadProgressData.totalBytesWritten t)
     / inject_Z (DownloadProgressData.totalBytesExpectedToWrite t))%Q.
Proof.
  intros H. unfold fraction.
  destruct (Z.ltb_spec 0 (DownloadProgressData.totalBytesExpectedToWrite t)); [reflexivity|lia].
Qed.

Lemma nondecreasing_snoc l y :
  nondecreasing l -> Forall (fun x => (x <= y)%Q) l -> nondecreasing (l ++ [y]).
Proof.
  unfold nondecreasing. induction 1 as [|x l Hl IH Hx]; intros Hy.
  - constructor; constructor.
  - cbn. inversion Hy as [|? ? Hxy Hly]; subst. constructor.
    + apply IH, Hly.
    + apply Forall_app. split; [exact Hx|]. constructor; [exact Hxy|constructor].
Qed.

Lemma published_console modelId l message tr :
  published modelId (Console l message :: tr) = published modelId tr.
Proof. reflexivity. Qed.

Lemma published_download modelId url uri tr :
  published modelId (NetDownload url uri :: tr) = published modelId tr.
Proof. reflexivity. Qed.

Lemma published_info modelId uri tr :
  published modelId (FsInfo uri :: tr) = published modelId tr.
Proof. reflexivity. Qed.

Lemma published_create modelId uri tr :
  published modelId (FsCreateDirectory uri :: tr) = published modelId tr.
Proof. reflexivity. Qed.

Lemma published_same modelId q tr :
  published modelId (ProgressPublished modelId q :: tr) = q :: published modelId tr.
Proof. unfold published. cbn. rewrite String.eqb_refl. reflexivity. Qed.

Lemma published_nil modelId : published modelId [] = [].
Proof. reflexivity. Qed.

Ltac published_norm :=
  repeat first
    [ rewrite published_app | rewrite published_console | rewrite published_download
    | rewrite published_info | rewrite published_create | rewrite published_same
    | rewrite published_tick_events | rewrite published_stat_warning
    | rewrite published_info_warning | rewrite published_nil ].

(** The transfer branch publishes the tick fractions in order, then 1
    when the terminal result is accepted. *)
Lemma downloadModel_transfer_publishes model file s :
  let t := World.network (Sys.world s) (WhisperModel.url model) in
  published (WhisperModel.id model) (Sys.trace (snd (downloadModel_transfer model file s)))
  = published (WhisperModel.id model) (Sys.trace s) ++ run_publishes t.
Proof.
  cbn zeta. pose proof (downloadModel_transfer_run model file s) as H. cbn zeta in H.
  rewrite H. clear H. unfold run_publishes, terminal_ok.
  destruct (Transfer.settles (World.network (Sys.world s) (WhisperModel.url model))) as [r|e];
    [destruct (download_succeeded r)|];
    cbn [snd Sys.trace]; published_norm; cbn [app];
    rewrite <- ?app_assoc, ?app_nil_r; reflexivity.
Qed.

Lemma last_snoc_Q (l : list Q) (x : Q) : last (l ++ [x]) = Some x.
Proof. apply last_snoc. Qed.

(** C3, as amended: a run of [downloadModel] that reaches the transfer
    publishes, for its model, exactly the fraction of every tick in arrival
    order (written / expected, or 0 when the expected total is not
    positive), followed by 1 when the terminal result is accepted.  On
    success the last published value and the value left in the progress map
    are exactly 1.  The code does not order the values itself: the
    published sequence is non-decreasing whenever the tick fractions are
    non-decreasing and none exceeds 1. *)
Theorem C3_published_progress
    (model : WhisperModel.t) (s : Sys.t) (root : string) :
  storage_ready (Sys.world s) root ->
  stat_exists (Sys.world s) (model_file root model) = false ->
  let t := World.network (Sys.world s) (WhisperModel.url model) in
  let run := downloadModel model s in
  published (WhisperModel.id model) (Sys.trace (snd run))
    = published (WhisperModel.id model) (Sys.trace s) ++ run_publishes t /\
  (terminal_ok (Transfer.settles t) = true ->
     fst run = Returned (model_file root model) /\
     last (run_publishes t) = Some 1%Q /\
     Manager.downloadProgress (Sys.mgr (snd run)) !! WhisperModel.id model = Some 1%Q) /\
  (nondecreasing (map fraction (Transfer.ticks t)) ->
   Forall (fun tick => (fraction tick <= 1)%Q) (Transfer.ticks t) ->
   nondecreasing (run_publishes t)).
Proof.
  intros Hready Habsent. cbn zeta.
  rewrite (downloadModel_run _ _ _ Hready), Habsent.
  split; [|split].
  - rewrite downloadModel_transfer_publishes. cbn [Sys.world Sys.trace].
    rewrite ensure_directory_network. published_norm.
    rewrite <- ?app_assoc, ?app_nil_r. reflexivity.
  - intros Hok.
    pose proof (downloadModel_transfer_run model (File.mk (model_file root model))
      (Sys.mk (Sys.mgr s) (ensure_directory (Sys.world s) (model_directory root))
         (Sys.trace s ++ FsCreateDirectory (model_directory root)
            :: FsInfo (model_file root model)
            :: info_warning (Sys.world s) model (model_file root model)))) as H.
    cbn zeta in H. cbn [Sys.world Sys.mgr Sys.trace File.uri] in H.
    rewrite ensure_directory_network in H. rewrite H. clear H.
    unfold run_publishes. rewrite Hok. unfold terminal_ok in Hok.
    destruct (Transfer.settles (World.network (Sys.world s) (WhisperModel.url model)))
      as [r|e]; [|discriminate].
    rewrite Hok. cbn [fst snd Sys.mgr Manager.downloadProgress
                      Manager.with_isDownloading Manager.map_downloadProgress].
    split; [reflexivity|]. split; [apply last_snoc_Q|]. apply lookup_insert_eq.
  - intros Hsorted Hbound. unfold run_publishes.
    destruct (terminal_ok _).
    + apply nondecreasing_snoc; [exact Hsorted|].
      apply Forall_map. exact Hbound.
    + rewrite app_nil_r. exact Hsorted.
Qed.

(** The ticks of one transfer with a fixed announced total, written bytes
    that only grow and never pass the total, give fractions that are
    non-decreasing and at most 1. *)
Lemma fixed_total_ticks_regular (total : Z) (ticks : list DownloadProgressData.t) :
  Forall (fun t => DownloadProgressData.totalBytesExpectedToWrite t = total) ticks ->
  Forall (fun t => 0 <= DownloadProgressData.totalBytesWritten t <= Z.max total 0) ticks ->
  StronglySorted Z.le (map DownloadProgressData.totalBytesWritten ticks) ->
  nondecreasing (map fraction ticks) /\
  Forall (fun t => (fraction t <= 1)%Q) ticks.
Proof.
  intros Htotal Hrange Hsorted.
  assert (Hfrac : forall t, DownloadProgressData.totalBytesExpectedToWrite t = total ->
            fraction t = if 0 <? total
                         then (inject_Z (DownloadProgressData.totalBytesWritten t)
                               / inject_Z total)%Q
                         else 0%Q).
  { intros t <-. reflexivity. }
  assert (Hle : forall a b, 0 < total -> a <= b ->
            (inject_Z a / inject_Z total <= inject_Z b / inject_Z total)%Q).
  { intros a b Hpos Hab. unfold Qdiv. apply Qmult_le_compat_r.
    - rewrite <- Zle_Qle. exact Hab.
    - apply Qinv_le_0_compat. replace 0%Q with (inject_Z 0) by reflexivity.
      rewrite <- Zle_Qle. lia. }
  split.
  - unfold nondecreasing.
    induction ticks as [|t ticks IH]; [constructor|].
    inversion Htotal as [|? ? Ht Htotal']; subst.
    inversion Hrange as [|? ? Hr Hrange']; subst.
    cbn in Hsorted. inversion Hsorted as [|? ? Hs Hfirst]; subst.
    cbn. constructor; [apply IH; assumption|].
    apply Forall_map. rewrite Forall_map in Hfirst.
    rewrite Forall_forall in Hfirst, Htotal' |- *.
    intros t' Hin. rewrite (Hfrac t eq_refl), (Hfrac t' (Htotal' _ Hin)).
    destruct (Z.ltb_spec 0 (DownloadProgressData.totalBytesExpectedToWrite t)) as [Hpos|Hneg].
    + apply Hle; [exact Hpos|]. apply Hfirst, Hin.
    + apply Qle_refl.
  - rewrite Forall_forall in Htotal, Hrange |- *. intros t Hin.
    rewrite (Hfrac t (Htotal _ Hin)).
    destruct (Z.ltb_spec 0 total) as [Hpos|Hneg]; [|discriminate].
    apply Qle_shift_div_r.
    + replace 0%Q with (inject_Z 0) by reflexivity. rewrite <- Zlt_Qlt. exact Hpos.
    + rewrite Qmult_1_l, <- Zle_Qle. specialize (Hrange _ Hin). lia.
Qed.

Lemma C3_witness :
  let s := Scenario.start
             (Scenario.world ∅ Scenario.transfer_complete Scenario.expo_go) in
  let run := downloadModel Scenario.base s in
  published "base" (Sys.trace (snd run)) = [(500 # 2000)%Q; (2000 # 2000)%Q; 1%Q] /\
  last (run_publishes Scenario.transfer_complete) = Some 1%Q /\
  nondecreasing (run_publishes Scenario.transfer_complete).
Proof.
  destruct (C3_published_progress Scenario.base
              (Scenario.start
                 (Scenario.world ∅ Scenario.transfer_complete Scenario.expo_go))
              Scenario.root) as (Hpub & Hlast & Hmono).
  - repeat split. discriminate.
  - reflexivity.
  - cbn zeta. split; [exact Hpub|]. split.
    + apply Hlast. reflexivity.
    + apply Hmono.
      * repeat constructor; discriminate.
      * repeat constructor; discriminate.
Defined.

(** C3 as stated fails: the code publishes each ratio as it arrives.  A
    transfer whose body is larger than the announced total (600/1000, then
    1500/1000) ends with status 200; the values published for the model are
    3/5, 3/2 and then 1, which goes down. *)
Lemma C3_counterexample :
  let s := Scenario.start
             (Scenario.world ∅ Scenario.transfer_compressed Scenario.expo_go) in
  let run := downloadModel Scenario.base s in
  fst run = Returned Scenario.base_file /\
  published "base" (Sys.trace (snd run)) = [(600 # 1000)%Q; (1500 # 1000)%Q; 1%Q] /\
  ~ nondecreasing (published "base" (Sys.trace (snd run))).
Proof.
  cbn zeta. split; [reflexivity|]. split; [reflexivity|].
  change (published "base" _) with [(600 # 1000)%Q; (1500 # 1000)%Q; 1%Q].
  unfold nondecreasing. intros H.
  inversion H as [|? ? H1 _]; subst.
  inversion H1 as [|? ? _ H2]; subst.
  inversion H2 as [|? ? H3 _]; subst.
  revert H3. vm_compute. intros H3. apply H3. reflexivity.
Qed.

(** ** Resolving a model id *)

Lemma find_model_unknown catalog modelId :
  ~ known catalog modelId -> find_model catalog modelId = None.
Proof.
  unfold known, find_model. induction catalog as [|m catalog IH]; intros Hno.
  - reflexivity.
  - cbn. destruct (String.eqb_spec (WhisperModel.id m) modelId) as [Heq|Hne].
    + exfalso. apply Hno. exists m. split; [left; reflexivity|exact Heq].
    + apply IH. intros (m' & Hin & Hid). apply Hno. exists m'. split; [right; exact Hin|exact Hid].
Qed.

Lemma find_model_known catalog modelId model :
  find_model catalog modelId = Some model ->
  In model catalog /\ WhisperModel.id model = modelId.
Proof.
  unfold find_model. intros H. apply find_some in H. destruct H as [Hin Heq].
  split; [exact Hin|]. apply String.eqb_eq. exact Heq.
Qed.

(** C4: for an id that the catalog does not hold, [initializeWhisperModel]
    throws "Invalid model selected" and the whole system is as before the
    call: no call to the file system, the network or the native module is
    made, no flag, cache or handle changes.  The draft's [initializeModel]
    does the same with its own catalog and message. *)
Theorem C4_unknown_model_fails_without_effects
    (modelId : string) (options : option InitOptions.t) (s : Sys.t) :
  (~ known WHISPER_MODELS modelId ->
   on_render (fun rendered => initializeWhisperModel rendered modelId options) s
   = (Threw InvalidModelSelected, s)) /\
  (~ known Draft.WHISPER_MODELS modelId ->
   Draft.initializeModel modelId s = (Threw (ModelWithIdNotFound modelId), s)).
Proof.
  split; intros Hunknown.
  - unfold on_render, initializeWhisperModel.
    rewrite (find_model_unknown _ _ Hunknown). reflexivity.
  - unfold Draft.initializeModel.
    rewrite (find_model_unknown _ _ Hunknown). reflexivity.
Qed.

Lemma C4_witness :
  let s := Scenario.start
             (Scenario.world ∅ Scenario.transfer_complete
                (ImportResolves (Some Scenario.native_with_vad))) in
  on_render (fun rendered =>
               initializeWhisperModel rendered "medium"
                 (Some (InitOptions.mk (Some true)))) s
  = (Threw InvalidModelSelected, s) /\
  Draft.initializeModel "medium" s = (Threw (ModelWithIdNotFound "medium"), s).
Proof.
  assert (Hmain : ~ known WHISPER_MODELS "medium").
  { intros (m & Hin & Hid). cbn in Hin.
    repeat (destruct Hin as [<-|Hin]; [discriminate Hid|]). exact Hin. }
  assert (Hdraft : ~ known Draft.WHISPER_MODELS "medium").
  { intros (m & Hin & Hid). cbn in Hin.
    repeat (destruct Hin as [<-|Hin]; [discriminate Hid|]). exact Hin. }
  cbn zeta. split.
  - apply (C4_unknown_model_fails_without_effects "medium"). exact Hmain.
  - apply (C4_unknown_model_fails_without_effects "medium" None). exact Hdraft.
Defined.

(** ** Running [initializeWhisperModel] *)

Lemma loadWhisperNative_run s :
  loadWhisperNative s =
    (Returned (native_module (Sys.world s)),
     observe (NativeImport
                :: match native_module (Sys.world s) with
                   | Some _ => []
                   | None => [native_warning]
                   end) s).
Proof.
  destruct s as [m w tr].
  unfold loadWhisperNative, try_catch, bind, emit, get_world, native_module, observe.
  cbn [Sys.mgr Sys.world Sys.trace].
  destruct (World.whisper_rn w) as [e|[mod_|]]; cbn; rewrite <- ?app_assoc; try reflexivity.
  destruct (WhisperNative.initWhisper mod_); cbn; rewrite <- ?app_assoc; reflexivity.
Qed.

Lemma initializeWhisperModel_download_fails rendered modelId model options s e s2 :
  find_model WHISPER_MODELS modelId = Some model ->
  downloadModel model (entering s model) = (Threw e, s2) ->
  initializeWhisperModel rendered modelId options s
  = (Threw e, leaving s2 [Console LError "Model initialization error:"]).
Proof.
  intros Hfind Hdl. unfold initializeWhisperModel. rewrite Hfind.
  unfold try_finally, try_catch.
  unfold bind at 1. unfold setIsInitializingModel at 1, update at 1.
  unfold bind at 1. unfold console at 1, emit at 1.
  cbn [Sys.mgr Sys.world Sys.trace]. fold (entering s model).
  unfold bind at 1. rewrite Hdl. destruct s2; reflexivity.
Qed.

Lemma initializeWhisperModel_native_unavailable rendered modelId model options s p s2 :
  find_model WHISPER_MODELS modelId = Some model ->
  downloadModel model (entering s model) = (Returned p, s2) ->
  native_module (Sys.world s2) = None ->
  initializeWhisperModel rendered modelId options s
  = (Threw NativeModuleNotAvailable,
     leaving s2 [NativeImport; native_warning; Console LError "Model initialization error:"]).
Proof.
  intros Hfind Hdl Hnative. unfold initializeWhisperModel. rewrite Hfind.
  unfold try_finally, try_catch.
  unfold bind at 1. unfold setIsInitializingModel at 1, update at 1.
  unfold bind at 1. unfold console at 1, emit at 1.
  cbn [Sys.mgr Sys.world Sys.trace]. fold (entering s model).
  unfold bind at 1. rewrite Hdl.
  unfold bind at 1. rewrite loadWhisperNative_run, Hnative.
  destruct s2 as [m2 w2 tr2]. cbn. rewrite <- !app_assoc. reflexivity.
Qed.

(** With the native module present and the context created, a VAD step
    that yields no handle leaves the call successful; the [vadContext] it
    returns is the one of the render the callback was created in. *)
Lemma initializeWhisperModel_vad_fails rendered modelId model s p s2 native initWhisper context :
  find_model WHISPER_MODELS modelId = Some model ->
  downloadModel model (entering s model) = (Returned p, s2) ->
  native_module (Sys.world s2) = Some native ->
  WhisperNative.initWhisper native = Some initWhisper ->
  initWhisper p = Returned context ->
  vad_fails native p ->
  initializeWhisperModel rendered modelId (Some (InitOptions.mk (Some true))) s
  = (Returned (InitResult.mk context (Manager.vadContext rendered)),
     Sys.mk
       (Manager.with_isInitializingModel false
          (Manager.with_currentModelId (Some modelId)
             (Manager.with_whisperContext (Some context) (Sys.mgr s2))))
       (Sys.world s2)
       (Sys.trace s2
        ++ NativeImport :: NativeInitWhisper p
        :: Console LLog ("Whisper context initialized for model: " ++ WhisperModel.label model)
        :: vad_failure_events native p)).
Proof.
  intros Hfind Hdl Hnative Hinit Hctx Hvad. unfold initializeWhisperModel. rewrite Hfind.
  unfold try_finally, try_catch.
  unfold bind at 1. unfold setIsInitializingModel at 1, update at 1.
  unfold bind at 1. unfold console at 1, emit at 1.
  cbn [Sys.mgr Sys.world Sys.trace]. fold (entering s model).
  unfold bind at 1. rewrite Hdl.
  unfold bind at 1. rewrite loadWhisperNative_run, Hnative.
  unfold call_initWhisper. rewrite Hinit.
  unfold vad_failure_events. unfold vad_fails in Hvad.
  destruct s2 as [m2 w2 tr2].
  destruct (WhisperNative.initWhisperVad native) as [initWhisperVad|] eqn:Hvadf.
  - destruct Hvad as [e He].
    unfold initializeVad, try_catch.
    unfold bind, emit, console, emit, setWhisperContext, setCurrentModelId, update, observe.
    cbn. rewrite settle_run, Hctx. cbn. rewrite Hvadf. cbn. rewrite settle_run, He. cbn.
    rewrite <- !app_assoc. reflexivity.
  - unfold initializeVad, try_catch.
    unfold bind, emit, console, emit, setWhisperContext, setCurrentModelId, update, observe.
    cbn. rewrite settle_run, Hctx. cbn. rewrite Hvadf. cbn.
    rewrite <- !app_assoc. reflexivity.
Qed.

(** ** A failing VAD initialisation *)

(** C5, the code at a failing input: "base" is initialised with VAD, which
    works and stores handle 3; then "small" is initialised with VAD, which
    throws.  The second call does not fail and returns its new engine
    handle, but the [vadContext] it returns is handle 3 of the earlier
    model, not null: the function returns the [vadContext] of its closure. *)
Theorem C5_failed_vad_returns_previous_handle :
  let s0 := Scenario.start
              (Scenario.world ∅ Scenario.transfer_complete
                 (ImportResolves (Some Scenario.native_vad_for_base))) in
  let first := on_render (fun r => initializeWhisperModel r "base" Scenario.with_vad) s0 in
  let second := on_render (fun r => initializeWhisperModel r "small" Scenario.with_vad) (snd first) in
  Manager.vadContext (Sys.mgr (snd first)) = Some 3%nat /\
  vad_fails Scenario.native_vad_for_base (model_file Scenario.root Scenario.small) /\
  fst second = Returned (InitResult.mk Scenario.context8 (Some 3%nat)) /\
  Manager.whisperContext (Sys.mgr (snd second)) = Some Scenario.context8 /\
  Manager.currentModelId (Sys.mgr (snd second)) = Some "small" /\
  Manager.vadContext (Sys.mgr (snd second)) = Some 3%nat.
Proof.
  cbn zeta. split; [reflexivity|]. split.
  - cbn. eexists. reflexivity.
  - vm_compute. repeat split.
Qed.

(** ** The native module is probed after the download *)

Lemma native_module_ensure_directory w d :
  native_module (ensure_directory w d) = native_module w.
Proof. unfold native_module. rewrite ensure_directory_whisper_rn. reflexivity. Qed.

Lemma native_module_write_file w uri leaves :
  native_module (write_file w uri leaves) = native_module w.
Proof. destruct leaves; reflexivity. Qed.

(** C10: for a catalog entry, with the model directory available, a
    download that succeeds (the stat reports the file, or the transfer ends
    with an accepted status) and no native module, [initializeWhisperModel]
    runs [downloadModel] to its end and only then probes the native module:
    it throws the engine-unavailable error from the state the download left,
    with the import attempt, its warning and the error log appended and the
    initializing flag cleared.  The model's ModelFileInfo entry is there,
    an absent file has been transferred to disk, and the engine slot is what
    it was. *)
Theorem C10_download_precedes_native_probe
    (modelId : string) (model : WhisperModel.t) (options : option InitOptions.t)
    (s : Sys.t) (root : string) :
  find_model WHISPER_MODELS modelId = Some model ->
  storage_ready (Sys.world s) root ->
  native_module (Sys.world s) = None ->
  (stat_exists (Sys.world s) (model_file root model) = true \/
   terminal_ok (Transfer.settles (World.network (Sys.world s) (WhisperModel.url model)))
   = true) ->
  let run := on_render (fun r => initializeWhisperModel r modelId options) s in
  let downloaded := downloadModel model (entering s model) in
  fst downloaded = Returned (model_file root model) /\
  run = (Threw NativeModuleNotAvailable,
         leaving (snd downloaded)
           [NativeImport; native_warning; Console LError "Model initialization error:"]) /\
  Manager.modelFiles (Sys.mgr (snd run)) !! WhisperModel.id model
    = Some (ModelFileInfo.mk (model_file root model)
              (stat_size (Sys.world (snd run)) (model_file root model))) /\
  (stat_exists (Sys.world s) (model_file root model) = false ->
   In (NetDownload (WhisperModel.url model) (model_file root model))
      (Sys.trace (snd downloaded)) /\
   World.files (Sys.world (snd run))
   = World.files
       (write_file (Sys.world s) (model_file root model)
          (Transfer.leaves (World.network (Sys.world s) (WhisperModel.url model))))) /\
  Manager.whisperContext (Sys.mgr (snd run)) = Manager.whisperContext (Sys.mgr s) /\
  Manager.currentModelId (Sys.mgr (snd run)) = Manager.currentModelId (Sys.mgr s) /\
  Manager.vadContext (Sys.mgr (snd run)) = Manager.vadContext (Sys.mgr s) /\
  Manager.isInitializingModel (Sys.mgr (snd run)) = false.
Proof.
  intros Hfind Hready Hnative Hdl. cbn zeta.
  assert (Hready' : storage_ready (Sys.world (entering s model)) root) by exact Hready.
  pose proof (downloadModel_run model (entering s model) root Hready') as Hrun.
  cbn [entering Sys.world Sys.mgr Sys.trace] in Hrun.
  destruct (stat_exists (Sys.world s) (model_file root model)) eqn:Hexists.
  - rewrite downloadModel_existing_run in Hrun.
    cbn [Sys.world Sys.mgr Sys.trace File.uri] in Hrun.
    unfold on_render.
    erewrite initializeWhisperModel_native_unavailable;
      [|exact Hfind|exact Hrun|cbn; rewrite native_module_ensure_directory; exact Hnative].
    rewrite Hrun. cbn [fst snd leaving Sys.mgr Sys.world Sys.trace].
    repeat split; try discriminate.
    cbn. apply lookup_insert_eq.
  - destruct Hdl as [Hdl|Hdl]; [discriminate|].
    pose proof (downloadModel_transfer_run model (File.mk (model_file root model))) as Htr.
    cbn zeta in Htr. rewrite Htr in Hrun. clear Htr.
    cbn [Sys.world Sys.mgr Sys.trace File.uri] in Hrun.
    rewrite ensure_directory_network in Hrun.
    unfold terminal_ok in Hdl.
    destruct (Transfer.settles (World.network (Sys.world s) (WhisperModel.url model)))
      as [r|e]; [|discriminate].
    rewrite Hdl in Hrun.
    unfold on_render.
    erewrite initializeWhisperModel_native_unavailable;
      [|exact Hfind|exact Hrun
       |cbn; rewrite native_module_write_file, native_module_ensure_directory; exact Hnative].
    rewrite Hrun. cbn [fst snd leaving Sys.mgr Sys.world Sys.trace].
    repeat split.
    + cbn. apply lookup_insert_eq.
    + repeat first [rewrite in_app_iff | progress cbn [In]].
      left. right. right. left. reflexivity.
    + destruct (Transfer.leaves _); cbn; rewrite ensure_directory_files; reflexivity.
Qed.

Lemma C10_witness :
  let s := Scenario.start
             (Scenario.world ∅ Scenario.transfer_complete Scenario.expo_go) in
  let run := on_render (fun r => initializeWhisperModel r "base" None) s in
  fst run = Threw NativeModuleNotAvailable /\
  Manager.modelFiles (Sys.mgr (snd run)) !! "base"
    = Some (ModelFileInfo.mk Scenario.base_file 2000) /\
  World.files (Sys.world (snd run)) = {[ Scenario.base_file := Some 2000 ]}.
Proof.
  pose proof (C10_download_precedes_native_probe "base" Scenario.base None
    (Scenario.start (Scenario.world ∅ Scenario.transfer_complete Scenario.expo_go))
    Scenario.root) as H.
  cbn zeta in H.
  destruct H as (_ & Hrun & Hentry & Hdisk & _).
  - reflexivity.
  - repeat split. discriminate.
  - reflexivity.
  - right. reflexivity.
  - cbn zeta. split; [rewrite Hrun; reflexivity|]. split.
    + etransitivity; [exact Hentry|]. rewrite Hrun. reflexivity.
    + destruct Hdisk as [_ Hfiles]; [reflexivity|].
      etransitivity; [exact Hfiles|]. reflexivity.
Defined.

(** ** Running [deleteModel] *)

Lemma File_delete_run f s :
  File_delete f s =
    match World.delete_error (Sys.world s) (File.uri f) with
    | Some e => (Threw (Foreign e), observe [FsDelete (File.uri f)] s)
    | None =>
        (Returned tt,
         Sys.mk (Sys.mgr s)
           (with_files (Sys.world s) (delete (File.uri f) (World.files (Sys.world s))))
           (Sys.trace s ++ [FsDelete (File.uri f)]))
    end.
Proof.
  destruct s as [m w tr]. unfold File_delete, bind, emit, get_world, observe. cbn.
  destruct (World.delete_error w (File.uri f)); reflexivity.
Qed.

(** The [try] block of [deleteModel]. *)
Lemma remove_backing_file_run path s :
  (info <- File_info (File.mk path) ;;
   if FileInfo.exists_ info then
     File_delete (File.mk path) ;;
     console LLog ("Deleted model file at " ++ path)
   else ret tt)%task s
  = (removal (Sys.world s) path,
     Sys.mk (Sys.mgr s) (after_removal (Sys.world s) path)
       (Sys.trace s ++ removal_events (Sys.world s) path)).
Proof.
  unfold bind at 1. rewrite File_info_stat.
  unfold removal, removal_events, after_removal, stat_exists.
  cbn [File.uri]. destruct s as [m w tr]. cbn [Sys.mgr Sys.world Sys.trace observe].
  destruct (stat w path) as [[[] sz]|e]; cbn [FileInfo.exists_]; try reflexivity.
  unfold bind. rewrite File_delete_run. cbn [File.uri Sys.mgr Sys.world Sys.trace observe].
  destruct (World.delete_error w path); unfold observe, console, emit; cbn;
    rewrite <- ?app_assoc; reflexivity.
Qed.

Lemma get_member_own {A} (o : gmap string A) k a :
  o !! k = Some a -> get_member o k = Own a.
Proof. unfold get_member. intros ->. reflexivity. Qed.

Lemma get_member_undefined {A} (o : gmap string A) k :
  o !! k = None -> inherited k = false -> get_member o k = Undefined.
Proof. unfold get_member. intros -> ->. reflexivity. Qed.

Lemma get_member_inherited {A} (o : gmap string A) k :
  o !! k = None -> inherited k = true -> get_member o k = Inherited.
Proof. unfold get_member. intros -> ->. reflexivity. Qed.

Lemma deleteModel_not_downloaded rendered modelId s :
  Manager.modelFiles rendered !! modelId = None ->
  inherited modelId = false ->
  deleteModel rendered modelId s
  = (Returned tt,
     observe [Console LWarn ("Attempted to delete non-downloaded model: " ++ modelId)] s).
Proof.
  intros H Hi. unfold deleteModel. rewrite (get_member_undefined _ _ H Hi). reflexivity.
Qed.

(** For a key of [Object.prototype] that the cache does not own, the
    call fails in its [try] block, before any file-system call and any
    state change. *)
Lemma deleteModel_inherited rendered modelId s :
  Manager.modelFiles rendered !! modelId = None ->
  inherited modelId = true ->
  deleteModel rendered modelId s
  = (Threw (Foreign "TypeError"),
     observe [Console LError ("Failed to delete model " ++ modelId ++ ":")] s).
Proof.
  intros H Hi. unfold deleteModel. rewrite (get_member_inherited _ _ H Hi).
  destruct s. reflexivity.
Qed.

Lemma deleteModel_removal_throws rendered modelId fileInfo s e :
  Manager.modelFiles rendered !! modelId = Some fileInfo ->
  removal (Sys.world s) (ModelFileInfo.path fileInfo) = Threw e ->
  deleteModel rendered modelId s
  = (Threw e,
     Sys.mk (Sys.mgr s) (Sys.world s)
       (Sys.trace s ++ removal_events (Sys.world s) (ModelFileInfo.path fileInfo)
        ++ [Console LError ("Failed to delete model " ++ modelId ++ ":")])).
Proof.
  intros Hentry Hremoval. unfold deleteModel. rewrite (get_member_own _ _ _ Hentry).
  unfold bind at 1. unfold try_catch at 1.
  rewrite remove_backing_file_run, Hremoval.
  assert (Hdisk : after_removal (Sys.world s) (ModelFileInfo.path fileInfo) = Sys.world s).
  { unfold removal in Hremoval. unfold after_removal, stat_exists.
    destruct (stat (Sys.world s) (ModelFileInfo.path fileInfo)) as [[[] sz]|e'];
      cbn [FileInfo.exists_] in *; try reflexivity; try discriminate.
    destruct (World.delete_error (Sys.world s) (ModelFileInfo.path fileInfo));
      [reflexivity|discriminate]. }
  rewrite Hdisk. destruct s as [m w tr]. cbn. rewrite <- !app_assoc. reflexivity.
Qed.

Lemma deleteModel_current rendered modelId fileInfo s :
  Manager.modelFiles rendered !! modelId = Some fileInfo ->
  removal (Sys.world s) (ModelFileInfo.path fileInfo) = Returned tt ->
  Manager.currentModelId rendered = Some modelId ->
  deleteModel rendered modelId s
  = (Returned tt,
     Sys.mk (cleared modelId (Sys.mgr s))
       (after_removal (Sys.world s) (ModelFileInfo.path fileInfo))
       (Sys.trace s ++ removal_events (Sys.world s) (ModelFileInfo.path fileInfo)
        ++ release_events (Manager.whisperContext rendered))).
Proof.
  intros Hentry Hremoval Hcurrent. unfold deleteModel. rewrite (get_member_own _ _ _ Hentry).
  unfold bind at 1. unfold try_catch at 1.
  rewrite remove_backing_file_run, Hremoval.
  rewrite bool_decide_eq_true_2 by exact Hcurrent.
  unfold release_events, cleared.
  destruct s as [m w tr]. cbn [Sys.mgr Sys.world Sys.trace].
  destruct (Manager.whisperContext rendered) as [ctx|]; [|cbn; rewrite app_nil_r; reflexivity].
  destruct (WhisperContext.release ctx) as [[|e]|];
    cbn; rewrite <- ?app_assoc, ?app_nil_r; reflexivity.
Qed.

Lemma deleteModel_other rendered modelId fileInfo s :
  Manager.modelFiles rendered !! modelId = Some fileInfo ->
  removal (Sys.world s) (ModelFileInfo.path fileInfo) = Returned tt ->
  Manager.currentModelId rendered <> Some modelId ->
  deleteModel rendered modelId s
  = (Returned tt,
     Sys.mk
       (Manager.map_downloadProgress (fun prev => delete modelId prev)
          (Manager.map_modelFiles (fun prev => delete modelId prev) (Sys.mgr s)))
       (after_removal (Sys.world s) (ModelFileInfo.path fileInfo))
       (Sys.trace s ++ removal_events (Sys.world s) (ModelFileInfo.path fileInfo))).
Proof.
  intros Hentry Hremoval Hcurrent. unfold deleteModel. rewrite (get_member_own _ _ _ Hentry).
  unfold bind at 1. unfold try_catch at 1.
  rewrite remove_backing_file_run, Hremoval.
  rewrite bool_decide_eq_false_2 by exact Hcurrent.
  destruct s as [m w tr]. reflexivity.
Qed.

(** ** Frames of the hook functions *)

Section Respects.
Variable R : Manager.t -> Manager.t -> Prop.
Hypothesis R_refl : forall m, R m m.
Hypothesis R_trans : forall a b c, R a b -> R b c -> R a c.

Lemma respects_ret {A} (a : A) : respects R (ret a).
Proof. intros s. apply R_refl. Qed.

Lemma respects_throw {A} e : respects R (@throw A e).
Proof. intros s. apply R_refl. Qed.

Lemma respects_emit e : respects R (emit e).
Proof. intros s. apply R_refl. Qed.

Lemma respects_console l message : respects R (console l message).
Proof. intros s. apply R_refl. Qed.

Lemma respects_get_world : respects R get_world.
Proof. intros s. apply R_refl. Qed.

Lemma respects_put_world w : respects R (put_world w).
Proof. intros s. apply R_refl. Qed.

Lemma respects_settle {A} (c : Completion A) : respects R (settle c).
Proof. intros s. rewrite settle_run. apply R_refl. Qed.

Lemma respects_update f : (forall m, R m (f m)) -> respects R (update f).
Proof. intros H s. apply H. Qed.

Lemma respects_bind {A B} (m : Task A) (k : A -> Task B) :
  respects R m -> (forall a, respects R (k a)) -> respects R (bind m k).
Proof.
  intros Hm Hk s. unfold bind. specialize (Hm s).
  destruct (m s) as [[a|e] s1]; cbn in *.
  - eapply R_trans; [exact Hm|]. apply Hk.
  - exact Hm.
Qed.

Lemma respects_try_catch {A} (m : Task A) (h : Error -> Task A) :
  respects R m -> (forall e, respects R (h e)) -> respects R (try_catch m h).
Proof.
  intros Hm Hh s. unfold try_catch. specialize (Hm s).
  destruct (m s) as [[a|e] s1]; cbn in *.
  - exact Hm.
  - eapply R_trans; [exact Hm|]. apply Hh.
Qed.

Lemma respects_try_finally {A} (m : Task A) (f : Task unit) :
  respects R m -> respects R f -> respects R (try_finally m f).
Proof.
  intros Hm Hf s. unfold try_finally. specialize (Hm s).
  destruct (m s) as [c s1]. specialize (Hf s1).
  destruct (f s1) as [[[]|e] s2]; cbn in *; eapply R_trans; eassumption.
Qed.

Lemma respects_for_each {A} (l : list A) (f : A -> Task unit) :
  (forall a, respects R (f a)) -> respects R (for_each l f).
Proof.
  intros Hf. induction l as [|a l IH]; cbn.
  - apply respects_ret.
  - apply respects_bind; [apply Hf|intros _; exact IH].
Qed.

Lemma respects_map_task {A B} (f : A -> Task B) (l : list A) :
  (forall a, respects R (f a)) -> respects R (map_task f l).
Proof.
  intros Hf. induction l as [|a l IH]; cbn.
  - apply respects_ret.
  - apply respects_bind; [apply Hf|intros b].
    apply respects_bind; [exact IH|intros bs]. apply respects_ret.
Qed.

(** The primitives of the platform change no hook state. *)
Lemma respects_Paths_document : respects R Paths_document.
Proof.
  apply respects_bind; [apply respects_get_world|intros w].
  destruct (World.document w); auto using respects_throw, respects_ret.
Qed.

Lemma respects_Directory_create d : respects R (Directory_create d).
Proof.
  apply respects_bind; [apply respects_emit|intros _].
  apply respects_bind; [apply respects_get_world|intros w].
  destruct (World.create_error w); [apply respects_throw|].
  case_bool_decide; [apply respects_ret|apply respects_put_world].
Qed.

Lemma respects_File_info f : respects R (File_info f).
Proof. intros s. rewrite File_info_stat. apply R_refl. Qed.

Lemma respects_File_delete f : respects R (File_delete f).
Proof.
  intros s. rewrite File_delete_run.
  destruct (World.delete_error (Sys.world s) (File.uri f)); apply R_refl.
Qed.

Lemma respects_loadWhisperNative : respects R loadWhisperNative.
Proof. intros s. rewrite loadWhisperNative_run. apply R_refl. Qed.

Lemma respects_getModelDirectory : respects R getModelDirectory.
Proof.
  apply respects_bind.
  - apply respects_try_catch; [apply respects_Paths_document|intros e; apply respects_throw].
  - intros [root|]; [|apply respects_throw].
    destruct (String.eqb (Directory.uri root) EmptyString); [apply respects_throw|].
    apply respects_bind; [|intros _; apply respects_ret].
    apply respects_try_catch; [apply respects_Directory_create|intros e].
    apply respects_bind; [apply respects_console|intros _; apply respects_throw].
Qed.
End Respects.

Lemma grows_refl m : grows m m.
Proof. repeat split. auto. Qed.

Lemma grows_trans a b c : grows a b -> grows b c -> grows a c.
Proof.
  intros (Hw1 & Hc1 & Hf1) (Hw2 & Hc2 & Hf2). repeat split; [congruence|congruence|auto].
Qed.

Lemma grows_insert modelId info m :
  grows m (Manager.map_modelFiles (fun prev => <[modelId := info]> prev) m).
Proof.
  repeat split. intros k Hk. cbn.
  destruct (decide (modelId = k)) as [->|Hne].
  - rewrite lookup_insert_eq. eauto.
  - rewrite lookup_insert_ne by exact Hne. exact Hk.
Qed.

Lemma grows_union fileMap m :
  grows m (Manager.map_modelFiles (fun prev => fileMap ∪ prev) m).
Proof.
  repeat split. intros k [v Hk]. cbn.
  destruct (fileMap !! k) as [v'|] eqn:Hf.
  - exists v'. apply lookup_union_Some_l. exact Hf.
  - exists v. rewrite lookup_union_r by exact Hf. exact Hk.
Qed.

Lemma respects_grows_setModelFiles_insert modelId info :
  respects grows (setModelFiles (fun prev => <[modelId := info]> prev)).
Proof. apply respects_update. intros m. apply grows_insert. Qed.

Lemma respects_grows_setDownloadProgress f : respects grows (setDownloadProgress f).
Proof. apply respects_update. intros m. repeat split. auto. Qed.

Lemma respects_grows_setIsDownloading b : respects grows (setIsDownloading b).
Proof. apply respects_update. intros m. repeat split. auto. Qed.

Lemma respects_grows_setIsInitializingModel b : respects grows (setIsInitializingModel b).
Proof. apply respects_update. intros m. repeat split. auto. Qed.

Lemma respects_grows_setVadContext v : respects grows (setVadContext v).
Proof. apply respects_update. intros m. repeat split. auto. Qed.

Lemma respects_grows_updateModelFileInfo model file :
  respects grows (updateModelFileInfo model file).
Proof.
  intros s. rewrite updateModelFileInfo_run. apply grows_insert.
Qed.

Lemma respects_grows_downloadModel_existing model file :
  respects grows (downloadModel_existing model file).
Proof. intros s. rewrite downloadModel_existing_run. apply grows_insert. Qed.

Lemma respects_grows_downloadModel_transfer model file :
  respects grows (downloadModel_transfer model file).
Proof.
  intros s. pose proof (downloadModel_transfer_run model file s) as H. cbn zeta in H.
  rewrite H. clear H.
  destruct (Transfer.settles _) as [r|e]; [destruct (download_succeeded r)|]; cbn.
  - repeat split. intros k Hk. cbn.
    destruct (decide (WhisperModel.id model = k)) as [->|Hne].
    + rewrite lookup_insert_eq. eauto.
    + rewrite lookup_insert_ne by exact Hne. exact Hk.
  - repeat split. auto.
  - repeat split. auto.
Qed.

Lemma respects_grows_downloadModel model : respects grows (downloadModel model).
Proof.
  apply (respects_bind grows grows_trans);
    [apply (respects_getModelDirectory grows grows_refl grows_trans)|intros directory].
  apply (respects_bind grows grows_trans).
  - apply (respects_try_catch grows grows_trans);
      [apply (respects_File_info grows grows_refl)|intros e].
    apply (respects_bind grows grows_trans);
      [apply (respects_console grows grows_refl)|intros _; apply (respects_ret grows grows_refl)].
  - intros existingInfo. destruct (FileInfo.exists_ existingInfo).
    + apply respects_grows_downloadModel_existing.
    + apply respects_grows_downloadModel_transfer.
Qed.

Lemma bind_returned {A B} (m : Task A) (k : A -> Task B) s b s' :
  bind m k s = (Returned b, s') ->
  exists a s1, m s = (Returned a, s1) /\ k a s1 = (Returned b, s').
Proof.
  unfold bind. destruct (m s) as [[a|e] s1]; intros H; [eauto|discriminate].
Qed.

(** A [downloadModel] that returns has cached the model. *)
Lemma downloadModel_returned_entry model s p s' :
  downloadModel model s = (Returned p, s') ->
  is_Some (Manager.modelFiles (Sys.mgr s') !! WhisperModel.id model).
Proof.
  unfold downloadModel. intros H.
  apply bind_returned in H. destruct H as (directory & s1 & _ & H).
  apply bind_returned in H. destruct H as (existingInfo & s2 & _ & H).
  destruct (FileInfo.exists_ existingInfo).
  - rewrite downloadModel_existing_run in H. injection H as _ <-.
    cbn. rewrite lookup_insert_eq. eauto.
  - pose proof (downloadModel_transfer_run model
                  (new_File directory (WhisperModel.filename model)) s2) as Hrun.
    cbn zeta in Hrun. rewrite Hrun in H. clear Hrun.
    destruct (Transfer.settles _) as [r|e]; [destruct (download_succeeded r)|];
      try discriminate.
    injection H as _ <-. cbn. rewrite lookup_insert_eq. eauto.
Qed.

Lemma initializeVad_returns native modelPath s :
  fst (initializeVad native modelPath s) = Returned tt.
Proof.
  unfold initializeVad, try_catch, bind, console, emit. cbn.
  destruct (WhisperNative.initWhisperVad native) as [f|]; [|reflexivity].
  cbn. rewrite settle_run. destruct (f modelPath); reflexivity.
Qed.

Lemma respects_grows_initializeVad native modelPath :
  respects grows (initializeVad native modelPath).
Proof.
  apply (respects_bind grows grows_trans);
    [apply (respects_console grows grows_refl)|intros _].
  apply (respects_try_catch grows grows_trans);
    [|intros e; apply (respects_console grows grows_refl)].
  destruct (WhisperNative.initWhisperVad native) as [f|];
    [|apply (respects_console grows grows_refl)].
  apply (respects_bind grows grows_trans);
    [apply (respects_emit grows grows_refl)|intros _].
  apply (respects_bind grows grows_trans);
    [apply (respects_settle grows grows_refl)|intros vad].
  apply (respects_bind grows grows_trans);
    [apply respects_grows_setVadContext|intros _].
  apply (respects_console grows grows_refl).
Qed.

(** With the native module present, [initializeWhisperModel] either
    rethrows the failure of [initWhisper], or installs the new context and
    the model id together, runs the optional VAD step and returns. *)
Lemma initializeWhisperModel_native_available
    rendered modelId model options s p s2 native initWhisper :
  find_model WHISPER_MODELS modelId = Some model ->
  downloadModel model (entering s model) = (Returned p, s2) ->
  native_module (Sys.world s2) = Some native ->
  WhisperNative.initWhisper native = Some initWhisper ->
  initializeWhisperModel rendered modelId options s =
    match initWhisper p with
    | Threw e =>
        (Threw e,
         leaving s2 [NativeImport; NativeInitWhisper p;
                     Console LError "Model initialization error:"])
    | Returned context =>
        let s3 :=
          Sys.mk
            (Manager.with_currentModelId (Some modelId)
               (Manager.with_whisperContext (Some context) (Sys.mgr s2)))
            (Sys.world s2)
            (Sys.trace s2
             ++ [NativeImport; NativeInitWhisper p;
                 Console LLog ("Whisper context initialized for model: "
                               ++ WhisperModel.label model)]) in
        let s4 :=
          snd ((if initVad_requested options then initializeVad native p else ret tt) s3) in
        (Returned (InitResult.mk context
                     (if initVad_requested options
                      then Manager.vadContext rendered else None)),
         Sys.mk (Manager.with_isInitializingModel false (Sys.mgr s4))
           (Sys.world s4) (Sys.trace s4))
    end.
Proof.
  intros Hfind Hdl Hnative Hinit. unfold initializeWhisperModel. rewrite Hfind.
  unfold try_finally, try_catch.
  unfold bind at 1. unfold setIsInitializingModel at 1, update at 1.
  unfold bind at 1. unfold console at 1, emit at 1.
  cbn [Sys.mgr Sys.world Sys.trace]. fold (entering s model).
  unfold bind at 1. rewrite Hdl.
  unfold bind at 1. rewrite loadWhisperNative_run, Hnative.
  unfold call_initWhisper. rewrite Hinit.
  unfold bind at 1. unfold bind at 1. unfold emit at 1. rewrite settle_run.
  destruct s2 as [m2 w2 tr2]. cbn [observe Sys.mgr Sys.world Sys.trace].
  destruct (initWhisper p) as [context|e].
  - unfold bind at 1. unfold setWhisperContext at 1, update at 1.
    unfold bind at 1. unfold setCurrentModelId at 1, update at 1.
    unfold bind at 1. unfold console at 1, emit at 1.
    cbn [Sys.mgr Sys.world Sys.trace]. rewrite <- !app_assoc. cbn [app].
    unfold bind at 1. cbn zeta.
    destruct (initVad_requested options).
    + match goal with
      | |- context [initializeVad native p ?x] =>
          pose proof (initializeVad_returns native p x) as Hvad;
          destruct (initializeVad native p x) as [c4 s4]
      end.
      cbn in Hvad. subst c4. destruct s4. reflexivity.
    + reflexivity.
  - cbn. rewrite <- !app_assoc. reflexivity.
Qed.

(** ** The invariants of the engine slot *)

Lemma grows_consistent m m' :
  grows m m' -> engine_slot_consistent m -> engine_slot_consistent m'.
Proof.
  intros (Hw & Hc & _). unfold engine_slot_consistent. rewrite Hw, Hc. auto.
Qed.


Lemma native_module_exports w native :
  native_module w = Some native ->
  exists initWhisper, WhisperNative.initWhisper native = Some initWhisper.
Proof.
  unfold native_module. destruct (World.whisper_rn w) as [e|[mod_|]]; try discriminate.
  destruct (WhisperNative.initWhisper mod_) as [f|] eqn:Hf; [|discriminate].
  intros [= <-]. eauto.
Qed.

Lemma respects_grows_stat_existing directory model :
  respects grows (stat_existing directory model).
Proof.
  apply (respects_try_catch grows grows_trans).
  - apply (respects_bind grows grows_trans);
      [apply (respects_File_info grows grows_refl)|intros fileInfo].
    destruct (negb (FileInfo.exists_ fileInfo)); apply (respects_ret grows grows_refl).
  - intros e. apply (respects_bind grows grows_trans);
      [apply (respects_console grows grows_refl)|intros _; apply (respects_ret grows grows_refl)].
Qed.

Lemma respects_grows_loadExistingModels isMounted :
  respects grows (loadExistingModels isMounted).
Proof.
  apply (respects_try_catch grows grows_trans);
    [|intros e; apply (respects_console grows grows_refl)].
  apply (respects_bind grows grows_trans);
    [apply (respects_getModelDirectory grows grows_refl grows_trans)|intros directory].
  apply (respects_bind grows grows_trans);
    [apply (respects_map_task grows grows_refl grows_trans);
     intros model; apply respects_grows_stat_existing|intros entries].
  destruct (negb isMounted); [apply (respects_ret grows grows_refl)|].
  cbn zeta.
  destruct (bool_decide (fold_left add_entry entries ∅ = ∅));
    [apply (respects_ret grows grows_refl)|].
  apply respects_update. intros m. apply grows_union.
Qed.

(** What one [initializeWhisperModel] does to the hook state: nothing to
    the engine slot, or the new context and the model id together, for a
    model that is cached. *)
Lemma perform_initialize rendered modelId options s :
  let m' := Sys.mgr (perform (OpInitialize rendered modelId options) s) in
  grows (Sys.mgr s) m' \/
  (is_Some (Manager.whisperContext m') /\
   Manager.currentModelId m' = Some modelId /\
   is_Some (Manager.modelFiles m' !! modelId) /\
   forall k, is_Some (Manager.modelFiles (Sys.mgr s) !! k) ->
             is_Some (Manager.modelFiles m' !! k)).
Proof.
  cbn zeta. unfold perform.
  destruct (find_model WHISPER_MODELS modelId) as [model|] eqn:Hfind.
  2:{ left. unfold initializeWhisperModel. rewrite Hfind. apply grows_refl. }
  pose proof (respects_grows_downloadModel model (entering s model)) as Hg.
  assert (Hg0 : grows (Sys.mgr s) (Sys.mgr (entering s model))).
  { repeat split. auto. }
  destruct (downloadModel model (entering s model)) as [[p|e] s2] eqn:Hdl.
  - cbn [snd] in Hg.
    destruct (native_module (Sys.world s2)) as [native|] eqn:Hnative.
    + destruct (native_module_exports _ _ Hnative) as [initWhisper Hinit].
      rewrite (initializeWhisperModel_native_available _ _ _ _ _ _ _ _ _
                 Hfind Hdl Hnative Hinit).
      destruct (initWhisper p) as [context|e].
      * right. cbn zeta. cbn [snd Sys.mgr].
        match goal with
        | |- context [((if ?b then ?t else ?u) ?x).2] =>
            assert (Hv : grows (Sys.mgr x) (Sys.mgr (snd ((if b then t else u) x))))
        end.
        { destruct (initVad_requested options);
            [apply respects_grows_initializeVad|apply grows_refl]. }
        destruct Hv as (Hw & Hc & Hf). cbn [Sys.mgr] in Hw, Hc, Hf.
        cbn [Manager.whisperContext Manager.currentModelId Manager.modelFiles
             Manager.with_isInitializingModel].
        rewrite Hw, Hc. cbn.
        pose proof (downloadModel_returned_entry _ _ _ _ Hdl) as Hentry.
        destruct (find_model_known _ _ _ Hfind) as [_ Hid]. rewrite Hid in Hentry.
        destruct Hg as (_ & _ & Hf2). destruct Hg0 as (_ & _ & Hf0).
        repeat split; eauto.
      * left. cbn. eapply grows_trans; [exact Hg0|].
        eapply grows_trans; [exact Hg|]. repeat split. auto.
    + rewrite (initializeWhisperModel_native_unavailable _ _ _ _ _ _ _ Hfind Hdl Hnative).
      left. cbn. eapply grows_trans; [exact Hg0|].
      eapply grows_trans; [exact Hg|]. repeat split. auto.
  - cbn [snd] in Hg.
    rewrite (initializeWhisperModel_download_fails _ _ _ _ _ _ _ Hfind Hdl).
    left. cbn. eapply grows_trans; [exact Hg0|].
    eapply grows_trans; [exact Hg|]. repeat split. auto.
Qed.

(** What one [deleteModel] does to the hook state, through the function
    of any render. *)
Lemma perform_delete rendered modelId s :
  let m := Sys.mgr s in
  let m' := Sys.mgr (perform (OpDelete rendered modelId) s) in
  m' = m \/
  (Manager.currentModelId rendered = Some modelId /\ m' = cleared modelId m) \/
  (Manager.currentModelId rendered <> Some modelId /\
   m' = Manager.map_downloadProgress (fun prev => delete modelId prev)
          (Manager.map_modelFiles (fun prev => delete modelId prev) m)).
Proof.
  cbn zeta. unfold perform.
  destruct (Manager.modelFiles rendered !! modelId) as [fileInfo|] eqn:Hentry.
  2:{ left. destruct (inherited modelId) eqn:Hi.
      - rewrite (deleteModel_inherited _ _ _ Hentry Hi). reflexivity.
      - rewrite (deleteModel_not_downloaded _ _ _ Hentry Hi). reflexivity. }
  destruct (removal (Sys.world s) (ModelFileInfo.path fileInfo)) as [[]|e] eqn:Hremoval.
  2:{ left. rewrite (deleteModel_removal_throws _ _ _ _ _ Hentry Hremoval). reflexivity. }
  destruct (decide (Manager.currentModelId rendered = Some modelId)) as [Hcur|Hcur].
  - right. left. rewrite (deleteModel_current _ _ _ _ Hentry Hremoval Hcur).
    split; [exact Hcur|reflexivity].
  - right. right. rewrite (deleteModel_other _ _ _ _ Hentry Hremoval Hcur).
    split; [exact Hcur|reflexivity].
Qed.

Lemma perform_consistent op s :
  engine_slot_consistent (Sys.mgr s) -> engine_slot_consistent (Sys.mgr (perform op s)).
Proof.
  intros Hinv. destruct op as [model|rendered modelId options| |rendered modelId|isMounted].
  - eapply grows_consistent; [apply respects_grows_downloadModel|exact Hinv].
  - destruct (perform_initialize rendered modelId options s) as [Hg|(Hctx & Hcur & _)].
    + eapply grows_consistent; [exact Hg|exact Hinv].
    + unfold engine_slot_consistent. rewrite Hcur. split; eauto.
  - cbn. unfold engine_slot_consistent. cbn. split; intros [x Hx]; discriminate.
  - destruct (perform_delete rendered modelId s) as [->|[[_ ->]|[_ ->]]].
    + exact Hinv.
    + unfold engine_slot_consistent. cbn. split; intros [x Hx]; discriminate.
    + exact Hinv.
  - eapply grows_consistent; [apply respects_grows_loadExistingModels|exact Hinv].
Qed.


Lemma reachable_consistent m : reachable m -> engine_slot_consistent m.
Proof.
  induction 1 as [|m op w tr Hm IH].
  - unfold engine_slot_consistent. cbn. split; intros [x Hx]; discriminate.
  - apply perform_consistent. exact IH.
Qed.

Lemma reachable_by_latest_reachable m : reachable_by_latest m -> reachable m.
Proof.
  induction 1 as [|m op w tr Hm IH Hlatest].
  - apply reachable_initial.
  - apply reachable_step. exact IH.
Qed.


(** ** The engine slot *)

(** C7: in every state the hook can reach, [currentModelId] is non-null
    if and only if [whisperContext] is, and every further call
    ([downloadModel], [initializeWhisperModel], [resetWhisperContext],
    [deleteModel], the mount scan), in any world, leads to a state where
    this holds again. *)
Theorem C7_current_model_iff_engine_handle (m : Manager.t) :
  reachable m ->
  engine_slot_consistent m /\
  forall op w tr, engine_slot_consistent (Sys.mgr (perform op (Sys.mk m w tr))).
Proof.
  intros Hm. pose proof (reachable_consistent m Hm) as Hinv. split.
  - exact Hinv.
  - intros op w tr. apply perform_consistent. exact Hinv.
Qed.

Lemma Scenario_base_loaded_reachable : reachable (Sys.mgr Scenario.base_loaded).
Proof.
  unfold Scenario.base_loaded. apply reachable_step. apply reachable_initial.
Qed.

Lemma C7_witness :
  Manager.currentModelId (Sys.mgr Scenario.base_loaded) = Some "base" /\
  Manager.whisperContext (Sys.mgr Scenario.base_loaded) = Some Scenario.context7 /\
  engine_slot_consistent (Sys.mgr Scenario.base_loaded) /\
  engine_slot_consistent
    (Sys.mgr (perform (OpDelete (Sys.mgr Scenario.base_loaded) "base")
                (Sys.mk (Sys.mgr Scenario.base_loaded)
                   (Sys.world Scenario.base_loaded) []))).
Proof.
  split; [vm_compute; reflexivity|]. split; [vm_compute; reflexivity|].
  destruct (C7_current_model_iff_engine_handle (Sys.mgr Scenario.base_loaded)
              Scenario_base_loaded_reachable) as [Hnow Hnext].
  split; [exact Hnow|].
  exact (Hnext (OpDelete (Sys.mgr Scenario.base_loaded) "base")
           (Sys.world Scenario.base_loaded) []).
Defined.

(** ** Deleting a model *)

(** C6, as amended: when the render whose [deleteModel] is called holds
    M as the current model and has a ModelFileInfo entry for M, and
    removing M's backing file does not throw, [deleteModel(M)] returns
    normally with [currentModelId], the engine handle and the VAD handle
    cleared and M's ModelFileInfo and progress entries removed, whatever
    the release of the engine handle does; when the release throws, the run
    ends with the release call followed by the warning that logs it. *)
Theorem C6_delete_current_model_clears_engine
    (rendered : Manager.t) (s : Sys.t) (modelId : string) (fileInfo : ModelFileInfo.t) :
  Manager.currentModelId rendered = Some modelId ->
  Manager.modelFiles rendered !! modelId = Some fileInfo ->
  removal (Sys.world s) (ModelFileInfo.path fileInfo) = Returned tt ->
  let run := deleteModel rendered modelId s in
  fst run = Returned tt /\
  Manager.currentModelId (Sys.mgr (snd run)) = None /\
  Manager.whisperContext (Sys.mgr (snd run)) = None /\
  Manager.vadContext (Sys.mgr (snd run)) = None /\
  Manager.modelFiles (Sys.mgr (snd run)) !! modelId = None /\
  Manager.downloadProgress (Sys.mgr (snd run)) !! modelId = None /\
  (forall ctx e,
     Manager.whisperContext rendered = Some ctx ->
     WhisperContext.release ctx = Some (ReleaseThrows e) ->
     exists before,
       Sys.trace (snd run)
       = before ++ [NativeRelease (WhisperContext.handle ctx);
                    Console LWarn "Failed to release Whisper context during model deletion:"]).
Proof.
  intros Hcur Hentry Hremoval. cbn zeta.
  rewrite (deleteModel_current _ _ _ _ Hentry Hremoval Hcur).
  cbn [fst snd Sys.mgr Sys.trace].
  repeat split; try reflexivity.
  - cbn. apply lookup_delete_eq.
  - cbn. apply lookup_delete_eq.
  - intros ctx e Hctx Hrelease. unfold release_events. rewrite Hctx, Hrelease.
    eexists. rewrite app_assoc. reflexivity.
Qed.

Lemma C6_witness :
  let run := on_render (fun r => deleteModel r "base") Scenario.base_loaded in
  WhisperContext.release Scenario.context7 = Some (ReleaseThrows "context already released") /\
  fst run = Returned tt /\
  Manager.currentModelId (Sys.mgr (snd run)) = None /\
  Manager.whisperContext (Sys.mgr (snd run)) = None /\
  Manager.vadContext (Sys.mgr (snd run)) = None /\
  Manager.modelFiles (Sys.mgr (snd run)) !! "base" = None /\
  Manager.downloadProgress (Sys.mgr (snd run)) !! "base" = None.
Proof.
  cbn zeta. split; [reflexivity|].
  destruct (C6_delete_current_model_clears_engine
              (Sys.mgr Scenario.base_loaded) Scenario.base_loaded "base"
              (ModelFileInfo.mk Scenario.base_file 2000))
    as (H1 & H2 & H3 & H4 & H5 & H6 & _).
  - vm_compute. reflexivity.
  - vm_compute. reflexivity.
  - vm_compute. reflexivity.
  - repeat split; assumption.
Defined.

(** C6 as stated fails in two ways.  When the file of the current model
    cannot be deleted, [deleteModel] rethrows before any state change: the
    current model id, the engine handle and both entries stay.  And when
    the current model has no ModelFileInfo entry, [deleteModel] only logs
    its warning and clears nothing; the hook reaches such a state when a
    handler awaits [initializeWhisperModel] and then [deleteModel] through
    the functions of the one render it was created in, where the model was
    cached and not yet current. *)
Lemma C6_counterexample :
  let locked := Scenario.move Scenario.base_loaded
                  (Scenario.read_only (Sys.world Scenario.base_loaded)) in
  let failed := on_render (fun r => deleteModel r "base") locked in
  let cached :=
    snd (downloadModel Scenario.base
           (Scenario.start
              (Scenario.world ∅ Scenario.transfer_complete
                 (ImportResolves (Some Scenario.native_with_vad))))) in
  let handler_render := Sys.mgr cached in
  let initialized := snd (initializeWhisperModel handler_render "base" None cached) in
  let deleted := snd (deleteModel handler_render "base" initialized) in
  let again := on_render (fun r => deleteModel r "base") deleted in
  (Manager.currentModelId (Sys.mgr locked) = Some "base" /\
   fst failed = Threw (Foreign "EACCES") /\
   Manager.currentModelId (Sys.mgr (snd failed)) = Some "base" /\
   Manager.whisperContext (Sys.mgr (snd failed)) = Some Scenario.context7 /\
   is_Some (Manager.modelFiles (Sys.mgr (snd failed)) !! "base")) /\
  (Manager.currentModelId (Sys.mgr deleted) = Some "base" /\
   Manager.modelFiles (Sys.mgr deleted) !! "base" = None /\
   fst again = Returned tt /\
   Manager.currentModelId (Sys.mgr (snd again)) = Some "base" /\
   Manager.whisperContext (Sys.mgr (snd again)) = Some Scenario.context7).
Proof.
  vm_compute. repeat split; eauto.
Qed.

(** C9: when M has a ModelFileInfo entry and removing its backing file
    throws (the stat throws, or the delete of the file it reports throws),
    [deleteModel(M)] throws that error and the hook state is exactly what it
    was: every state change of [deleteModel] comes after the removal.  The
    disk is unchanged too. *)
Theorem C9_delete_failure_changes_nothing
    (s : Sys.t) (modelId : string) (fileInfo : ModelFileInfo.t) (e : Error) :
  Manager.modelFiles (Sys.mgr s) !! modelId = Some fileInfo ->
  removal (Sys.world s) (ModelFileInfo.path fileInfo) = Threw e ->
  let run := on_render (fun r => deleteModel r modelId) s in
  fst run = Threw e /\
  Sys.mgr (snd run) = Sys.mgr s /\
  Sys.world (snd run) = Sys.world s.
Proof.
  intros Hentry Hremoval. cbn zeta. unfold on_render.
  rewrite (deleteModel_removal_throws _ _ _ _ _ Hentry Hremoval).
  repeat split.
Qed.

Lemma C9_witness :
  let s := Scenario.move Scenario.base_loaded
             (Scenario.read_only (Sys.world Scenario.base_loaded)) in
  let run := on_render (fun r => deleteModel r "base") s in
  fst run = Threw (Foreign "EACCES") /\
  Sys.mgr (snd run) = Sys.mgr s /\
  Sys.world (snd run) = Sys.world s.
Proof.
  apply (C9_delete_failure_changes_nothing
           (Scenario.move Scenario.base_loaded
              (Scenario.read_only (Sys.world Scenario.base_loaded)))
           "base" (ModelFileInfo.mk Scenario.base_file 2000) (Foreign "EACCES")).
  - vm_compute. reflexivity.
  - vm_compute. reflexivity.
Defined.

(** ** The model directory *)

Lemma getModelDirectory_unavailable s :
  document_unavailable (Sys.world s) ->
  getModelDirectory s = (Threw DocumentDirectoryNotAvailable, s).
Proof.
  unfold document_unavailable. intros H. destruct s as [m w tr].
  unfold getModelDirectory, try_catch, bind, Paths_document, get_world. cbn in *.
  destruct (World.document w) as [e| |uri]; try reflexivity.
  subst uri. reflexivity.
Qed.

Lemma getModelDirectory_create_throws s root e :
  World.document (Sys.world s) = DocumentAt root -> root <> EmptyString ->
  World.create_error (Sys.world s) = Some e ->
  getModelDirectory s =
    (Threw (Foreign e),
     observe [FsCreateDirectory (model_directory root);
              Console LWarn "Failed to ensure Whisper model directory exists:"] s).
Proof.
  intros Hd Hr Hc. destruct s as [m w tr]. cbn in *.
  unfold getModelDirectory, try_catch, bind, Paths_document. cbn.
  rewrite Hd. cbn. apply String.eqb_neq in Hr. rewrite Hr.
  unfold Directory_create, bind, emit, get_world, console, emit, observe. cbn. rewrite Hc.
  cbn. rewrite <- app_assoc. reflexivity.
Qed.

(** The three ways [getModelDirectory] can end. *)
Lemma getModelDirectory_cases s :
  (document_unavailable (Sys.world s) /\
   fst (getModelDirectory s) = Threw DocumentDirectoryNotAvailable) \/
  (exists root e,
     World.document (Sys.world s) = DocumentAt root /\ root <> EmptyString /\
     World.create_error (Sys.world s) = Some e /\
     fst (getModelDirectory s) = Threw (Foreign e)) \/
  (exists root,
     storage_ready (Sys.world s) root /\
     fst (getModelDirectory s) = Returned (Directory.mk (model_directory root))).
Proof.
  destruct (World.document (Sys.world s)) as [e| |root] eqn:Hd.
  - left. assert (H : document_unavailable (Sys.world s)).
    { unfold document_unavailable. rewrite Hd. exact I. }
    split; [exact H|]. rewrite (getModelDirectory_unavailable _ H). reflexivity.
  - left. assert (H : document_unavailable (Sys.world s)).
    { unfold document_unavailable. rewrite Hd. exact I. }
    split; [exact H|]. rewrite (getModelDirectory_unavailable _ H). reflexivity.
  - destruct (String.eqb_spec root EmptyString) as [->|Hr].
    + left. assert (H : document_unavailable (Sys.world s)).
      { unfold document_unavailable. rewrite Hd. reflexivity. }
      split; [exact H|]. rewrite (getModelDirectory_unavailable _ H). reflexivity.
    + right. destruct (World.create_error (Sys.world s)) as [e|] eqn:Hc.
      * left. exists root, e. repeat split; try assumption.
        rewrite (getModelDirectory_create_throws _ _ _ Hd Hr Hc). reflexivity.
      * right. exists root.
        assert (H : storage_ready (Sys.world s) root) by (repeat split; assumption).
        split; [exact H|]. rewrite (getModelDirectory_ready _ _ H). reflexivity.
Qed.

Lemma storage_ready_ensure_directory w root d :
  storage_ready w root -> storage_ready (ensure_directory w d) root.
Proof.
  unfold storage_ready, ensure_directory. case_bool_decide; [auto|]. cbn. auto.
Qed.

Lemma ensure_directory_idempotent w d :
  ensure_directory (ensure_directory w d) d = ensure_directory w d.
Proof.
  destruct (decide (d ∈ World.directories w)) as [Hin|Hin].
  - unfold ensure_directory. rewrite !(bool_decide_eq_true_2 _ Hin).
    reflexivity.
  - unfold ensure_directory. rewrite !(bool_decide_eq_false_2 _ Hin). cbn.
    rewrite bool_decide_eq_true_2; [reflexivity|].
    apply elem_of_app. right. apply list_elem_of_singleton. reflexivity.
Qed.

Lemma ensure_directory_once w d :
  List.NoDup (World.directories w) ->
  List.NoDup (World.directories (ensure_directory w d)) /\
  count_occ string_dec (World.directories (ensure_directory w d)) d = 1%nat.
Proof.
  intros Hnodup. unfold ensure_directory. case_bool_decide as Hin.
  - split; [exact Hnodup|].
    apply NoDup_count_occ'; [exact Hnodup|]. apply list_elem_of_In. exact Hin.
  - cbn. assert (Hnot : ~ In d (World.directories w)).
    { intros H. apply Hin. apply list_elem_of_In. exact H. }
    split.
    + apply List.NoDup_app; [exact Hnodup| repeat constructor; intros []|].
      intros x Hx [<-|[]]. exact (Hnot Hx).
    + rewrite count_occ_app. cbn. destruct (string_dec d d); [|congruence].
      apply (count_occ_not_In string_dec) in Hnot. rewrite Hnot. reflexivity.
Qed.

Lemma repeat_getModelDirectory_S n s :
  repeat_getModelDirectory (S n) s
  = (fst (getModelDirectory s)
       :: fst (repeat_getModelDirectory n (snd (getModelDirectory s))),
     snd (repeat_getModelDirectory n (snd (getModelDirectory s)))).
Proof. reflexivity. Qed.

Lemma repeat_getModelDirectory_ready n s root :
  storage_ready (Sys.world s) root ->
  fst (repeat_getModelDirectory (S n) s)
    = repeat (Returned (Directory.mk (model_directory root))) (S n) /\
  Sys.world (snd (repeat_getModelDirectory (S n) s))
    = ensure_directory (Sys.world s) (model_directory root) /\
  Sys.mgr (snd (repeat_getModelDirectory (S n) s)) = Sys.mgr s.
Proof.
  revert s. induction n as [|n IH]; intros s Hready;
    rewrite repeat_getModelDirectory_S, (getModelDirectory_ready _ _ Hready);
    cbn [fst snd].
  - repeat split.
  - match goal with
    | |- context [repeat_getModelDirectory (S n) ?s1] =>
        destruct (IH s1) as (Hres & Hworld & Hmgr)
    end.
    { cbn. apply storage_ready_ensure_directory. exact Hready. }
    rewrite Hres, Hworld, Hmgr. cbn [Sys.world Sys.mgr].
    rewrite ensure_directory_idempotent. repeat split.
Qed.

(** C8: [getModelDirectory] throws "Document directory is not available."
    exactly when the document root cannot be resolved or has no uri.  Once
    a call has returned the directory (named "whisper-models" under the
    root), any number N >= 1 of calls in a row all return that directory,
    leave the disk as the first call left it, with the directory on it
    exactly once (on a disk that lists no directory twice), and change no
    hook state. *)
Theorem C8_getModelDirectory_idempotent (s : Sys.t) :
  (fst (getModelDirectory s) = Threw DocumentDirectoryNotAvailable
   <-> document_unavailable (Sys.world s)) /\
  forall d,
    fst (getModelDirectory s) = Returned d ->
    List.NoDup (World.directories (Sys.world s)) ->
    forall N, (1 <= N)%nat ->
      let after := repeat_getModelDirectory N s in
      (exists root, Directory.uri d = join_uri root "whisper-models") /\
      fst after = repeat (Returned d) N /\
      Sys.world (snd after) = Sys.world (snd (getModelDirectory s)) /\
      count_occ string_dec (World.directories (Sys.world (snd after))) (Directory.uri d)
        = 1%nat /\
      List.NoDup (World.directories (Sys.world (snd after))) /\
      Sys.mgr (snd after) = Sys.mgr s.
Proof.
  split.
  - destruct (getModelDirectory_cases s)
      as [[Hun Hres]|[(root & e & Hd & Hr & Hc & Hres)|(root & (Hd & Hr & Hc) & Hres)]];
      rewrite Hres.
    + tauto.
    + split; [discriminate|]. unfold document_unavailable. rewrite Hd. tauto.
    + split; [discriminate|]. unfold document_unavailable. rewrite Hd. tauto.
  - intros d Hfirst Hnodup N HN.
    destruct (getModelDirectory_cases s)
      as [[_ Hres]|[(root & e & _ & _ & _ & Hres)|(root & Hready & Hres)]];
      rewrite Hres in Hfirst; try discriminate.
    injection Hfirst as <-.
    destruct N as [|n]; [lia|]. cbn zeta.
    destruct (repeat_getModelDirectory_ready n s root Hready) as (Hresults & Hworld & Hmgr).
    destruct (ensure_directory_once (Sys.world s) (model_directory root) Hnodup)
      as [Hnodup' Hcount].
    rewrite Hresults, Hworld, Hmgr, (getModelDirectory_ready _ _ Hready).
    cbn [snd Sys.world Directory.uri].
    repeat split; try assumption. exists root. reflexivity.
Qed.

Lemma C8_witness :
  let s := Scenario.start
             (Scenario.world ∅ Scenario.transfer_complete Scenario.expo_go) in
  let after := repeat_getModelDirectory 3 s in
  fst after = repeat (Returned (Directory.mk "file:///documents/whisper-models")) 3 /\
  World.directories (Sys.world (snd after)) = ["file:///documents/whisper-models"] /\
  count_occ string_dec (World.directories (Sys.world (snd after)))
    "file:///documents/whisper-models" = 1%nat.
Proof.
  destruct (C8_getModelDirectory_idempotent
              (Scenario.start
                 (Scenario.world ∅ Scenario.transfer_complete Scenario.expo_go)))
    as [_ H].
  destruct (H (Directory.mk "file:///documents/whisper-models")) with (N := 3%nat)
    as (_ & Hres & _ & Hcount & _).
  - reflexivity.
  - constructor.
  - lia.
  - cbn zeta. split; [exact Hres|]. split; [reflexivity|exact Hcount].
Defined.

(** * Further properties of the hook *)

(** ** Frames on the trace *)

Section Emits.
Variable P : Event -> Prop.

Lemma emits_ret {A} (a : A) : emits P (ret a).
Proof. intros s. exists []. rewrite app_nil_r. split; [reflexivity|constructor]. Qed.

Lemma emits_throw {A} e : emits P (@throw A e).
Proof. intros s. exists []. rewrite app_nil_r. split; [reflexivity|constructor]. Qed.

Lemma emits_get_world : emits P get_world.
Proof. intros s. exists []. rewrite app_nil_r. split; [reflexivity|constructor]. Qed.

Lemma emits_put_world w : emits P (put_world w).
Proof. intros s. exists []. cbn. rewrite app_nil_r. split; [reflexivity|constructor]. Qed.

Lemma emits_update f : emits P (update f).
Proof. intros s. exists []. cbn. rewrite app_nil_r. split; [reflexivity|constructor]. Qed.

Lemma emits_settle {A} (c : Completion A) : emits P (settle c).
Proof.
  intros s. rewrite settle_run. exists []. cbn. rewrite app_nil_r.
  split; [reflexivity|constructor].
Qed.

Lemma emits_emit e : P e -> emits P (emit e).
Proof. intros He s. exists [e]. split; [reflexivity|]. constructor; [exact He|constructor]. Qed.

Lemma emits_console l message : P (Console l message) -> emits P (console l message).
Proof. apply emits_emit. Qed.

Lemma emits_bind {A B} (m : Task A) (k : A -> Task B) :
  emits P m -> (forall a, emits P (k a)) -> emits P (bind m k).
Proof.
  intros Hm Hk s. unfold bind. destruct (Hm s) as (evs1 & Ht1 & Hp1).
  destruct (m s) as [[a|e] s1]; cbn in *.
  - destruct (Hk a s1) as (evs2 & Ht2 & Hp2). exists (evs1 ++ evs2).
    rewrite Ht2, Ht1, app_assoc. split; [reflexivity|]. apply Forall_app. split; assumption.
  - exists evs1. split; assumption.
Qed.

Lemma emits_try_catch {A} (m : Task A) (h : Error -> Task A) :
  emits P m -> (forall e, emits P (h e)) -> emits P (try_catch m h).
Proof.
  intros Hm Hh s. unfold try_catch. destruct (Hm s) as (evs1 & Ht1 & Hp1).
  destruct (m s) as [[a|e] s1]; cbn in *.
  - exists evs1. split; assumption.
  - destruct (Hh e s1) as (evs2 & Ht2 & Hp2). exists (evs1 ++ evs2).
    rewrite Ht2, Ht1, app_assoc. split; [reflexivity|]. apply Forall_app. split; assumption.
Qed.

Lemma emits_try_finally {A} (m : Task A) (f : Task unit) :
  emits P m -> emits P f -> emits P (try_finally m f).
Proof.
  intros Hm Hf s. unfold try_finally. destruct (Hm s) as (evs1 & Ht1 & Hp1).
  destruct (m s) as [c s1]. destruct (Hf s1) as (evs2 & Ht2 & Hp2).
  cbn in *. exists (evs1 ++ evs2).
  destruct (f s1) as [[[]|e] s2]; cbn in *;
    rewrite Ht2, Ht1, app_assoc; (split; [reflexivity|]);
    apply Forall_app; split; assumption.
Qed.

Lemma emits_for_each {A} (l : list A) (f : A -> Task unit) :
  (forall a, emits P (f a)) -> emits P (for_each l f).
Proof.
  intros Hf. induction l as [|a l IH]; cbn.
  - apply emits_ret.
  - apply emits_bind; [apply Hf|intros _; exact IH].
Qed.

Lemma emits_map_task {A B} (f : A -> Task B) (l : list A) :
  (forall a, emits P (f a)) -> emits P (map_task f l).
Proof.
  intros Hf. induction l as [|a l IH]; cbn.
  - apply emits_ret.
  - apply emits_bind; [apply Hf|intros b].
    apply emits_bind; [exact IH|intros bs]. apply emits_ret.
Qed.

Lemma emits_if {A} (b : bool) (t u : Task A) :
  emits P t -> emits P u -> emits P (if b then t else u).
Proof. destruct b; auto. Qed.
End Emits.

Lemma emits_weaken (P Q : Event -> Prop) {A} (t : Task A) :
  (forall e, P e -> Q e) -> emits P t -> emits Q t.
Proof.
  intros HPQ Ht s. destruct (Ht s) as (evs & Htr & Hp). exists evs.
  split; [exact Htr|]. eapply Forall_impl; [exact Hp|exact HPQ].
Qed.

(** Applies the frame rules down the structure of a task. *)
Ltac emits_step :=
  first
    [ apply emits_ret | apply emits_throw | apply emits_get_world
    | apply emits_put_world | apply emits_update | apply emits_settle
    | apply emits_bind; [|intros ?]
    | apply emits_try_catch; [|intros ?]
    | apply emits_try_finally
    | apply emits_for_each; intros ?
    | apply emits_map_task; intros ?
    | apply emits_console | apply emits_emit ].

Ltac emits_branches :=
  match goal with
  | |- emits _ (if ?b then _ else _) => destruct b
  | |- emits _ (match ?x with _ => _ end) => destruct x
  end.

Ltac emits_auto :=
  repeat first [ emits_step | emits_branches | exact I | reflexivity ].

Lemma emits_getModelDirectory : emits scan_event getModelDirectory.
Proof. unfold getModelDirectory, Paths_document, Directory_create. emits_auto. Qed.

Lemma emits_File_info_scan f : emits scan_event (File_info f).
Proof. unfold File_info. emits_auto. Qed.

Lemma emits_updateModelFileInfo model file :
  emits scan_event (updateModelFileInfo model file).
Proof.
  unfold updateModelFileInfo, File_info, setModelFiles. emits_auto.
Qed.

Lemma scan_event_download model e : scan_event e -> download_event model e.
Proof. destruct e; cbn; tauto. Qed.

Lemma emits_downloadModel model : emits (download_event model) (downloadModel model).
Proof.
  unfold downloadModel.
  apply emits_bind;
    [apply (emits_weaken scan_event); [apply scan_event_download|apply emits_getModelDirectory]
    |intros directory].
  apply emits_bind.
  - apply emits_try_catch;
      [apply (emits_weaken scan_event);
       [apply scan_event_download|apply emits_File_info_scan]|intros e].
    emits_auto.
  - intros existingInfo. apply emits_if.
    + unfold downloadModel_existing.
      apply emits_bind; [apply emits_console; exact I|intros _].
      apply emits_bind; [|intros _; apply emits_ret].
      apply (emits_weaken scan_event);
        [apply scan_event_download|apply emits_updateModelFileInfo].
    + unfold downloadModel_transfer, setIsDownloading.
      apply emits_bind; [apply emits_update|intros _].
      apply emits_bind; [apply emits_console; exact I|intros _].
      apply emits_try_finally; [|apply emits_update].
      apply emits_try_catch; [|intros e; emits_auto].
      apply emits_bind.
      * cbn [createDownloadResumable DownloadResumable.downloadAsync].
        unfold onProgress, publishProgress, setDownloadProgress. emits_auto.
      * intros downloadResult. apply emits_if; [|apply emits_throw].
        apply emits_bind; [apply emits_console; exact I|intros _].
        apply emits_bind;
          [apply (emits_weaken scan_event);
           [apply scan_event_download|apply emits_updateModelFileInfo]|intros _].
        unfold publishProgress, setDownloadProgress. emits_auto.
Qed.

Lemma download_event_initialize modelId model e :
  WhisperModel.id model = modelId -> download_event model e -> initialize_event modelId e.
Proof. intros <-. destruct e; cbn; tauto. Qed.

Lemma emits_initializeVad modelId native modelPath :
  emits (initialize_event modelId) (initializeVad native modelPath).
Proof. unfold initializeVad, setVadContext. emits_auto. Qed.

Lemma emits_loadWhisperNative modelId : emits (initialize_event modelId) loadWhisperNative.
Proof. unfold loadWhisperNative. emits_auto. Qed.

Lemma emits_initializeWhisperModel rendered modelId options :
  emits (initialize_event modelId) (initializeWhisperModel rendered modelId options).
Proof.
  unfold initializeWhisperModel.
  destruct (find_model WHISPER_MODELS modelId) as [model|] eqn:Hfind; [|apply emits_throw].
  destruct (find_model_known _ _ _ Hfind) as [_ Hid].
  apply emits_try_finally; [|apply emits_update].
  apply emits_try_catch; [|intros e; emits_auto].
  apply emits_bind; [apply emits_update|intros _].
  apply emits_bind; [apply emits_console; exact I|intros _].
  apply emits_bind;
    [apply (emits_weaken (download_event model));
     [intros ev; apply download_event_initialize; exact Hid|apply emits_downloadModel]
    |intros modelPath].
  apply emits_bind; [apply emits_loadWhisperNative|intros [native|]]; [|apply emits_throw].
  apply emits_bind; [unfold call_initWhisper; emits_auto|intros context].
  apply emits_bind; [apply emits_update|intros _].
  apply emits_bind; [apply emits_update|intros _].
  apply emits_bind; [apply emits_console; exact I|intros _].
  apply emits_bind; [|intros _; apply emits_ret].
  apply emits_if; [apply emits_initializeVad|apply emits_ret].
Qed.

Lemma emits_resetWhisperContext :
  emits (fun e => e = Console LLog "Whisper contexts reset") resetWhisperContext.
Proof.
  unfold resetWhisperContext, setWhisperContext, setVadContext, setCurrentModelId.
  emits_auto.
Qed.

Lemma emits_deleteModel rendered modelId :
  emits (delete_event rendered modelId) (deleteModel rendered modelId).
Proof.
  unfold deleteModel, get_member.
  destruct (Manager.modelFiles rendered !! modelId) as [fileInfo|] eqn:Hentry;
    [|destruct (inherited modelId);
      [apply emits_try_catch; [apply emits_throw|intros e; emits_auto]
      |apply emits_console; exact I]].
  assert (Hpath : exists fi, Manager.modelFiles rendered !! modelId = Some fi /\
                             ModelFileInfo.path fileInfo = ModelFileInfo.path fi)
    by (exists fileInfo; split; [exact Hentry|reflexivity]).
  apply emits_bind.
  - apply emits_try_catch; [|intros e; emits_auto].
    apply emits_bind.
    + unfold File_info. cbn [File.uri].
      apply emits_bind; [apply emits_emit; exact Hpath|intros _].
      emits_auto.
    + intros info. apply emits_if; [|apply emits_ret].
      apply emits_bind; [|intros _; apply emits_console; exact I].
      unfold File_delete. cbn [File.uri].
      apply emits_bind; [apply emits_emit; exact Hpath|intros _].
      emits_auto.
  - intros _. apply emits_bind; [apply emits_update|intros _].
    apply emits_bind; [apply emits_update|intros _].
    case_bool_decide as Hcur; [|apply emits_ret].
    apply emits_bind.
    + destruct (Manager.whisperContext rendered) as [ctx|] eqn:Hctx; [|apply emits_ret].
      destruct (WhisperContext.release ctx) as [b|]; [|apply emits_ret].
      apply emits_try_catch; [|intros e; apply emits_console; exact I].
      unfold call_release.
      apply emits_bind; [|intros _; destruct b; [apply emits_ret|apply emits_throw]].
      apply emits_emit. exists ctx. split; [exact Hctx|]. split; [exact Hcur|reflexivity].
    + intros _. unfold setWhisperContext, setCurrentModelId, setVadContext. emits_auto.
Qed.

Lemma emits_stat_existing directory model : emits scan_event (stat_existing directory model).
Proof. unfold stat_existing, File_info. emits_auto. Qed.

Lemma emits_loadExistingModels isMounted : emits scan_event (loadExistingModels isMounted).
Proof.
  unfold loadExistingModels.
  apply emits_try_catch; [|intros e; apply emits_console; exact I].
  apply emits_bind; [apply emits_getModelDirectory|intros directory].
  apply emits_bind; [apply emits_map_task; intros model; apply emits_stat_existing|intros entries].
  apply emits_if; [apply emits_ret|]. cbn zeta.
  apply emits_if; [apply emits_ret|apply emits_update].
Qed.

(** ** Frames on the errors *)

Section Throws.
Variable P : Error -> Prop.

Lemma throws_ret {A} (a : A) : throws_only P (ret a).
Proof. intros s e H. discriminate. Qed.

Lemma throws_throw {A} e : P e -> throws_only P (@throw A e).
Proof. intros He s e' H. injection H as <-. exact He. Qed.

Lemma throws_emit ev : throws_only P (emit ev).
Proof. intros s e H. discriminate. Qed.

Lemma throws_console l message : throws_only P (console l message).
Proof. intros s e H. discriminate. Qed.

Lemma throws_get_world : throws_only P get_world.
Proof. intros s e H. discriminate. Qed.

Lemma throws_put_world w : throws_only P (put_world w).
Proof. intros s e H. discriminate. Qed.

Lemma throws_update f : throws_only P (update f).
Proof. intros s e H. discriminate. Qed.

Lemma throws_settle {A} (c : Completion A) :
  (forall e, c = Threw e -> P e) -> throws_only P (settle c).
Proof. intros Hc s e H. rewrite settle_run in H. apply Hc. exact H. Qed.

Lemma throws_bind {A B} (m : Task A) (k : A -> Task B) :
  throws_only P m -> (forall a, throws_only P (k a)) -> throws_only P (bind m k).
Proof.
  intros Hm Hk s e. unfold bind. specialize (Hm s).
  destruct (m s) as [[a|e'] s1]; cbn in *.
  - apply Hk.
  - intros [= <-]. apply Hm. reflexivity.
Qed.

(** The handler sees only errors in [Q]. *)
Lemma throws_try_catch (Q : Error -> Prop) {A} (m : Task A) (h : Error -> Task A) :
  throws_only Q m -> (forall e, Q e -> throws_only P (h e)) ->
  throws_only P (try_catch m h).
Proof.
  intros Hm Hh s e. unfold try_catch. specialize (Hm s).
  destruct (m s) as [[a|e'] s1]; cbn in *.
  - discriminate.
  - apply Hh. apply Hm. reflexivity.
Qed.

Lemma throws_try_finally {A} (m : Task A) (f : Task unit) :
  throws_only P m -> throws_only P f -> throws_only P (try_finally m f).
Proof.
  intros Hm Hf s e. unfold try_finally. specialize (Hm s).
  destruct (m s) as [c s1]. specialize (Hf s1).
  destruct (f s1) as [[[]|e'] s2]; cbn in *.
  - intros ->. apply Hm. reflexivity.
  - intros [= <-]. apply Hf. reflexivity.
Qed.

Lemma throws_for_each {A} (l : list A) (f : A -> Task unit) :
  (forall a, throws_only P (f a)) -> throws_only P (for_each l f).
Proof.
  intros Hf. induction l as [|a l IH]; cbn.
  - apply throws_ret.
  - apply throws_bind; [apply Hf|intros _; exact IH].
Qed.

Lemma throws_map_task {A B} (f : A -> Task B) (l : list A) :
  (forall a, throws_only P (f a)) -> throws_only P (map_task f l).
Proof.
  intros Hf. induction l as [|a l IH]; cbn.
  - apply throws_ret.
  - apply throws_bind; [apply Hf|intros b].
    apply throws_bind; [exact IH|intros bs]. apply throws_ret.
Qed.

Lemma throws_if {A} (b : bool) (t u : Task A) :
  throws_only P t -> throws_only P u -> throws_only P (if b then t else u).
Proof. destruct b; auto. Qed.
End Throws.

Lemma throws_weaken (P Q : Error -> Prop) {A} (t : Task A) :
  (forall e, P e -> Q e) -> throws_only P t -> throws_only Q t.
Proof. intros HPQ Ht s e H. apply HPQ. eapply Ht. exact H. Qed.

Lemma throws_anything {A} (t : Task A) : throws_only (fun _ => True) t.
Proof. intros s e H. exact I. Qed.

Lemma throws_File_info f : throws_only foreign_error (File_info f).
Proof.
  intros s e. rewrite File_info_stat. unfold stat. cbn.
  destruct (World.info_error (Sys.world s) (File.uri f)); [intros [= <-]; exact I|].
  destruct (World.files (Sys.world s) !! File.uri f); discriminate.
Qed.

Lemma throws_File_delete f : throws_only foreign_error (File_delete f).
Proof.
  intros s e. rewrite File_delete_run.
  destruct (World.delete_error (Sys.world s) (File.uri f)); [intros [= <-]; exact I|discriminate].
Qed.

Lemma throws_updateModelFileInfo model file : throws_only no_error (updateModelFileInfo model file).
Proof. intros s e. rewrite updateModelFileInfo_run. discriminate. Qed.

Lemma throws_loadWhisperNative : throws_only no_error loadWhisperNative.
Proof. intros s e. rewrite loadWhisperNative_run. discriminate. Qed.

(** ** Calls the hook functions make, in any world *)

(** X1: whatever the world does, [downloadModel] only appends to the trace,
    and what it appends is the creation of the directory, stats, the
    download of the model's own URL, progress published for the model's
    own id and console output: it never deletes a file, never touches the
    native module and never publishes progress for another model. *)
Theorem downloadModel_calls (model : WhisperModel.t) (s : Sys.t) :
  exists evs,
    Sys.trace (snd (downloadModel model s)) = Sys.trace s ++ evs /\
    Forall (download_event model) evs /\
    Forall (fun e => is_native e = false /\ is_delete e = false) evs.
Proof.
  destruct (emits_downloadModel model s) as (evs & Htrace & Hevs).
  exists evs. split; [exact Htrace|]. split; [exact Hevs|].
  eapply Forall_impl; [exact Hevs|]. intros e He. destruct e; cbn in *; tauto.
Qed.

(** X2: neither [initializeWhisperModel] nor [resetWhisperContext] ever
    calls [release] or deletes a file, whatever the world and whatever
    engine handle the hook holds: a handle that is replaced or reset is not
    released.  [initializeWhisperModel] publishes progress for its own id
    only, and [resetWhisperContext] makes no call but its one log line. *)
Theorem initialize_and_reset_never_release
    (rendered : Manager.t) (modelId : string) (options : option InitOptions.t)
    (s : Sys.t) :
  (exists evs,
     Sys.trace (snd (initializeWhisperModel rendered modelId options s))
       = Sys.trace s ++ evs /\
     Forall (initialize_event modelId) evs /\
     Forall (fun e => is_release e = false /\ is_delete e = false) evs) /\
  Sys.trace (snd (resetWhisperContext s))
    = Sys.trace s ++ [Console LLog "Whisper contexts reset"].
Proof.
  split.
  - destruct (emits_initializeWhisperModel rendered modelId options s)
      as (evs & Htrace & Hevs).
    exists evs. split; [exact Htrace|]. split; [exact Hevs|].
    eapply Forall_impl; [exact Hevs|]. intros e He. destruct e; cbn in *; tauto.
  - reflexivity.
Qed.

(** X3: whatever the world does, the only file [deleteModel] stats or
    deletes is the cached path of the model it is given, the only handle it
    releases is the engine handle of its render, and only when the model is
    the current one; it makes no network transfer and never imports or
    initialises the native module. *)
Theorem deleteModel_calls (modelId : string) (s : Sys.t) :
  exists evs,
    Sys.trace (snd (on_render (fun r => deleteModel r modelId) s)) = Sys.trace s ++ evs /\
    Forall (delete_event (Sys.mgr s) modelId) evs /\
    Forall (fun e => is_network e = false) evs.
Proof.
  unfold on_render.
  destruct (emits_deleteModel (Sys.mgr s) modelId s) as (evs & Htrace & Hevs).
  exists evs. split; [exact Htrace|]. split; [exact Hevs|].
  eapply Forall_impl; [exact Hevs|]. intros e He. destruct e; cbn in *; tauto.
Qed.

(** ** The mount scan *)

Lemma stat_existing_run directory model s :
  stat_existing directory model s
  = (Returned (scan_entry (Sys.world s) directory model),
     observe (scan_events (Sys.world s) directory model) s).
Proof.
  unfold stat_existing, try_catch. unfold bind at 1. rewrite File_info_stat.
  unfold scan_entry, scan_events, new_File. cbn [File.uri].
  destruct s as [m w tr]. cbn [Sys.world observe Sys.mgr Sys.trace].
  destruct (stat w _) as [[[] sz]|e]; cbn; rewrite <- ?app_assoc; reflexivity.
Qed.

Lemma map_task_stat_existing_run directory models s :
  map_task (stat_existing directory) models s
  = (Returned (map (scan_entry (Sys.world s) directory) models),
     observe (flat_map (scan_events (Sys.world s) directory) models) s).
Proof.
  revert s. induction models as [|model models IH]; intros s.
  - destruct s. cbn. unfold observe. cbn. rewrite app_nil_r. reflexivity.
  - cbn [map_task]. unfold bind at 1. rewrite stat_existing_run.
    unfold bind at 1. rewrite IH. destruct s as [m w tr]. cbn.
    unfold observe. cbn. rewrite <- app_assoc. reflexivity.
Qed.

Lemma loadExistingModels_run s root :
  storage_ready (Sys.world s) root ->
  loadExistingModels true s
  = (Returned tt,
     Sys.mk
       (Manager.map_modelFiles (fun prev => scan_map (Sys.world s) root ∪ prev) (Sys.mgr s))
       (ensure_directory (Sys.world s) (model_directory root))
       (Sys.trace s
        ++ FsCreateDirectory (model_directory root)
        :: flat_map (scan_events (Sys.world s) (Directory.mk (model_directory root)))
             WHISPER_MODELS)).
Proof.
  intros Hready. unfold loadExistingModels, try_catch. unfold bind at 1.
  rewrite (getModelDirectory_ready _ _ Hready).
  unfold bind at 1. rewrite map_task_stat_existing_run.
  cbn [negb Sys.world Sys.mgr Sys.trace observe]. cbn zeta.
  assert (Hentries :
    map (scan_entry (ensure_directory (Sys.world s) (model_directory root))
           (Directory.mk (model_directory root))) WHISPER_MODELS
    = map (scan_entry (Sys.world s) (Directory.mk (model_directory root))) WHISPER_MODELS).
  { apply map_ext. intros model. unfold scan_entry. rewrite stat_ensure_directory.
    reflexivity. }
  assert (Hevents :
    flat_map (scan_events (ensure_directory (Sys.world s) (model_directory root))
                (Directory.mk (model_directory root))) WHISPER_MODELS
    = flat_map (scan_events (Sys.world s) (Directory.mk (model_directory root)))
        WHISPER_MODELS).
  { apply flat_map_ext. intros model. unfold scan_events. rewrite stat_ensure_directory.
    reflexivity. }
  rewrite Hentries, Hevents. fold (scan_map (Sys.world s) root).
  destruct s as [m w tr]. unfold observe. cbn [Sys.world Sys.mgr Sys.trace].
  rewrite <- app_assoc. cbn [app].
  case_bool_decide as Hempty.
  - rewrite Hempty. unfold Manager.map_modelFiles. rewrite (left_id_L ∅ (∪)).
    destruct m. reflexivity.
  - reflexivity.
Qed.

Lemma fold_add_entry_lookup w directory (models : list WhisperModel.t)
    (acc : gmap string ModelFileInfo.t) (k : string) :
  List.NoDup (map WhisperModel.id models) ->
  fold_left add_entry (map (scan_entry w directory) models) acc !! k
  = match find (fun m => String.eqb (WhisperModel.id m) k) models with
    | Some model =>
        match scan_entry w directory model with
        | Some (_, info) => Some info
        | None => acc !! k
        end
    | None => acc !! k
    end.
Proof.
  revert acc. induction models as [|model models IH]; intros acc Hnodup; [reflexivity|].
  cbn [map] in Hnodup. inversion Hnodup as [|? ? Hnotin Hnodup']; subst.
  cbn [map fold_left find]. rewrite (IH _ Hnodup').
  destruct (String.eqb_spec (WhisperModel.id model) k) as [Heq|Hne].
  - assert (Hnone : find (fun m => String.eqb (WhisperModel.id m) k) models = None).
    { destruct (find _ models) as [m'|] eqn:Hfind; [|reflexivity].
      apply find_some in Hfind. destruct Hfind as [Hin Hk]. apply String.eqb_eq in Hk.
      exfalso. apply Hnotin. rewrite Heq, <- Hk. apply in_map. exact Hin. }
    rewrite Hnone. unfold scan_entry.
    destruct (stat w _) as [[[] sz]|e]; cbn; rewrite ?Heq, ?lookup_insert_eq; reflexivity.
  - assert (Hacc : add_entry acc (scan_entry w directory model) !! k = acc !! k).
    { unfold scan_entry. destruct (stat w _) as [[[] sz]|e]; cbn;
        rewrite ?lookup_insert_ne by exact Hne; reflexivity. }
    rewrite Hacc. reflexivity.
Qed.

Lemma WHISPER_MODELS_ids_distinct : List.NoDup (map WhisperModel.id WHISPER_MODELS).
Proof.
  cbn. repeat constructor; cbn; intros H;
    repeat (destruct H as [H|H]; [discriminate H|]); exact H.
Qed.

Lemma find_model_catalog model :
  In model WHISPER_MODELS -> find_model WHISPER_MODELS (WhisperModel.id model) = Some model.
Proof.
  cbn. intros H.
  repeat (destruct H as [<-|H]; [reflexivity|]). destruct H.
Qed.

Lemma scan_map_lookup w root k :
  scan_map w root !! k
  = match find_model WHISPER_MODELS k with
    | Some model => scanned w root model None
    | None => None
    end.
Proof.
  unfold scan_map. rewrite fold_add_entry_lookup by exact WHISPER_MODELS_ids_distinct.
  unfold find_model. destruct (find _ WHISPER_MODELS) as [model|]; [|apply lookup_empty].
  unfold scan_entry, scanned, model_file. cbn [Directory.uri].
  destruct (stat w _) as [[[] sz]|e]; cbn; rewrite ?lookup_empty; reflexivity.
Qed.

Lemma same_but_cache_refl m : same_but_cache m m.
Proof. repeat split. Qed.

Lemma same_but_cache_trans a b c :
  same_but_cache a b -> same_but_cache b c -> same_but_cache a c.
Proof.
  intros (H1 & H2 & H3 & H4 & H5 & H6) (K1 & K2 & K3 & K4 & K5 & K6).
  repeat split; congruence.
Qed.

Lemma respects_same_but_cache_loadExistingModels isMounted :
  respects same_but_cache (loadExistingModels isMounted).
Proof.
  pose proof same_but_cache_refl as Hr. pose proof same_but_cache_trans as Ht.
  apply (respects_try_catch _ Ht); [|intros e; apply (respects_console _ Hr)].
  apply (respects_bind _ Ht); [apply (respects_getModelDirectory _ Hr Ht)|intros directory].
  apply (respects_bind _ Ht).
  - apply (respects_map_task _ Hr Ht). intros model s. rewrite stat_existing_run. apply Hr.
  - intros entries. destruct (negb isMounted); [apply (respects_ret _ Hr)|]. cbn zeta.
    destruct (bool_decide _); [apply (respects_ret _ Hr)|].
    apply respects_update. intros m. repeat split.
Qed.

Lemma respects_eq_loadExistingModels_unmounted :
  respects eq (loadExistingModels false).
Proof.
  assert (Hr : forall m : Manager.t, m = m) by reflexivity.
  assert (Ht : forall a b c : Manager.t, a = b -> b = c -> a = c) by congruence.
  apply (respects_try_catch _ Ht); [|intros e; apply (respects_console _ Hr)].
  apply (respects_bind _ Ht); [apply (respects_getModelDirectory _ Hr Ht)|intros directory].
  apply (respects_bind _ Ht).
  - apply (respects_map_task _ Hr Ht). intros model s. rewrite stat_existing_run. apply Hr.
  - intros entries. apply (respects_ret _ Hr).
Qed.

Lemma throws_loadExistingModels isMounted : throws_only no_error (loadExistingModels isMounted).
Proof.
  unfold loadExistingModels.
  apply (throws_try_catch _ (fun _ => True)); [apply throws_anything|].
  intros e _. apply throws_console.
Qed.

(** X4: the mount scan is harmless in every world: it never throws, the
    only calls it makes are the creation of the model directory, stats and
    console output, it changes nothing of the hook state but the
    ModelFileInfo cache, from which it drops no entry, and it changes
    nothing at all when the component was unmounted meanwhile. *)
Theorem loadExistingModels_is_harmless (isMounted : bool) (s : Sys.t) :
  let run := loadExistingModels isMounted s in
  fst run = Returned tt /\
  (exists evs, Sys.trace (snd run) = Sys.trace s ++ evs /\ Forall scan_event evs) /\
  same_but_cache (Sys.mgr s) (Sys.mgr (snd run)) /\
  (forall k, is_Some (Manager.modelFiles (Sys.mgr s) !! k) ->
             is_Some (Manager.modelFiles (Sys.mgr (snd run)) !! k)) /\
  (isMounted = false -> Sys.mgr (snd run) = Sys.mgr s).
Proof.
  cbn zeta. split; [|split; [|split; [|split]]].
  - pose proof (throws_loadExistingModels isMounted s) as H.
    destruct (fst (loadExistingModels isMounted s)) as [[]|e]; [reflexivity|].
    destruct (H e eq_refl).
  - apply emits_loadExistingModels.
  - apply respects_same_but_cache_loadExistingModels.
  - apply respects_grows_loadExistingModels.
  - intros ->. symmetry. apply respects_eq_loadExistingModels_unmounted.
Qed.

(** X5: with the model directory available, the mount scan leaves, for
    every catalog entry, the path with the stat size when the stat reports
    the file, the path with size 0 when the stat throws, and the entry that
    was there when the stat reports no file; entries of ids outside the
    catalog are left alone.  One stat that throws does not stop the scan of
    the other entries. *)
Theorem loadExistingModels_reconciles (s : Sys.t) (root : string) (k : string) :
  storage_ready (Sys.world s) root ->
  Manager.modelFiles (Sys.mgr (snd (loadExistingModels true s))) !! k
  = match find_model WHISPER_MODELS k with
    | Some model => scanned (Sys.world s) root model (Manager.modelFiles (Sys.mgr s) !! k)
    | None => Manager.modelFiles (Sys.mgr s) !! k
    end.
Proof.
  intros Hready. rewrite (loadExistingModels_run _ _ Hready).
  cbn [snd Sys.mgr Manager.modelFiles Manager.map_modelFiles].
  rewrite lookup_union, scan_map_lookup.
  destruct (find_model WHISPER_MODELS k) as [model|].
  - unfold scanned. destruct (stat _ _) as [[[] sz]|e]; cbn;
      destruct (Manager.modelFiles (Sys.mgr s) !! k); reflexivity.
  - destruct (Manager.modelFiles (Sys.mgr s) !! k); reflexivity.
Qed.

Lemma loadExistingModels_reconciles_witness :
  let s := Scenario.start Case.disk_with_two in
  let files := Manager.modelFiles (Sys.mgr (snd (loadExistingModels true s))) in
  files !! "base" = Some (ModelFileInfo.mk Scenario.base_file 2000) /\
  files !! "small" = Some (ModelFileInfo.mk Case.small_file 0) /\
  files !! "tiny-en" = None.
Proof.
  assert (Hready : storage_ready (Sys.world (Scenario.start Case.disk_with_two))
                     Scenario.root) by (repeat split; discriminate).
  cbn zeta. split; [|split].
  - rewrite (loadExistingModels_reconciles _ Scenario.root "base" Hready).
    vm_compute. reflexivity.
  - rewrite (loadExistingModels_reconciles _ Scenario.root "small" Hready).
    vm_compute. reflexivity.
  - rewrite (loadExistingModels_reconciles _ Scenario.root "tiny-en" Hready).
    vm_compute. reflexivity.
Defined.

(** X6: the mount scan is idempotent: with the model directory available,
    a second scan right after the first leaves the ModelFileInfo cache and
    the disk as the first left them. *)
Theorem loadExistingModels_idempotent (s : Sys.t) (root : string) :
  storage_ready (Sys.world s) root ->
  let once := snd (loadExistingModels true s) in
  let twice := snd (loadExistingModels true once) in
  Sys.mgr twice = Sys.mgr once /\ Sys.world twice = Sys.world once.
Proof.
  intros Hready. cbn zeta.
  rewrite (loadExistingModels_run _ _ Hready). cbn [snd].
  match goal with
  | |- context [loadExistingModels true ?s1] =>
      assert (Hready1 : storage_ready (Sys.world s1) root)
        by (apply storage_ready_ensure_directory; exact Hready);
      rewrite (loadExistingModels_run s1 root Hready1)
  end.
  cbn [snd Sys.mgr Sys.world]. split.
  - assert (Hmap : scan_map (ensure_directory (Sys.world s) (model_directory root)) root
                   = scan_map (Sys.world s) root).
    { apply map_eq. intros k. rewrite !scan_map_lookup.
      destruct (find_model WHISPER_MODELS k); [|reflexivity].
      unfold scanned. rewrite stat_ensure_directory. reflexivity. }
    rewrite Hmap. destruct (Sys.mgr s). unfold Manager.map_modelFiles.
    cbn [Manager.modelFiles Manager.downloadProgress Manager.isDownloading
         Manager.isInitializingModel Manager.whisperContext Manager.vadContext
         Manager.currentModelId].
    f_equal. rewrite (assoc_L (∪)), (idemp_L (∪) (scan_map (Sys.world s) root)). reflexivity.
  - apply ensure_directory_idempotent.
Qed.

Lemma loadExistingModels_idempotent_witness :
  let once := snd (loadExistingModels true (Scenario.start Case.disk_with_two)) in
  let twice := snd (loadExistingModels true once) in
  Sys.mgr twice = Sys.mgr once /\ Sys.world twice = Sys.world once.
Proof.
  apply (loadExistingModels_idempotent (Scenario.start Case.disk_with_two) Scenario.root).
  repeat split. discriminate.
Defined.

(** ** Frames on the hook state, in any world *)

(** Applies the frame rules of [respects] down the structure of a task,
    leaving the setter calls and the calls of [downloadModel]. *)
Ltac respects_struct Hr Ht :=
  repeat first
    [ apply (respects_ret _ Hr) | apply (respects_throw _ Hr)
    | apply (respects_emit _ Hr) | apply (respects_console _ Hr)
    | apply (respects_get_world _ Hr) | apply (respects_put_world _ Hr)
    | apply (respects_settle _ Hr) | apply (respects_File_info _ Hr)
    | apply (respects_File_delete _ Hr) | apply (respects_loadWhisperNative _ Hr)
    | apply (respects_getModelDirectory _ Hr Ht)
    | apply (respects_bind _ Ht); [|intros ?]
    | apply (respects_try_catch _ Ht); [|intros ?]
    | apply (respects_try_finally _ Ht)
    | match goal with
      | |- respects _ (if ?b then _ else _) => destruct b
      | |- respects _ (match ?x with _ => _ end) => destruct x
      end ].

Section StateFrames.
Variable R : Manager.t -> Manager.t -> Prop.
Hypothesis R_refl : forall m, R m m.
Hypothesis R_trans : forall a b c, R a b -> R b c -> R a c.

Lemma respects_downloadModel_branches model :
  (forall file, respects R (downloadModel_existing model file)) ->
  (forall file, respects R (downloadModel_transfer model file)) ->
  respects R (downloadModel model).
Proof.
  intros Hexisting Htransfer. unfold downloadModel.
  apply (respects_bind _ R_trans);
    [apply (respects_getModelDirectory _ R_refl R_trans)|intros directory].
  apply (respects_bind _ R_trans).
  - apply (respects_try_catch _ R_trans); [apply (respects_File_info _ R_refl)|intros e].
    apply (respects_bind _ R_trans);
      [apply (respects_console _ R_refl)|intros _; apply (respects_ret _ R_refl)].
  - intros existingInfo. destruct (FileInfo.exists_ existingInfo);
      [apply Hexisting|apply Htransfer].
Qed.

(** The setters [initializeWhisperModel] calls besides those of
    [downloadModel]. *)
Lemma respects_initializeWhisperModel_setters rendered modelId options :
  (forall model, find_model WHISPER_MODELS modelId = Some model ->
                 respects R (downloadModel model)) ->
  (forall b m, R m (Manager.with_isInitializingModel b m)) ->
  (forall c m, R m (Manager.with_whisperContext c m)) ->
  (forall i m, R m (Manager.with_currentModelId i m)) ->
  (initVad_requested options = true -> forall v m, R m (Manager.with_vadContext v m)) ->
  respects R (initializeWhisperModel rendered modelId options).
Proof.
  intros Hdl Hflag Hctx Hcur Hvad. unfold initializeWhisperModel.
  destruct (find_model WHISPER_MODELS modelId) as [model|];
    [|apply (respects_throw _ R_refl)].
  specialize (Hdl model eq_refl).
  apply (respects_try_finally _ R_trans); [|apply respects_update; apply Hflag].
  apply (respects_try_catch _ R_trans); [|intros e; respects_struct R_refl R_trans].
  apply (respects_bind _ R_trans); [apply respects_update; apply Hflag|intros _].
  apply (respects_bind _ R_trans); [apply (respects_console _ R_refl)|intros _].
  apply (respects_bind _ R_trans); [apply Hdl|intros modelPath].
  apply (respects_bind _ R_trans);
    [apply (respects_loadWhisperNative _ R_refl)|intros [native|]];
    [|apply (respects_throw _ R_refl)].
  apply (respects_bind _ R_trans);
    [unfold call_initWhisper; respects_struct R_refl R_trans|intros context].
  apply (respects_bind _ R_trans); [apply respects_update; apply Hctx|intros _].
  apply (respects_bind _ R_trans); [apply respects_update; apply Hcur|intros _].
  apply (respects_bind _ R_trans); [apply (respects_console _ R_refl)|intros _].
  apply (respects_bind _ R_trans); [|intros _; apply (respects_ret _ R_refl)].
  destruct (initVad_requested options); [|apply (respects_ret _ R_refl)].
  unfold initializeVad.
  apply (respects_bind _ R_trans); [apply (respects_console _ R_refl)|intros _].
  apply (respects_try_catch _ R_trans); [|intros e; apply (respects_console _ R_refl)].
  destruct (WhisperNative.initWhisperVad native) as [f|];
    [|apply (respects_console _ R_refl)].
  apply (respects_bind _ R_trans); [apply (respects_emit _ R_refl)|intros _].
  apply (respects_bind _ R_trans); [apply (respects_settle _ R_refl)|intros vad].
  apply (respects_bind _ R_trans);
    [apply respects_update; apply Hvad; reflexivity|intros _].
  apply (respects_console _ R_refl).
Qed.

Lemma respects_deleteModel_setters rendered modelId :
  (forall m, R m (Manager.map_modelFiles (fun prev => delete modelId prev) m)) ->
  (forall m, R m (Manager.map_downloadProgress (fun prev => delete modelId prev) m)) ->
  (Manager.currentModelId rendered = Some modelId ->
   forall m,
     R m (Manager.with_whisperContext None m) /\
     R m (Manager.with_currentModelId None m) /\
     R m (Manager.with_vadContext None m)) ->
  respects R (deleteModel rendered modelId).
Proof.
  intros Hfiles Hprogress Hslot. unfold deleteModel, get_member.
  destruct (Manager.modelFiles rendered !! modelId) as [fileInfo|];
    [|destruct (inherited modelId);
      [respects_struct R_refl R_trans|apply (respects_console _ R_refl)]].
  apply (respects_bind _ R_trans); [respects_struct R_refl R_trans|intros _].
  apply (respects_bind _ R_trans); [apply respects_update; apply Hfiles|intros _].
  apply (respects_bind _ R_trans); [apply respects_update; apply Hprogress|intros _].
  case_bool_decide as Hcur; [|apply (respects_ret _ R_refl)].
  specialize (Hslot Hcur).
  apply (respects_bind _ R_trans).
  - destruct (Manager.whisperContext rendered) as [ctx|]; [|apply (respects_ret _ R_refl)].
    destruct (WhisperContext.release ctx) as [b|]; [|apply (respects_ret _ R_refl)].
    unfold call_release. respects_struct R_refl R_trans.
  - intros _.
    apply (respects_bind _ R_trans); [apply respects_update; apply Hslot|intros _].
    apply (respects_bind _ R_trans); [apply respects_update; apply Hslot|intros _].
    apply respects_update; apply Hslot.
Qed.
End StateFrames.

Lemma keeps_idle_refl m : keeps_idle m m.
Proof. intros H. exact H. Qed.

Lemma keeps_idle_trans a b c : keeps_idle a b -> keeps_idle b c -> keeps_idle a c.
Proof. unfold keeps_idle. auto. Qed.

Lemma keeps_initializing_refl m : keeps_initializing m m.
Proof. reflexivity. Qed.

Lemma keeps_initializing_trans a b c :
  keeps_initializing a b -> keeps_initializing b c -> keeps_initializing a c.
Proof. unfold keeps_initializing. congruence. Qed.

Lemma respects_keeps_idle_downloadModel model : respects keeps_idle (downloadModel model).
Proof.
  apply (respects_downloadModel_branches _ keeps_idle_refl keeps_idle_trans).
  - intros file s. rewrite downloadModel_existing_run. intros H. exact H.
  - intros file s. pose proof (downloadModel_transfer_run model file s) as H.
    cbn zeta in H. rewrite H. intros _.
    destruct (Transfer.settles _) as [r|e]; [destruct (download_succeeded r)|]; reflexivity.
Qed.

Lemma respects_keeps_initializing_downloadModel model :
  respects keeps_initializing (downloadModel model).
Proof.
  apply (respects_downloadModel_branches _
           keeps_initializing_refl keeps_initializing_trans).
  - intros file s. rewrite downloadModel_existing_run. reflexivity.
  - intros file s. pose proof (downloadModel_transfer_run model file s) as H.
    cbn zeta in H. rewrite H.
    destruct (Transfer.settles _) as [r|e]; [destruct (download_succeeded r)|]; reflexivity.
Qed.

Lemma initializeWhisperModel_clears_flag rendered modelId options s :
  Manager.isInitializingModel (Sys.mgr s) = false ->
  Manager.isInitializingModel
    (Sys.mgr (snd (initializeWhisperModel rendered modelId options s))) = false.
Proof.
  intros Hbefore. unfold initializeWhisperModel.
  destruct (find_model WHISPER_MODELS modelId) as [model|]; [|exact Hbefore].
  unfold try_finally.
  match goal with |- context [try_catch ?m ?h s] => destruct (try_catch m h s) as [c s1] end.
  reflexivity.
Qed.

Lemma perform_flags op s :
  Manager.isDownloading (Sys.mgr s) = false /\
  Manager.isInitializingModel (Sys.mgr s) = false ->
  Manager.isDownloading (Sys.mgr (perform op s)) = false /\
  Manager.isInitializingModel (Sys.mgr (perform op s)) = false.
Proof.
  intros [Hd Hi].
  destruct op as [model|rendered modelId options| |rendered modelId|isMounted];
    cbn [perform].
  - split.
    + apply respects_keeps_idle_downloadModel. exact Hd.
    + rewrite <- Hi. apply respects_keeps_initializing_downloadModel.
  - split.
    + apply (respects_initializeWhisperModel_setters keeps_idle
               keeps_idle_refl keeps_idle_trans);
        [intros model _; apply respects_keeps_idle_downloadModel|..|exact Hd];
        intros; intros Hidle; exact Hidle.
    + apply initializeWhisperModel_clears_flag. exact Hi.
  - split; [exact Hd|exact Hi].
  - split.
    + apply (respects_deleteModel_setters keeps_idle keeps_idle_refl keeps_idle_trans);
        [..|exact Hd]; intros; repeat split; intros Hidle; exact Hidle.
    + rewrite <- Hi.
      apply (respects_deleteModel_setters keeps_initializing
               keeps_initializing_refl keeps_initializing_trans);
        intros; repeat split.
  - destruct (respects_same_but_cache_loadExistingModels isMounted s)
      as (_ & Hd' & Hi' & _).
    rewrite Hd', Hi'. split; assumption.
Qed.

(** X7: the two busy flags are never left set: in every state the hook
    can reach by calls that ran to their end, [isDownloading] and
    [isInitializingModel] are false, whether the calls returned or threw,
    whatever the world did and whatever render the called functions came
    from. *)
Theorem busy_flags_are_cleared (m : Manager.t) :
  reachable m ->
  Manager.isDownloading m = false /\ Manager.isInitializingModel m = false.
Proof.
  induction 1 as [|m op w tr Hm IH].
  - split; reflexivity.
  - apply perform_flags. exact IH.
Qed.

Lemma busy_flags_are_cleared_witness :
  let failed :=
    perform (OpInitialize Manager.initial "base" None)
      (Sys.mk Manager.initial
         (Scenario.world ∅ Case.transfer_broken Scenario.expo_go) []) in
  fst (downloadModel Scenario.base
         (Scenario.start (Scenario.world ∅ Case.transfer_broken Scenario.expo_go)))
    = Threw (Foreign "connection reset") /\
  Manager.isDownloading (Sys.mgr failed) = false /\
  Manager.isInitializingModel (Sys.mgr failed) = false.
Proof.
  cbn zeta. split; [vm_compute; reflexivity|].
  apply (busy_flags_are_cleared
           (Sys.mgr (perform (OpInitialize Manager.initial "base" None)
                       (Sys.mk Manager.initial
                          (Scenario.world ∅ Case.transfer_broken Scenario.expo_go) [])))).
  apply reachable_step. apply reachable_initial.
Defined.

Lemma keeps_others_refl modelId m : keeps_others modelId m m.
Proof. intros k Hk. split; reflexivity. Qed.

Lemma keeps_others_trans modelId a b c :
  keeps_others modelId a b -> keeps_others modelId b c -> keeps_others modelId a c.
Proof.
  intros Hab Hbc k Hk. destruct (Hab k Hk) as [H1 H2]. destruct (Hbc k Hk) as [H3 H4].
  split; congruence.
Qed.

Lemma keeps_others_after_ticks modelId ticks (progress : gmap string Q) k :
  k <> modelId -> after_ticks modelId ticks progress !! k = progress !! k.
Proof.
  unfold after_ticks. revert progress.
  induction ticks as [|t ticks IH]; intros progress Hk; [reflexivity|].
  cbn. rewrite IH by exact Hk. apply lookup_insert_ne. congruence.
Qed.

Lemma respects_keeps_others_downloadModel model :
  respects (keeps_others (WhisperModel.id model)) (downloadModel model).
Proof.
  apply (respects_downloadModel_branches _
           (keeps_others_refl _) (keeps_others_trans _)).
  - intros file s. rewrite downloadModel_existing_run. intros k Hk. cbn.
    rewrite lookup_insert_ne by congruence. split; reflexivity.
  - intros file s. pose proof (downloadModel_transfer_run model file s) as H.
    cbn zeta in H. rewrite H. intros k Hk.
    destruct (Transfer.settles _) as [r|e]; [destruct (download_succeeded r)|]; cbn;
      rewrite ?lookup_insert_ne by congruence;
      rewrite keeps_others_after_ticks by exact Hk; split; reflexivity.
Qed.

(** X8: a call for one model leaves the others alone, in every world and
    through the function of any render: [downloadModel],
    [initializeWhisperModel] and [deleteModel] change the ModelFileInfo and
    progress entries of no model but the one they are called for. *)
Theorem calls_keep_other_models (modelId k : string) (s : Sys.t) :
  k <> modelId ->
  (forall model, WhisperModel.id model = modelId ->
     Manager.modelFiles (Sys.mgr (snd (downloadModel model s))) !! k
       = Manager.modelFiles (Sys.mgr s) !! k /\
     Manager.downloadProgress (Sys.mgr (snd (downloadModel model s))) !! k
       = Manager.downloadProgress (Sys.mgr s) !! k) /\
  (forall rendered options,
     let after := perform (OpInitialize rendered modelId options) s in
     Manager.modelFiles (Sys.mgr after) !! k = Manager.modelFiles (Sys.mgr s) !! k /\
     Manager.downloadProgress (Sys.mgr after) !! k
       = Manager.downloadProgress (Sys.mgr s) !! k) /\
  (forall rendered,
     let after := perform (OpDelete rendered modelId) s in
     Manager.modelFiles (Sys.mgr after) !! k = Manager.modelFiles (Sys.mgr s) !! k /\
     Manager.downloadProgress (Sys.mgr after) !! k
       = Manager.downloadProgress (Sys.mgr s) !! k).
Proof.
  intros Hk. split; [|split].
  - intros model <-. apply respects_keeps_others_downloadModel. exact Hk.
  - intros rendered options. cbn [perform].
    apply (respects_initializeWhisperModel_setters (keeps_others modelId)
             (keeps_others_refl _) (keeps_others_trans _));
      [|intros; intros k' Hk'; split; reflexivity..|exact Hk].
    intros model Hfind. destruct (find_model_known _ _ _ Hfind) as [_ <-].
    apply respects_keeps_others_downloadModel.
  - intros rendered. cbn [perform].
    apply (respects_deleteModel_setters (keeps_others modelId)
             (keeps_others_refl _) (keeps_others_trans _)); [| | |exact Hk].
    + intros m k' Hk'. cbn. rewrite lookup_delete_ne by congruence. split; reflexivity.
    + intros m k' Hk'. cbn. rewrite lookup_delete_ne by congruence. split; reflexivity.
    + intros _ m. split; [|split]; intros k' Hk'; split; reflexivity.
Qed.

Lemma calls_keep_other_models_witness :
  let s := Sys.mk (Sys.mgr Scenario.base_loaded) (Sys.world Scenario.base_loaded) [] in
  let again := perform (OpInitialize (Sys.mgr Scenario.base_loaded) "small" None) s in
  Manager.modelFiles (Sys.mgr again) !! "base" = Manager.modelFiles (Sys.mgr s) !! "base" /\
  Manager.downloadProgress (Sys.mgr again) !! "base"
    = Manager.downloadProgress (Sys.mgr s) !! "base".
Proof.
  assert (Hne : "base" <> "small") by discriminate.
  exact (proj1 (proj2 (calls_keep_other_models "small" "base"
                         (Sys.mk (Sys.mgr Scenario.base_loaded)
                            (Sys.world Scenario.base_loaded) [])
                         Hne)) (Sys.mgr Scenario.base_loaded) None).
Defined.

(** ** What the helpers report in reachable states *)



Lemma isModelDownloaded_own m modelId :
  is_Some (Manager.modelFiles m !! modelId) -> isModelDownloaded m modelId = true.
Proof.
  intros [fileInfo H]. unfold isModelDownloaded.
  rewrite (get_member_own _ _ _ H). reflexivity.
Qed.



(** ** How [downloadModel] ends *)

Lemma downloadModel_directory_fails model s e s1 :
  getModelDirectory s = (Threw e, s1) -> downloadModel model s = (Threw e, s1).
Proof. intros H. unfold downloadModel, bind. rewrite H. reflexivity. Qed.

(** X10: the ways [downloadModel] can end, in any world.  Without a
    document root it throws "Document directory is not available." and the
    system is untouched; when the directory cannot be created it rethrows
    the platform's error with hook state and disk untouched; otherwise it
    returns the model's path when the stat reports the file or the transfer
    is accepted, throws the download failure with the status when the
    transfer ends with another result, and rethrows the transfer's own
    error when the transfer throws. *)
Theorem downloadModel_outcomes (model : WhisperModel.t) (s : Sys.t) :
  let run := downloadModel model s in
  (document_unavailable (Sys.world s) /\
   run = (Threw DocumentDirectoryNotAvailable, s)) \/
  (exists root e,
     World.document (Sys.world s) = DocumentAt root /\ root <> EmptyString /\
     World.create_error (Sys.world s) = Some e /\
     fst run = Threw (Foreign e) /\
     Sys.mgr (snd run) = Sys.mgr s /\ Sys.world (snd run) = Sys.world s) \/
  (exists root,
     storage_ready (Sys.world s) root /\
     if stat_exists (Sys.world s) (model_file root model)
     then fst run = Returned (model_file root model)
     else
       match Transfer.settles (World.network (Sys.world s) (WhisperModel.url model)) with
       | Returned r =>
           if download_succeeded r
           then fst run = Returned (model_file root model)
           else fst run
                = Threw (DownloadFailedWithStatus (FileSystemDownloadResult.status <$> r))
       | Threw e => fst run = Threw e
       end).
Proof.
  cbn zeta. destruct (World.document (Sys.world s)) as [e| |root] eqn:Hd.
  - left. assert (H : document_unavailable (Sys.world s)).
    { unfold document_unavailable. rewrite Hd. exact I. }
    split; [exact H|].
    apply downloadModel_directory_fails, getModelDirectory_unavailable, H.
  - left. assert (H : document_unavailable (Sys.world s)).
    { unfold document_unavailable. rewrite Hd. exact I. }
    split; [exact H|].
    apply downloadModel_directory_fails, getModelDirectory_unavailable, H.
  - destruct (String.eqb_spec root EmptyString) as [->|Hr].
    + left. assert (H : document_unavailable (Sys.world s)).
      { unfold document_unavailable. rewrite Hd. reflexivity. }
      split; [exact H|].
      apply downloadModel_directory_fails, getModelDirectory_unavailable, H.
    + right. destruct (World.create_error (Sys.world s)) as [e|] eqn:Hc.
      * left. exists root, e.
        rewrite (downloadModel_directory_fails _ _ _ _
                   (getModelDirectory_create_throws _ _ _ Hd Hr Hc)).
        repeat split; assumption.
      * right. exists root.
        assert (Hready : storage_ready (Sys.world s) root) by (repeat split; assumption).
        split; [exact Hready|].
        rewrite (downloadModel_run _ _ _ Hready).
        destruct (stat_exists (Sys.world s) (model_file root model)).
        -- rewrite downloadModel_existing_run. reflexivity.
        -- pose proof (downloadModel_transfer_run model
                         (File.mk (model_file root model))) as Htr.
           cbn zeta in Htr. rewrite Htr. clear Htr.
           cbn [Sys.world]. rewrite ensure_directory_network.
           destruct (Transfer.settles _) as [r|e];
             [destruct (download_succeeded r)|]; reflexivity.
Qed.

(** X11: a transfer that throws: [downloadModel] rethrows the
    transfer's error after logging it; the ModelFileInfo cache is untouched,
    the downloading flag is cleared, and the progress map is not rolled
    back: it holds the fraction of the last tick. *)
Theorem downloadModel_transfer_error
    (model : WhisperModel.t) (s : Sys.t) (root : string) (e : Error) :
  storage_ready (Sys.world s) root ->
  stat_exists (Sys.world s) (model_file root model) = false ->
  Transfer.settles (World.network (Sys.world s) (WhisperModel.url model)) = Threw e ->
  let run := downloadModel model s in
  let ticks := Transfer.ticks (World.network (Sys.world s) (WhisperModel.url model)) in
  fst run = Threw e /\
  Manager.modelFiles (Sys.mgr (snd run)) = Manager.modelFiles (Sys.mgr s) /\
  Manager.isDownloading (Sys.mgr (snd run)) = false /\
  Manager.downloadProgress (Sys.mgr (snd run))
    = after_ticks (WhisperModel.id model) ticks (Manager.downloadProgress (Sys.mgr s)) /\
  (forall t, last ticks = Some t ->
     Manager.downloadProgress (Sys.mgr (snd run)) !! WhisperModel.id model
     = Some (fraction t)) /\
  last (Sys.trace (snd run))
    = Some (Console LError ("Error downloading model " ++ WhisperModel.id model ++ ":")).
Proof.
  intros Hready Habsent Hsettle. cbn zeta.
  rewrite (downloadModel_run _ _ _ Hready), Habsent.
  pose proof (downloadModel_transfer_run model (File.mk (model_file root model))) as Htr.
  cbn zeta in Htr. rewrite Htr. clear Htr.
  cbn [Sys.world]. rewrite ensure_directory_network, Hsettle.
  cbn [fst snd Sys.mgr Sys.trace Manager.modelFiles Manager.isDownloading
       Manager.downloadProgress Manager.with_isDownloading Manager.map_downloadProgress].
  repeat split.
  - intros t Hlast. destruct (proj1 (last_Some _ _) Hlast) as [ticks' Hticks].
    rewrite Hticks. unfold after_ticks. rewrite fold_left_app. cbn.
    apply lookup_insert_eq.
  - apply last_snoc.
Qed.

Lemma downloadModel_transfer_error_witness :
  let s := Scenario.start (Scenario.world ∅ Case.transfer_broken Scenario.expo_go) in
  let run := downloadModel Scenario.base s in
  fst run = Threw (Foreign "connection reset") /\
  Manager.modelFiles (Sys.mgr (snd run)) = ∅ /\
  Manager.isDownloading (Sys.mgr (snd run)) = false /\
  Manager.downloadProgress (Sys.mgr (snd run)) !! "base" = Some (500 # 2000)%Q.
Proof.
  destruct (downloadModel_transfer_error Scenario.base
              (Scenario.start (Scenario.world ∅ Case.transfer_broken Scenario.expo_go))
              Scenario.root (Foreign "connection reset"))
    as (H1 & H2 & H3 & _ & H5 & _).
  - repeat split. discriminate.
  - reflexivity.
  - reflexivity.
  - cbn zeta. split; [exact H1|]. split; [exact H2|]. split; [exact H3|].
    exact (H5 (Scenario.tick 500 2000) eq_refl).
Defined.

(** X12: a transfer that is accepted always caches the model, whatever it
    left on disk: the entry holds the model's path and the size of the file
    the transfer left, or 0 when it left no file or the stat of the path
    throws; [isModelDownloaded] then holds for the model. *)
Theorem downloadModel_caches_accepted_transfer
    (model : WhisperModel.t) (s : Sys.t) (root : string) :
  storage_ready (Sys.world s) root ->
  stat_exists (Sys.world s) (model_file root model) = false ->
  let t := World.network (Sys.world s) (WhisperModel.url model) in
  terminal_ok (Transfer.settles t) = true ->
  let run := downloadModel model s in
  Manager.modelFiles (Sys.mgr (snd run))
    = <[WhisperModel.id model :=
          ModelFileInfo.mk (model_file root model)
            (cached_size (Sys.world s) (model_file root model) (Transfer.leaves t))]>
        (Manager.modelFiles (Sys.mgr s)) /\
  isModelDownloaded (Sys.mgr (snd run)) (WhisperModel.id model) = true /\
  World.files (Sys.world (snd run))
    = World.files (write_file (Sys.world s) (model_file root model) (Transfer.leaves t)).
Proof.
  intros Hready Habsent. cbn zeta. intros Hok.
  rewrite (downloadModel_run _ _ _ Hready), Habsent.
  pose proof (downloadModel_transfer_run model (File.mk (model_file root model))) as Htr.
  cbn zeta in Htr. rewrite Htr. clear Htr.
  cbn [Sys.world]. rewrite ensure_directory_network.
  unfold terminal_ok in Hok.
  destruct (Transfer.settles _) as [r|e]; [|discriminate]. rewrite Hok.
  cbn [fst snd Sys.mgr Sys.world File.uri Manager.modelFiles Manager.with_isDownloading
       Manager.map_downloadProgress Manager.map_modelFiles].
  assert (Hsize :
    stat_size
      (write_file (ensure_directory (Sys.world s) (model_directory root))
         (model_file root model)
         (Transfer.leaves (World.network (Sys.world s) (WhisperModel.url model))))
      (model_file root model)
    = cached_size (Sys.world s) (model_file root model)
        (Transfer.leaves (World.network (Sys.world s) (WhisperModel.url model)))).
  { unfold stat_exists, stat in Habsent. unfold stat_size, stat, cached_size.
    assert (Hinfo : forall leaves,
      World.info_error
        (write_file (ensure_directory (Sys.world s) (model_directory root))
           (model_file root model) leaves) (model_file root model)
      = World.info_error (Sys.world s) (model_file root model)).
    { intros [sz|]; cbn; unfold ensure_directory; case_bool_decide; reflexivity. }
    rewrite Hinfo.
    destruct (World.info_error (Sys.world s) (model_file root model));
      [reflexivity|].
    destruct (Transfer.leaves _) as [sz|]; cbn [write_file].
    - cbn. rewrite lookup_insert_eq. reflexivity.
    - rewrite ensure_directory_files.
      destruct (World.files (Sys.world s) !! model_file root model);
        [discriminate|reflexivity]. }
  rewrite Hsize. split; [reflexivity|]. split.
  - apply isModelDownloaded_own. cbn.
    rewrite lookup_insert_eq. eauto.
  - destruct (Transfer.leaves _); cbn; rewrite ensure_directory_files; reflexivity.
Qed.

Lemma downloadModel_caches_accepted_transfer_witness :
  let s := Scenario.start (Scenario.world ∅ Case.transfer_empty Scenario.expo_go) in
  let run := downloadModel Scenario.base s in
  Manager.modelFiles (Sys.mgr (snd run))
    = <[ "base" := ModelFileInfo.mk Scenario.base_file 0 ]> ∅ /\
  isModelDownloaded (Sys.mgr (snd run)) "base" = true /\
  World.files (Sys.world (snd run)) = ∅.
Proof.
  apply (downloadModel_caches_accepted_transfer Scenario.base
           (Scenario.start (Scenario.world ∅ Case.transfer_empty Scenario.expo_go))
           Scenario.root).
  - repeat split. discriminate.
  - reflexivity.
  - reflexivity.
Defined.


(** ** Calls one after the other *)

Lemma downloadModel_accepted_run model s root r :
  storage_ready (Sys.world s) root ->
  stat_exists (Sys.world s) (model_file root model) = false ->
  Transfer.settles (World.network (Sys.world s) (WhisperModel.url model)) = Returned r ->
  download_succeeded r = true ->
  let t := World.network (Sys.world s) (WhisperModel.url model) in
  let w1 := write_file (ensure_directory (Sys.world s) (model_directory root))
              (model_file root model) (Transfer.leaves t) in
  exists tr,
    downloadModel model s
    = (Returned (model_file root model),
       Sys.mk
         (Manager.with_isDownloading false
            (Manager.map_downloadProgress
               (fun prev => <[WhisperModel.id model := 1%Q]> prev)
               (Manager.map_modelFiles
                  (fun prev => <[WhisperModel.id model :=
                     ModelFileInfo.mk (model_file root model)
                       (stat_size w1 (model_file root model))]> prev)
                  (Manager.map_downloadProgress
                     (after_ticks (WhisperModel.id model) (Transfer.ticks t))
                     (Manager.with_isDownloading true (Sys.mgr s))))))
         w1 tr).
Proof.
  intros Hready Habsent Hsettle Hok. cbn zeta.
  rewrite (downloadModel_run _ _ _ Hready), Habsent.
  pose proof (downloadModel_transfer_run model (File.mk (model_file root model))) as Htr.
  cbn zeta in Htr. rewrite Htr. clear Htr.
  cbn [Sys.world Sys.mgr Sys.trace File.uri]. rewrite ensure_directory_network, Hsettle, Hok.
  eexists. reflexivity.
Qed.

Lemma after_ticks_delete modelId ticks (m : gmap string Q) :
  delete modelId (after_ticks modelId ticks m) = delete modelId m.
Proof.
  unfold after_ticks. revert m. induction ticks as [|t ticks IH]; intros m; [reflexivity|].
  cbn [fold_left]. rewrite IH. apply delete_insert_eq.
Qed.

(** X13: acquiring a model twice.  When the stat reports no file and a
    transfer is accepted and leaves a file, a second [downloadModel] of the
    same model returns the same path without a network call, and changes
    neither the hook state nor the disk. *)
Theorem downloadModel_twice
    (model : WhisperModel.t) (s : Sys.t) (root : string) (sz : option Z) :
  storage_ready (Sys.world s) root ->
  stat (Sys.world s) (model_file root model) = Returned (FileInfo.mk false None) ->
  let t := World.network (Sys.world s) (WhisperModel.url model) in
  terminal_ok (Transfer.settles t) = true ->
  Transfer.leaves t = Some sz ->
  let first := downloadModel model s in
  let second := downloadModel model (snd first) in
  fst first = Returned (model_file root model) /\
  fst second = Returned (model_file root model) /\
  Sys.mgr (snd second) = Sys.mgr (snd first) /\
  Sys.world (snd second) = Sys.world (snd first) /\
  Sys.trace (snd second)
    = Sys.trace (snd first)
      ++ [FsCreateDirectory (model_directory root);
          FsInfo (model_file root model);
          Console LLog ("Model " ++ WhisperModel.id model ++ " already exists at "
                        ++ model_file root model);
          FsInfo (model_file root model)].
Proof.
  intros Hready Hstat. cbn zeta. intros Hok Hleaves.
  assert (Habsent : stat_exists (Sys.world s) (model_file root model) = false).
  { unfold stat_exists. rewrite Hstat. reflexivity. }
  unfold terminal_ok in Hok.
  destruct (Transfer.settles _) as [r|e] eqn:Hsettle; [|discriminate].
  destruct (downloadModel_accepted_run model s root r Hready Habsent Hsettle Hok)
    as [tr Hrun].
  cbn zeta in Hrun. rewrite Hrun, Hleaves. cbn [fst snd].
  set (w1 := write_file _ _ _).
  assert (Hinfo : World.info_error (Sys.world s) (model_file root model) = None).
  { unfold stat in Hstat. destruct (World.info_error _ _); [discriminate|reflexivity]. }
  assert (Hstat1 : stat w1 (model_file root model) = Returned (FileInfo.mk true sz)).
  { unfold stat, w1. cbn. unfold ensure_directory. case_bool_decide; cbn;
      rewrite Hinfo, lookup_insert_eq; reflexivity. }
  assert (Hready1 : forall m tr', storage_ready (Sys.world (Sys.mk m w1 tr')) root).
  { intros m tr'. destruct Hready as (Hd & Hr & Hc). unfold w1. cbn.
    unfold ensure_directory. case_bool_decide; repeat split; assumption. }
  assert (Hexists : stat_exists w1 (model_file root model) = true).
  { unfold stat_exists. rewrite Hstat1. reflexivity. }
  assert (Hw1 : ensure_directory w1 (model_directory root) = w1).
  { unfold w1. cbn [write_file]. unfold ensure_directory at 1. cbn.
    rewrite bool_decide_eq_true_2; [reflexivity|].
    unfold ensure_directory. case_bool_decide as Hin; [exact Hin|].
    cbn. apply elem_of_app. right. apply list_elem_of_singleton. reflexivity. }
  rewrite (downloadModel_run _ _ _ (Hready1 _ _)).
  cbn [Sys.world Sys.mgr Sys.trace].
  rewrite Hw1, Hexists, downloadModel_existing_run.
  cbn [fst snd Sys.mgr Sys.world Sys.trace File.uri].
  unfold stat_warning, info_warning. rewrite Hexists, Hstat1.
  split; [reflexivity|]. split; [reflexivity|]. split; [|split].
  - unfold Manager.map_modelFiles, Manager.map_downloadProgress,
      Manager.with_isDownloading.
    cbn [Manager.modelFiles Manager.downloadProgress Manager.isDownloading
         Manager.isInitializingModel Manager.whisperContext Manager.vadContext
         Manager.currentModelId].
    rewrite insert_insert_eq. reflexivity.
  - reflexivity.
  - rewrite <- app_assoc. reflexivity.
Qed.

Lemma downloadModel_twice_witness :
  let s := Scenario.start (Scenario.world ∅ Scenario.transfer_complete Scenario.expo_go) in
  let first := downloadModel Scenario.base s in
  let second := downloadModel Scenario.base (snd first) in
  fst second = Returned Scenario.base_file /\
  Sys.mgr (snd second) = Sys.mgr (snd first) /\
  Sys.world (snd second) = Sys.world (snd first).
Proof.
  destruct (downloadModel_twice Scenario.base
              (Scenario.start
                 (Scenario.world ∅ Scenario.transfer_complete Scenario.expo_go))
              Scenario.root (Some 2000))
    as (_ & H2 & H3 & H4 & _).
  - repeat split. discriminate.
  - reflexivity.
  - reflexivity.
  - reflexivity.
  - cbn zeta. split; [exact H2|]. split; [exact H3|exact H4].
Defined.

Lemma isModelDownloaded_not_own m modelId :
  Manager.modelFiles m !! modelId = None -> isModelDownloaded m modelId = inherited modelId.
Proof.
  intros H. unfold isModelDownloaded, get_member. rewrite H.
  destruct (inherited modelId); reflexivity.
Qed.

Lemma getDownloadProgress_not_own m modelId :
  Manager.downloadProgress m !! modelId = None ->
  getDownloadProgress m modelId
  = if inherited modelId then ProgressMember modelId else ProgressNumber 0%Q.
Proof.
  intros H. unfold getDownloadProgress, get_member. rewrite H.
  destruct (inherited modelId); reflexivity.
Qed.

(** X14: download then delete.  When the stat reports no file, the
    transfer is accepted and the file can be deleted, [deleteModel] after
    [downloadModel] returns normally and undoes it: the model's entries are
    gone from the ModelFileInfo cache and the progress map and the disk
    holds the files it held before.  The helpers then answer as for a model
    the hook never saw: [isModelDownloaded] is false and
    [getDownloadProgress] is 0, except for an id that names a member of
    [Object.prototype], where the reads find that member:
    [isModelDownloaded] is true and [getDownloadProgress] returns the
    member. *)
Theorem download_then_delete
    (model : WhisperModel.t) (s : Sys.t) (root : string) :
  storage_ready (Sys.world s) root ->
  stat (Sys.world s) (model_file root model) = Returned (FileInfo.mk false None) ->
  terminal_ok
    (Transfer.settles (World.network (Sys.world s) (WhisperModel.url model))) = true ->
  World.delete_error (Sys.world s) (model_file root model) = None ->
  let downloaded := snd (downloadModel model s) in
  let run := deleteModel (Sys.mgr downloaded) (WhisperModel.id model) downloaded in
  fst run = Returned tt /\
  Manager.modelFiles (Sys.mgr (snd run))
    = delete (WhisperModel.id model) (Manager.modelFiles (Sys.mgr s)) /\
  Manager.downloadProgress (Sys.mgr (snd run))
    = delete (WhisperModel.id model) (Manager.downloadProgress (Sys.mgr s)) /\
  World.files (Sys.world (snd run)) = World.files (Sys.world s) /\
  isModelDownloaded (Sys.mgr (snd run)) (WhisperModel.id model)
    = inherited (WhisperModel.id model) /\
  getDownloadProgress (Sys.mgr (snd run)) (WhisperModel.id model)
    = (if inherited (WhisperModel.id model)
       then ProgressMember (WhisperModel.id model) else ProgressNumber 0%Q).
Proof.
  intros Hready Hstat Hok Hdel. cbn zeta.
  assert (Habsent : stat_exists (Sys.world s) (model_file root model) = false).
  { unfold stat_exists. rewrite Hstat. reflexivity. }
  unfold terminal_ok in Hok.
  destruct (Transfer.settles _) as [r|e] eqn:Hsettle; [|discriminate].
  destruct (downloadModel_accepted_run model s root r Hready Habsent Hsettle Hok)
    as [tr Hrun].
  cbn zeta in Hrun. rewrite Hrun. cbn [fst snd Sys.mgr].
  set (w1 := write_file _ _ _).
  set (m1 := Manager.with_isDownloading false _).
  assert (Hinfo : World.info_error (Sys.world s) (model_file root model) = None).
  { unfold stat in Hstat. destruct (World.info_error _ _); [discriminate|reflexivity]. }
  assert (Hnone : World.files (Sys.world s) !! model_file root model = None).
  { unfold stat in Hstat. rewrite Hinfo in Hstat.
    destruct (World.files _ !! _); [discriminate|reflexivity]. }
  assert (Hentry : Manager.modelFiles m1 !! WhisperModel.id model
                   = Some (ModelFileInfo.mk (model_file root model)
                             (stat_size w1 (model_file root model)))).
  { unfold m1. cbn. apply lookup_insert_eq. }
  assert (Hinfo1 : World.info_error w1 (model_file root model) = None).
  { unfold w1. destruct (Transfer.leaves _); cbn; unfold ensure_directory;
      case_bool_decide; exact Hinfo. }
  assert (Hdel1 : World.delete_error w1 (model_file root model) = None).
  { unfold w1. destruct (Transfer.leaves _); cbn; unfold ensure_directory;
      case_bool_decide; exact Hdel. }
  assert (Hremoval : removal w1 (model_file root model) = Returned tt).
  { unfold removal, stat. rewrite Hinfo1, Hdel1.
    destruct (World.files w1 !! _); reflexivity. }
  assert (Hfiles : World.files (after_removal w1 (model_file root model))
                   = World.files (Sys.world s)).
  { unfold after_removal, stat_exists, stat. rewrite Hinfo1, Hdel1. unfold w1.
    destruct (Transfer.leaves _) as [sz|]; cbn.
    - rewrite lookup_insert_eq. cbn. rewrite ensure_directory_files.
      apply delete_insert_id. exact Hnone.
    - rewrite ensure_directory_files, Hnone. cbn. apply ensure_directory_files. }
  assert (Hcleared :
    forall m',
      Manager.modelFiles m' = delete (WhisperModel.id model) (Manager.modelFiles m1) ->
      Manager.downloadProgress m'
        = delete (WhisperModel.id model) (Manager.downloadProgress m1) ->
      Manager.modelFiles m' = delete (WhisperModel.id model) (Manager.modelFiles (Sys.mgr s)) /\
      Manager.downloadProgress m'
        = delete (WhisperModel.id model) (Manager.downloadProgress (Sys.mgr s)) /\
      isModelDownloaded m' (WhisperModel.id model) = inherited (WhisperModel.id model) /\
      getDownloadProgress m' (WhisperModel.id model)
        = (if inherited (WhisperModel.id model)
           then ProgressMember (WhisperModel.id model) else ProgressNumber 0%Q)).
  { intros m' Hf Hp.
    assert (Hf' : Manager.modelFiles m'
                  = delete (WhisperModel.id model) (Manager.modelFiles (Sys.mgr s))).
    { rewrite Hf. unfold m1. cbn. apply delete_insert_eq. }
    assert (Hp' : Manager.downloadProgress m'
                  = delete (WhisperModel.id model) (Manager.downloadProgress (Sys.mgr s))).
    { rewrite Hp. unfold m1. cbn. rewrite delete_insert_eq. apply after_ticks_delete. }
    split; [exact Hf'|]. split; [exact Hp'|]. split.
    - apply isModelDownloaded_not_own. rewrite Hf'. apply lookup_delete_eq.
    - apply getDownloadProgress_not_own. rewrite Hp'. apply lookup_delete_eq. }
  destruct (decide (Manager.currentModelId m1 = Some (WhisperModel.id model))) as [Hcur|Hcur].
  - rewrite (deleteModel_current m1 _ _ (Sys.mk m1 w1 tr) Hentry Hremoval Hcur).
    cbn [fst snd Sys.mgr Sys.world ModelFileInfo.path].
    split; [reflexivity|].
    destruct (Hcleared (cleared (WhisperModel.id model) m1) eq_refl eq_refl)
      as (H1 & H2 & H3 & H4).
    repeat split; assumption.
  - rewrite (deleteModel_other m1 _ _ (Sys.mk m1 w1 tr) Hentry Hremoval Hcur).
    cbn [fst snd Sys.mgr Sys.world ModelFileInfo.path].
    split; [reflexivity|].
    destruct (Hcleared
                (Manager.map_downloadProgress
                   (fun prev => delete (WhisperModel.id model) prev)
                   (Manager.map_modelFiles
                      (fun prev => delete (WhisperModel.id model) prev) m1))
                eq_refl eq_refl) as (H1 & H2 & H3 & H4).
    repeat split; assumption.
Qed.

Lemma download_then_delete_witness :
  let s := Scenario.start (Scenario.world ∅ Scenario.transfer_complete Scenario.expo_go) in
  let downloaded := snd (downloadModel Scenario.base s) in
  let run := deleteModel (Sys.mgr downloaded) "base" downloaded in
  fst run = Returned tt /\
  Manager.modelFiles (Sys.mgr (snd run)) = delete "base" ∅ /\
  World.files (Sys.world (snd run)) = ∅ /\
  isModelDownloaded (Sys.mgr (snd run)) "base" = false /\
  getDownloadProgress (Sys.mgr (snd run)) "base" = ProgressNumber 0%Q.
Proof.
  destruct (download_then_delete Scenario.base
              (Scenario.start
                 (Scenario.world ∅ Scenario.transfer_complete Scenario.expo_go))
              Scenario.root)
    as (H1 & H2 & _ & H4 & H5 & H6).
  - repeat split. discriminate.
  - reflexivity.
  - reflexivity.
  - reflexivity.
  - cbn zeta. split; [exact H1|]. split; [exact H2|]. split; [exact H4|].
    split; [exact H5|exact H6].
Defined.


(** ** How [initializeWhisperModel] ends *)

Lemma same_engine_refl m : same_engine m m.
Proof. repeat split. Qed.

Lemma same_engine_trans a b c : same_engine a b -> same_engine b c -> same_engine a c.
Proof. unfold same_engine. intros (?&?&?) (?&?&?). repeat split; congruence. Qed.

Lemma respects_same_engine_downloadModel model : respects same_engine (downloadModel model).
Proof.
  apply (respects_downloadModel_branches _ same_engine_refl same_engine_trans).
  - intros file s. rewrite downloadModel_existing_run. repeat split.
  - intros file s. pose proof (downloadModel_transfer_run model file s) as H.
    cbn zeta in H. rewrite H.
    destruct (Transfer.settles _) as [r|e]; [destruct (download_succeeded r)|];
      repeat split.
Qed.

Lemma downloadModel_native_module model s :
  native_module (Sys.world (snd (downloadModel model s))) = native_module (Sys.world s).
Proof.
  assert (Hun : document_unavailable (Sys.world s) ->
                native_module (Sys.world (snd (downloadModel model s)))
                = native_module (Sys.world s)).
  { intros H.
    rewrite (downloadModel_directory_fails _ _ _ _ (getModelDirectory_unavailable s H)).
    reflexivity. }
  destruct (World.document (Sys.world s)) as [e| |root] eqn:Hd.
  - apply Hun. unfold document_unavailable. rewrite Hd. exact I.
  - apply Hun. unfold document_unavailable. rewrite Hd. exact I.
  - destruct (String.eqb_spec root EmptyString) as [->|Hr].
    { apply Hun. unfold document_unavailable. rewrite Hd. reflexivity. }
    clear Hun.
    destruct (World.create_error (Sys.world s)) as [e|] eqn:Hc.
    { rewrite (downloadModel_directory_fails _ _ _ _
                 (getModelDirectory_create_throws _ _ _ Hd Hr Hc)).
      reflexivity. }
    assert (Hready : storage_ready (Sys.world s) root) by (repeat split; assumption).
    rewrite (downloadModel_run _ _ _ Hready).
    destruct (stat_exists (Sys.world s) (model_file root model)).
    + rewrite downloadModel_existing_run. cbn [snd Sys.world].
      apply native_module_ensure_directory.
    + pose proof (downloadModel_transfer_run model (File.mk (model_file root model))) as Htr.
      cbn zeta in Htr. rewrite Htr. clear Htr.
      destruct (Transfer.settles _) as [r|e]; [destruct (download_succeeded r)|];
        cbn [snd Sys.world];
        rewrite native_module_write_file; apply native_module_ensure_directory.
Qed.

Lemma catalog_id_not_empty model :
  In model WHISPER_MODELS -> WhisperModel.id model <> EmptyString.
Proof.
  cbn. intros H.
  repeat (destruct H as [<-|H]; [discriminate|]). destruct H.
Qed.

(** A call of [initializeWhisperModel] that returns has installed the
    context it returns, with the model id, for a catalog entry that is
    cached. *)
Lemma initializeWhisperModel_returned rendered modelId options s result :
  let run := initializeWhisperModel rendered modelId options s in
  fst run = Returned result ->
  exists model,
    find_model WHISPER_MODELS modelId = Some model /\
    Manager.whisperContext (Sys.mgr (snd run)) = Some (InitResult.whisperContext result) /\
    Manager.currentModelId (Sys.mgr (snd run)) = Some modelId /\
    is_Some (Manager.modelFiles (Sys.mgr (snd run)) !! modelId).
Proof.
  cbn zeta.
  destruct (find_model WHISPER_MODELS modelId) as [model|] eqn:Hfind.
  2:{ unfold initializeWhisperModel. rewrite Hfind. discriminate. }
  pose proof (respects_grows_downloadModel model (entering s model)) as Hg.
  destruct (downloadModel model (entering s model)) as [[p|e] s2] eqn:Hdl;
    cbn [snd] in Hg.
  2:{ rewrite (initializeWhisperModel_download_fails _ _ _ _ _ _ _ Hfind Hdl).
      discriminate. }
  destruct (native_module (Sys.world s2)) as [native|] eqn:Hnative.
  2:{ rewrite (initializeWhisperModel_native_unavailable _ _ _ _ _ _ _ Hfind Hdl Hnative).
      discriminate. }
  destruct (native_module_exports _ _ Hnative) as [initWhisper Hinit].
  rewrite (initializeWhisperModel_native_available _ _ _ _ _ _ _ _ _
             Hfind Hdl Hnative Hinit).
  destruct (initWhisper p) as [context|e]; [|discriminate].
  cbn zeta. cbn [fst snd Sys.mgr]. intros [= <-].
  match goal with
  | |- context [((if ?b then ?t else ?u) ?x).2] =>
      assert (Hv : grows (Sys.mgr x) (Sys.mgr (snd ((if b then t else u) x))))
  end.
  { destruct (initVad_requested options);
      [apply respects_grows_initializeVad|apply grows_refl]. }
  destruct Hv as (Hw & Hc & Hf). cbn [Sys.mgr] in Hw, Hc, Hf.
  destruct (find_model_known _ _ _ Hfind) as [Hin Hid].
  pose proof (downloadModel_returned_entry _ _ _ _ Hdl) as Hentry.
  rewrite Hid in Hentry.
  exists model. split; [reflexivity|].
  cbn [Manager.whisperContext Manager.currentModelId Manager.modelFiles
       Manager.with_isInitializingModel InitResult.whisperContext].
  rewrite Hw, Hc. split; [reflexivity|]. split; [reflexivity|].
  apply Hf. exact Hentry.
Qed.

(** A call of [initializeWhisperModel] that throws has left the engine
    slot alone. *)
Lemma initializeWhisperModel_threw rendered modelId options s e :
  let run := initializeWhisperModel rendered modelId options s in
  fst run = Threw e -> same_engine (Sys.mgr s) (Sys.mgr (snd run)).
Proof.
  cbn zeta.
  destruct (find_model WHISPER_MODELS modelId) as [model|] eqn:Hfind.
  2:{ unfold initializeWhisperModel. rewrite Hfind. intros _. apply same_engine_refl. }
  pose proof (respects_same_engine_downloadModel model (entering s model)) as Hsame.
  destruct (downloadModel model (entering s model)) as [[p|e'] s2] eqn:Hdl;
    cbn [snd] in Hsame.
  2:{ rewrite (initializeWhisperModel_download_fails _ _ _ _ _ _ _ Hfind Hdl).
      intros _. exact Hsame. }
  destruct (native_module (Sys.world s2)) as [native|] eqn:Hnative.
  2:{ rewrite (initializeWhisperModel_native_unavailable _ _ _ _ _ _ _ Hfind Hdl Hnative).
      intros _. exact Hsame. }
  destruct (native_module_exports _ _ Hnative) as [initWhisper Hinit].
  rewrite (initializeWhisperModel_native_available _ _ _ _ _ _ _ _ _
             Hfind Hdl Hnative Hinit).
  destruct (initWhisper p) as [context|e']; [discriminate|].
  intros _. exact Hsame.
Qed.

(** X15: [initializeWhisperModel] is all or nothing on the engine slot,
    in every world.  When it returns, the hook state holds the returned
    context with the requested model id, the model is a catalog entry and
    has a ModelFileInfo entry, so [getCurrentModel] gives it; when it
    throws, the context, the current model id and the VAD context are what
    they were before the call. *)
Theorem initializeWhisperModel_all_or_nothing
    (rendered : Manager.t) (modelId : string) (options : option InitOptions.t)
    (s : Sys.t) :
  let run := initializeWhisperModel rendered modelId options s in
  let after := Sys.mgr (snd run) in
  match fst run with
  | Returned result =>
      Manager.whisperContext after = Some (InitResult.whisperContext result) /\
      Manager.currentModelId after = Some modelId /\
      isModelDownloaded after modelId = true /\
      is_Some (getModelById modelId) /\
      getCurrentModel after = getModelById modelId
  | Threw _ => same_engine (Sys.mgr s) after
  end.
Proof.
  cbn zeta.
  destruct (fst (initializeWhisperModel rendered modelId options s))
    as [result|e] eqn:Hrun.
  - destruct (initializeWhisperModel_returned _ _ _ _ _ Hrun)
      as (model & Hfind & Hctx & Hcurrent & Hentry).
    destruct (find_model_known _ _ _ Hfind) as [Hin Hid].
    split; [exact Hctx|]. split; [exact Hcurrent|]. split; [|split].
    + apply isModelDownloaded_own. exact Hentry.
    + unfold getModelById. rewrite Hfind. eauto.
    + unfold getCurrentModel. rewrite Hcurrent.
      destruct (String.eqb_spec modelId EmptyString) as [Hempty|_]; [|reflexivity].
      exfalso. apply (catalog_id_not_empty model Hin). congruence.
  - apply (initializeWhisperModel_threw _ _ _ _ _ Hrun).
Qed.

(** X16: what [initializeWhisperModel] gives for a catalog entry.  An
    error of [downloadModel] is rethrown as it is, and the native module is
    then not even imported; without a native module the call throws the
    engine-unavailable error; an error of [initWhisper] is rethrown as it
    is; otherwise the call returns the new context, with the VAD context of
    the render the callback was created in when VAD was asked for and null
    when it was not. *)
Theorem initializeWhisperModel_result
    (rendered : Manager.t) (modelId : string) (model : WhisperModel.t)
    (options : option InitOptions.t) (s : Sys.t) :
  find_model WHISPER_MODELS modelId = Some model ->
  let downloaded := downloadModel model (entering s model) in
  let run := initializeWhisperModel rendered modelId options s in
  fst run = initialize_result rendered options (fst downloaded) (Sys.world s) /\
  (forall e, fst downloaded = Threw e ->
     Sys.trace (snd run)
     = Sys.trace (snd downloaded) ++ [Console LError "Model initialization error:"]).
Proof.
  intros Hfind. cbn zeta.
  pose proof (downloadModel_native_module model (entering s model)) as Hnm.
  cbn [entering Sys.world] in Hnm. fold (entering s model) in Hnm.
  destruct (downloadModel model (entering s model)) as [[p|e] s2] eqn:Hdl;
    cbn [fst snd] in *.
  - split; [|discriminate].
    unfold initialize_result, engine_answer. rewrite <- Hnm.
    destruct (native_module (Sys.world s2)) as [native|] eqn:Hnative.
    + destruct (native_module_exports _ _ Hnative) as [initWhisper Hinit].
      rewrite (initializeWhisperModel_native_available _ _ _ _ _ _ _ _ _
                 Hfind Hdl Hnative Hinit), Hinit.
      destruct (initWhisper p); reflexivity.
    + rewrite (initializeWhisperModel_native_unavailable _ _ _ _ _ _ _ Hfind Hdl Hnative).
      reflexivity.
  - rewrite (initializeWhisperModel_download_fails _ _ _ _ _ _ _ Hfind Hdl).
    split; [reflexivity|]. intros _ _. reflexivity.
Qed.

Lemma initializeWhisperModel_result_witness :
  let s := Scenario.start Case.no_documents in
  let broken :=
    Scenario.start
      (Scenario.world ∅ Scenario.transfer_complete
         (ImportResolves (Some Case.native_broken))) in
  fst (initializeWhisperModel Manager.initial "base" None s)
    = Threw DocumentDirectoryNotAvailable /\
  fst (initializeWhisperModel Manager.initial "base" None broken)
    = Threw (Foreign "invalid model file") /\
  fst (initializeWhisperModel Manager.initial "base" None (Scenario.start Case.fresh))
    = Returned (InitResult.mk Scenario.context7 None).
Proof.
  split; [|split].
  - rewrite (proj1 (initializeWhisperModel_result Manager.initial "base" Scenario.base None
                      (Scenario.start Case.no_documents) eq_refl)).
    vm_compute. reflexivity.
  - rewrite (proj1 (initializeWhisperModel_result Manager.initial "base" Scenario.base None
                      (Scenario.start
                         (Scenario.world ∅ Scenario.transfer_complete
                            (ImportResolves (Some Case.native_broken)))) eq_refl)).
    vm_compute. reflexivity.
  - rewrite (proj1 (initializeWhisperModel_result Manager.initial "base" Scenario.base None
                      (Scenario.start Case.fresh) eq_refl)).
    vm_compute. reflexivity.
Defined.


Lemma keeps_vad_refl m : keeps_vad m m.
Proof. reflexivity. Qed.

Lemma keeps_vad_trans a b c : keeps_vad a b -> keeps_vad b c -> keeps_vad a c.
Proof. unfold keeps_vad. congruence. Qed.

Lemma respects_keeps_vad_downloadModel model : respects keeps_vad (downloadModel model).
Proof. intros s. apply (respects_same_engine_downloadModel model s). Qed.

Lemma download_event_without_vad model e :
  download_event model e -> initialize_without_vad_event e.
Proof. destruct e; cbn; tauto. Qed.

Lemma emits_initializeWhisperModel_without_vad rendered modelId options :
  initVad_requested options = false ->
  emits initialize_without_vad_event (initializeWhisperModel rendered modelId options).
Proof.
  intros Hno. unfold initializeWhisperModel.
  destruct (find_model WHISPER_MODELS modelId) as [model|]; [|apply emits_throw].
  apply emits_try_finally; [|apply emits_update].
  apply emits_try_catch; [|intros e; emits_auto].
  apply emits_bind; [apply emits_update|intros _].
  apply emits_bind; [apply emits_console; exact I|intros _].
  apply emits_bind;
    [apply (emits_weaken (download_event model));
     [apply download_event_without_vad|apply emits_downloadModel]
    |intros modelPath].
  apply emits_bind; [unfold loadWhisperNative; emits_auto|intros [native|]];
    [|apply emits_throw].
  apply emits_bind; [unfold call_initWhisper; emits_auto|intros context].
  apply emits_bind; [apply emits_update|intros _].
  apply emits_bind; [apply emits_update|intros _].
  apply emits_bind; [apply emits_console; exact I|intros _].
  apply emits_bind; [|intros _; apply emits_ret].
  rewrite Hno. apply emits_ret.
Qed.

(** X17: without the [initVad] option, [initializeWhisperModel] never
    calls [initWhisperVad] and never writes the VAD context, in any world:
    the VAD context the hook holds after the call is the one it held
    before, also when the call installs the context of another model. *)
Theorem initializeWhisperModel_without_vad
    (rendered : Manager.t) (modelId : string) (options : option InitOptions.t)
    (s : Sys.t) :
  initVad_requested options = false ->
  let run := initializeWhisperModel rendered modelId options s in
  Manager.vadContext (Sys.mgr (snd run)) = Manager.vadContext (Sys.mgr s) /\
  exists evs,
    Sys.trace (snd run) = Sys.trace s ++ evs /\
    Forall initialize_without_vad_event evs.
Proof.
  intros Hno. cbn zeta. split.
  - apply (respects_initializeWhisperModel_setters keeps_vad keeps_vad_refl keeps_vad_trans).
    + intros model _. apply respects_keeps_vad_downloadModel.
    + intros b m. reflexivity.
    + intros c m. reflexivity.
    + intros i m. reflexivity.
    + rewrite Hno. discriminate.
  - apply emits_initializeWhisperModel_without_vad. exact Hno.
Qed.

Lemma initializeWhisperModel_without_vad_witness :
  let s :=
    Sys.mk (Sys.mgr Scenario.base_loaded)
      (Scenario.world ∅ Scenario.transfer_complete
         (ImportResolves (Some Scenario.native_vad_for_base))) [] in
  let run := initializeWhisperModel (Sys.mgr Scenario.base_loaded) "small" None s in
  Manager.vadContext (Sys.mgr (snd run)) = Manager.vadContext (Sys.mgr s).
Proof.
  exact (proj1 (initializeWhisperModel_without_vad
                  (Sys.mgr Scenario.base_loaded) "small" None
                  (Sys.mk (Sys.mgr Scenario.base_loaded)
                     (Scenario.world ∅ Scenario.transfer_complete
                        (ImportResolves (Some Scenario.native_vad_for_base))) [])
                  eq_refl)).
Defined.

(** ** How [deleteModel] ends *)

Lemma cleared_idemp modelId m : cleared modelId (cleared modelId m) = cleared modelId m.
Proof.
  destruct m.
  cbv [cleared Manager.with_vadContext Manager.with_currentModelId
       Manager.with_whisperContext Manager.map_downloadProgress Manager.map_modelFiles
       Manager.modelFiles Manager.downloadProgress Manager.isDownloading
       Manager.isInitializingModel Manager.whisperContext Manager.vadContext
       Manager.currentModelId].
  rewrite !delete_delete_eq. reflexivity.
Qed.

Lemma removed_idemp modelId m :
  let removed m :=
    Manager.map_downloadProgress (fun prev => delete modelId prev)
      (Manager.map_modelFiles (fun prev => delete modelId prev) m) in
  removed (removed m) = removed m.
Proof.
  destruct m.
  cbv [Manager.map_downloadProgress Manager.map_modelFiles
       Manager.modelFiles Manager.downloadProgress Manager.isDownloading
       Manager.isInitializingModel Manager.whisperContext Manager.vadContext
       Manager.currentModelId].
  rewrite !delete_delete_eq. reflexivity.
Qed.

(** After a removal that did not throw, the stat of the path reports no
    file. *)
Lemma stat_after_removal w path :
  removal w path = Returned tt ->
  stat (after_removal w path) path = Returned (FileInfo.mk false None).
Proof.
  unfold removal, after_removal, stat_exists, stat.
  destruct (World.info_error w path) eqn:Hinfo; [discriminate|].
  destruct (World.files w !! path) as [sz|] eqn:Hfile; cbn.
  - destruct (World.delete_error w path); [discriminate|]. intros _.
    cbn. rewrite Hinfo, lookup_delete_eq. reflexivity.
  - intros _. rewrite Hinfo, Hfile. reflexivity.
Qed.

(** X18: deleting twice.  After a [deleteModel] through the function of
    the latest render that returned normally, a second [deleteModel] of the
    same model changes neither the hook state nor the disk, through
    whichever function it goes.  Through the function of the new render it
    finds no cache entry: it logs the warning for a model that is not
    downloaded and returns, making no call; for an id that names a member
    of [Object.prototype] the read finds that member instead, and the call
    throws after its error log.  Through the function of the first call's
    render, which still holds the entry, it returns normally, but it stats
    the path again and, when the model was the current one of that render,
    releases the same handle again. *)
Theorem deleteModel_twice (modelId : string) (s : Sys.t) :
  let rendered := Sys.mgr s in
  let first := deleteModel rendered modelId s in
  fst first = Returned tt ->
  let latest := deleteModel (Sys.mgr (snd first)) modelId (snd first) in
  let same := deleteModel rendered modelId (snd first) in
  latest
  = (if inherited modelId
     then (Threw (Foreign "TypeError"),
           observe [Console LError ("Failed to delete model " ++ modelId ++ ":")]
             (snd first))
     else (Returned tt,
           observe [Console LWarn ("Attempted to delete non-downloaded model: "
                                   ++ modelId)]
             (snd first))) /\
  fst same = Returned tt /\
  Sys.mgr (snd same) = Sys.mgr (snd first) /\
  Sys.world (snd same) = Sys.world (snd first) /\
  (forall fileInfo,
     Manager.modelFiles rendered !! modelId = Some fileInfo ->
     Sys.trace (snd same)
     = Sys.trace (snd first)
       ++ FsInfo (ModelFileInfo.path fileInfo)
          :: (if bool_decide (Manager.currentModelId rendered = Some modelId)
              then release_events (Manager.whisperContext rendered) else [])).
Proof.
  cbn zeta. intros Hfirst.
  destruct (Manager.modelFiles (Sys.mgr s) !! modelId) as [fileInfo|] eqn:Hentry.
  2:{ destruct (inherited modelId) eqn:Hi.
      { rewrite (deleteModel_inherited _ _ _ Hentry Hi) in Hfirst. discriminate. }
      rewrite (deleteModel_not_downloaded _ _ s Hentry Hi).
      cbn [snd observe Sys.mgr].
      rewrite !(deleteModel_not_downloaded _ _ _ Hentry Hi).
      repeat split. intros fileInfo Hsome. discriminate. }
  destruct (removal (Sys.world s) (ModelFileInfo.path fileInfo)) as [[]|e] eqn:Hremoval.
  2:{ rewrite (deleteModel_removal_throws _ _ _ _ _ Hentry Hremoval) in Hfirst.
      discriminate. }
  pose proof (stat_after_removal _ _ Hremoval) as Hstat.
  assert (Hexists : stat_exists (after_removal (Sys.world s) (ModelFileInfo.path fileInfo))
                      (ModelFileInfo.path fileInfo) = false).
  { unfold stat_exists. rewrite Hstat. reflexivity. }
  assert (Hremoval2 : removal (after_removal (Sys.world s) (ModelFileInfo.path fileInfo))
                        (ModelFileInfo.path fileInfo) = Returned tt).
  { unfold removal. rewrite Hstat. reflexivity. }
  assert (Hworld2 : after_removal
                      (after_removal (Sys.world s) (ModelFileInfo.path fileInfo))
                      (ModelFileInfo.path fileInfo)
                    = after_removal (Sys.world s) (ModelFileInfo.path fileInfo)).
  { unfold after_removal at 1. rewrite Hexists. reflexivity. }
  assert (Hevents2 : removal_events
                       (after_removal (Sys.world s) (ModelFileInfo.path fileInfo))
                       (ModelFileInfo.path fileInfo)
                     = [FsInfo (ModelFileInfo.path fileInfo)]).
  { unfold removal_events. rewrite Hexists. reflexivity. }
  assert (Hlatest :
    forall m' w' tr',
      Manager.modelFiles m' !! modelId = None ->
      deleteModel m' modelId (Sys.mk m' w' tr')
      = (if inherited modelId
         then (Threw (Foreign "TypeError"),
               observe [Console LError ("Failed to delete model " ++ modelId ++ ":")]
                 (Sys.mk m' w' tr'))
         else (Returned tt,
               observe [Console LWarn ("Attempted to delete non-downloaded model: "
                                       ++ modelId)]
                 (Sys.mk m' w' tr')))).
  { intros m' w' tr' Hnone. destruct (inherited modelId) eqn:Hi.
    - apply deleteModel_inherited; assumption.
    - apply deleteModel_not_downloaded; assumption. }
  destruct (decide (Manager.currentModelId (Sys.mgr s) = Some modelId)) as [Hcur|Hcur].
  - rewrite (deleteModel_current _ _ _ _ Hentry Hremoval Hcur).
    cbn [snd Sys.mgr]. split; [apply Hlatest; cbn; apply lookup_delete_eq|].
    match goal with
    | |- context [deleteModel (Sys.mgr s) modelId ?x] =>
        rewrite (deleteModel_current (Sys.mgr s) modelId fileInfo x Hentry Hremoval2 Hcur)
    end.
    cbn [fst snd Sys.mgr Sys.world Sys.trace].
    rewrite Hworld2, Hevents2, cleared_idemp.
    repeat split. intros fi Hsome. injection Hsome as <-.
    rewrite bool_decide_eq_true_2 by exact Hcur. reflexivity.
  - rewrite (deleteModel_other _ _ _ _ Hentry Hremoval Hcur).
    cbn [snd Sys.mgr]. split; [apply Hlatest; cbn; apply lookup_delete_eq|].
    match goal with
    | |- context [deleteModel (Sys.mgr s) modelId ?x] =>
        rewrite (deleteModel_other (Sys.mgr s) modelId fileInfo x Hentry Hremoval2 Hcur)
    end.
    cbn [fst snd Sys.mgr Sys.world Sys.trace].
    rewrite Hworld2, Hevents2.
    pose proof (removed_idemp modelId (Sys.mgr s)) as Hidem. cbn zeta in Hidem.
    rewrite Hidem.
    repeat split. intros fi Hsome. injection Hsome as <-.
    rewrite bool_decide_eq_false_2 by exact Hcur. reflexivity.
Qed.

Lemma deleteModel_twice_witness :
  let s := Sys.mk (Sys.mgr Scenario.base_loaded) (Sys.world Scenario.base_loaded) [] in
  let first := deleteModel (Sys.mgr s) "base" s in
  let latest := deleteModel (Sys.mgr (snd first)) "base" (snd first) in
  let same := deleteModel (Sys.mgr s) "base" (snd first) in
  fst latest = Returned tt /\
  fst same = Returned tt /\
  Sys.mgr (snd same) = Sys.mgr (snd first) /\
  Sys.trace (snd same)
  = Sys.trace (snd first)
    ++ [FsInfo Scenario.base_file; NativeRelease 7;
        Console LWarn "Failed to release Whisper context during model deletion:"].
Proof.
  destruct (deleteModel_twice "base"
              (Sys.mk (Sys.mgr Scenario.base_loaded) (Sys.world Scenario.base_loaded) []))
    as (H1 & H2 & H3 & _ & H5).
  - vm_compute. reflexivity.
  - cbn zeta. split; [rewrite H1; reflexivity|]. split; [exact H2|]. split; [exact H3|].
    rewrite (H5 (ModelFileInfo.mk Scenario.base_file 2000)).
    + vm_compute. reflexivity.
    + vm_compute. reflexivity.
Defined.

(** X19: deleting a model that is not the current one leaves the engine
    alone, in any world: the context, the VAD context and the current
    model id are what they were, and no handle is released. *)
Theorem deleteModel_of_other_model_keeps_engine (modelId : string) (s : Sys.t) :
  Manager.currentModelId (Sys.mgr s) <> Some modelId ->
  let run := on_render (fun r => deleteModel r modelId) s in
  same_engine (Sys.mgr s) (Sys.mgr (snd run)) /\
  exists evs,
    Sys.trace (snd run) = Sys.trace s ++ evs /\
    Forall (fun e => is_release e = false) evs.
Proof.
  intros Hcur. cbn zeta. unfold on_render. split.
  - apply (respects_deleteModel_setters same_engine same_engine_refl same_engine_trans).
    + intros m. repeat split.
    + intros m. repeat split.
    + intros H. contradiction.
  - destruct (emits_deleteModel (Sys.mgr s) modelId s) as (evs & Htrace & Hevs).
    exists evs. split; [exact Htrace|].
    eapply Forall_impl; [exact Hevs|].
    intros e He. destruct e; try reflexivity.
    cbn in He. destruct He as (ctx & _ & Hc & _). contradiction.
Qed.

Lemma deleteModel_of_other_model_keeps_engine_witness :
  let s := Sys.mk (Sys.mgr Scenario.base_loaded) (Sys.world Scenario.base_loaded) [] in
  same_engine (Sys.mgr s) (Sys.mgr (snd (on_render (fun r => deleteModel r "small") s))).
Proof.
  assert (Hcur : Manager.currentModelId
                   (Sys.mgr (Sys.mk (Sys.mgr Scenario.base_loaded)
                               (Sys.world Scenario.base_loaded) []))
                 <> Some "small").
  { vm_compute. discriminate. }
  exact (proj1 (deleteModel_of_other_model_keeps_engine "small"
                  (Sys.mk (Sys.mgr Scenario.base_loaded)
                     (Sys.world Scenario.base_loaded) []) Hcur)).
Defined.

(** X20: a cache entry whose file is gone.  When the stat of the cached
    path reports no file, [deleteModel] deletes nothing on disk and still
    succeeds: its only file-system call is the stat, the disk is unchanged,
    and the model's entries leave the ModelFileInfo cache and the progress
    map. *)
Theorem deleteModel_of_missing_file
    (modelId : string) (fileInfo : ModelFileInfo.t) (s : Sys.t) :
  Manager.modelFiles (Sys.mgr s) !! modelId = Some fileInfo ->
  stat (Sys.world s) (ModelFileInfo.path fileInfo) = Returned (FileInfo.mk false None) ->
  let run := on_render (fun r => deleteModel r modelId) s in
  fst run = Returned tt /\
  Sys.world (snd run) = Sys.world s /\
  Manager.modelFiles (Sys.mgr (snd run)) = delete modelId (Manager.modelFiles (Sys.mgr s)) /\
  Manager.downloadProgress (Sys.mgr (snd run))
    = delete modelId (Manager.downloadProgress (Sys.mgr s)) /\
  exists evs,
    Sys.trace (snd run) = Sys.trace s ++ FsInfo (ModelFileInfo.path fileInfo) :: evs /\
    Forall (fun e => is_delete e = false /\ is_network e = false) evs.
Proof.
  intros Hentry Hstat. cbn zeta. unfold on_render.
  assert (Hexists : stat_exists (Sys.world s) (ModelFileInfo.path fileInfo) = false).
  { unfold stat_exists. rewrite Hstat. reflexivity. }
  assert (Hremoval : removal (Sys.world s) (ModelFileInfo.path fileInfo) = Returned tt).
  { unfold removal. rewrite Hstat. reflexivity. }
  assert (Hworld : after_removal (Sys.world s) (ModelFileInfo.path fileInfo) = Sys.world s).
  { unfold after_removal. rewrite Hexists. reflexivity. }
  assert (Hevents : removal_events (Sys.world s) (ModelFileInfo.path fileInfo)
                    = [FsInfo (ModelFileInfo.path fileInfo)]).
  { unfold removal_events. rewrite Hexists. reflexivity. }
  destruct (decide (Manager.currentModelId (Sys.mgr s) = Some modelId)) as [Hcur|Hcur].
  - rewrite (deleteModel_current _ _ _ _ Hentry Hremoval Hcur), Hworld, Hevents.
    cbn [fst snd Sys.mgr Sys.world Sys.trace].
    repeat split. exists (release_events (Manager.whisperContext (Sys.mgr s))).
    split; [reflexivity|].
    unfold release_events. destruct (Manager.whisperContext (Sys.mgr s)) as [ctx|];
      [|constructor].
    destruct (WhisperContext.release ctx) as [[|e]|]; repeat constructor.
  - rewrite (deleteModel_other _ _ _ _ Hentry Hremoval Hcur), Hworld, Hevents.
    cbn [fst snd Sys.mgr Sys.world Sys.trace].
    repeat split. exists []. split; [reflexivity|constructor].
Qed.

Lemma deleteModel_of_missing_file_witness :
  let s :=
    Sys.mk
      (Manager.map_modelFiles
         (fun prev => <["base" := ModelFileInfo.mk Scenario.base_file 2000]> prev)
         Manager.initial)
      (Scenario.world ∅ Scenario.transfer_not_found Scenario.expo_go) [] in
  let run := on_render (fun r => deleteModel r "base") s in
  fst run = Returned tt /\
  Manager.modelFiles (Sys.mgr (snd run)) = delete "base" (Manager.modelFiles (Sys.mgr s)).
Proof.
  destruct (deleteModel_of_missing_file "base"
              (ModelFileInfo.mk Scenario.base_file 2000)
              (Sys.mk
                 (Manager.map_modelFiles
                    (fun prev => <["base" := ModelFileInfo.mk Scenario.base_file 2000]> prev)
                    Manager.initial)
                 (Scenario.world ∅ Scenario.transfer_not_found Scenario.expo_go) []))
    as (H1 & _ & H3 & _).
  - vm_compute. reflexivity.
  - reflexivity.
  - cbn zeta. split; [exact H1|exact H3].
Defined.


(** ** The range of the progress values *)

Lemma fraction_unit_interval t : tick_in_range t -> unit_interval (fraction t).
Proof.
  unfold tick_in_range, unit_interval, fraction. intros [Hw He].
  destruct (Z.ltb_spec 0 (DownloadProgressData.totalBytesExpectedToWrite t)) as [Hpos|Hle].
  - assert (Hq : (0 < inject_Z (DownloadProgressData.totalBytesExpectedToWrite t))%Q).
    { change 0%Q with (inject_Z 0). rewrite <- Zlt_Qlt. exact Hpos. }
    split.
    + apply Qle_shift_div_l; [exact Hq|]. rewrite Qmult_0_l.
      change 0%Q with (inject_Z 0). rewrite <- Zle_Qle. exact Hw.
    + apply Qle_shift_div_r; [exact Hq|]. rewrite Qmult_1_l.
      rewrite <- Zle_Qle. exact He.
  - split; [apply Qle_refl|discriminate].
Qed.

Lemma after_ticks_lookup modelId ticks (progress : gmap string Q) :
  after_ticks modelId ticks progress !! modelId
  = match last ticks with
    | Some t => Some (fraction t)
    | None => progress !! modelId
    end.
Proof.
  unfold after_ticks. revert progress.
  induction ticks as [|t ticks IH]; intros progress; [reflexivity|].
  cbn [fold_left]. rewrite IH. destruct ticks as [|t' ticks].
  - cbn. apply lookup_insert_eq.
  - change (last (t :: t' :: ticks)) with (last (t' :: ticks)).
    destruct (last (t' :: ticks)) eqn:Hl; [reflexivity|].
    apply last_None in Hl. discriminate.
Qed.

Lemma after_ticks_in_range modelId ticks m :
  Forall tick_in_range ticks ->
  in_unit_interval (getDownloadProgress m modelId) ->
  in_unit_interval
    (getDownloadProgress
       (Manager.map_downloadProgress (after_ticks modelId ticks) m) modelId).
Proof.
  intros Hticks Hbefore. unfold getDownloadProgress, get_member in *.
  cbn [Manager.downloadProgress Manager.map_downloadProgress].
  rewrite after_ticks_lookup.
  destruct (last ticks) as [t|] eqn:Hlast; [|exact Hbefore].
  destruct (proj1 (last_Some _ _) Hlast) as [ticks' ->].
  apply Forall_app in Hticks. destruct Hticks as [_ Ht].
  apply fraction_unit_interval. inversion Ht; assumption.
Qed.

Lemma tick_events_in_range modelId message ticks :
  Forall tick_in_range ticks ->
  Forall publishes_in_range (tick_events modelId message ticks).
Proof.
  unfold tick_events. induction 1 as [|t ticks Ht _ IH]; cbn; [constructor|].
  constructor; [apply fraction_unit_interval; exact Ht|].
  constructor; [exact I|exact IH].
Qed.

Lemma downloadModel_storage_cases model s :
  (exists root, storage_ready (Sys.world s) root) \/
  (exists e evs,
     downloadModel model s = (Threw e, observe evs s) /\ Forall scan_event evs).
Proof.
  assert (Hun : document_unavailable (Sys.world s) ->
                exists e evs,
                  downloadModel model s = (Threw e, observe evs s) /\ Forall scan_event evs).
  { intros H. exists DocumentDirectoryNotAvailable, [].
    rewrite (downloadModel_directory_fails _ _ _ _ (getModelDirectory_unavailable s H)).
    split; [|constructor]. destruct s. unfold observe. cbn. rewrite app_nil_r. reflexivity. }
  destruct (World.document (Sys.world s)) as [e| |root] eqn:Hd.
  - right. apply Hun. unfold document_unavailable. rewrite Hd. exact I.
  - right. apply Hun. unfold document_unavailable. rewrite Hd. exact I.
  - destruct (String.eqb_spec root EmptyString) as [->|Hr].
    { right. apply Hun. unfold document_unavailable. rewrite Hd. reflexivity. }
    destruct (World.create_error (Sys.world s)) as [e|] eqn:Hc.
    + right. eexists _, _.
      rewrite (downloadModel_directory_fails _ _ _ _
                 (getModelDirectory_create_throws _ _ _ Hd Hr Hc)).
      split; [reflexivity|]. repeat constructor.
    + left. exists root. repeat split; assumption.
Qed.

(** X21: the progress of a model stays in the unit interval.  When no
    tick of the model's transfer reports more bytes written than expected,
    every value [downloadModel] publishes lies between 0 and 1, and
    [getDownloadProgress] gives a number between 0 and 1 for the model
    after the call if it did before, however the call ends. *)
Theorem downloadModel_progress_in_unit_interval (model : WhisperModel.t) (s : Sys.t) :
  Forall tick_in_range
    (Transfer.ticks (World.network (Sys.world s) (WhisperModel.url model))) ->
  in_unit_interval (getDownloadProgress (Sys.mgr s) (WhisperModel.id model)) ->
  let run := downloadModel model s in
  in_unit_interval (getDownloadProgress (Sys.mgr (snd run)) (WhisperModel.id model)) /\
  exists evs,
    Sys.trace (snd run) = Sys.trace s ++ evs /\ Forall publishes_in_range evs.
Proof.
  intros Hticks Hbefore. cbn zeta.
  assert (Hone : unit_interval 1%Q) by (split; discriminate).
  destruct (downloadModel_storage_cases model s) as [[root Hready]|(e & evs & Hrun & Hevs)].
  2:{ rewrite Hrun. cbn [snd observe Sys.mgr Sys.trace]. split; [exact Hbefore|].
      exists evs. split; [reflexivity|].
      eapply Forall_impl; [exact Hevs|]. intros ev Hev. destruct ev; try exact I;
        destruct Hev. }
  assert (Hinfo : Forall publishes_in_range
                    (info_warning (Sys.world s) model (model_file root model))).
  { unfold info_warning. destruct (stat _ _); repeat constructor. }
  rewrite (downloadModel_run _ _ _ Hready).
  destruct (stat_exists (Sys.world s) (model_file root model)).
  - rewrite downloadModel_existing_run.
    cbn [snd Sys.mgr Sys.world Sys.trace File.uri]. split; [exact Hbefore|].
    rewrite <- app_assoc. eexists. split; [reflexivity|].
    repeat first [apply Forall_cons; split; [exact I|] | apply Forall_app; split];
      try exact Hinfo.
    unfold stat_warning. destruct (stat_exists _ _); repeat constructor.
  - pose proof (downloadModel_transfer_run model (File.mk (model_file root model))) as Htr.
    cbn zeta in Htr. rewrite Htr. clear Htr.
    cbn [Sys.world Sys.mgr Sys.trace File.uri]. rewrite ensure_directory_network.
    pose proof (after_ticks_in_range (WhisperModel.id model) _
                  (Sys.mgr s) Hticks Hbefore) as Hafter.
    pose proof (tick_events_in_range (WhisperModel.id model)
                  ("Download progress for " ++ WhisperModel.id model) _ Hticks) as Hevents.
    destruct (Transfer.settles _) as [r|e]; [destruct (download_succeeded r)|];
      cbn [snd Sys.mgr Sys.trace]; (split; [|rewrite <- !app_assoc; eexists;
                                              split; [reflexivity|]]).
    + unfold getDownloadProgress, get_member.
      cbn [Manager.downloadProgress Manager.with_isDownloading
           Manager.map_downloadProgress].
      rewrite lookup_insert_eq. exact Hone.
    + repeat first [apply Forall_cons; split; [first [exact I|exact Hone]|]
                   | apply Forall_app; split | apply Forall_nil_2];
        try exact Hinfo; try exact Hevents.
      unfold stat_warning. destruct (stat_exists _ _); repeat constructor.
    + exact Hafter.
    + repeat first [apply Forall_cons; split; [first [exact I|exact Hone]|]
                   | apply Forall_app; split | apply Forall_nil_2];
        try exact Hinfo; try exact Hevents.
    + exact Hafter.
    + repeat first [apply Forall_cons; split; [first [exact I|exact Hone]|]
                   | apply Forall_app; split | apply Forall_nil_2];
        try exact Hinfo; try exact Hevents.
Qed.

Lemma downloadModel_progress_in_unit_interval_witness :
  let s :=
    Scenario.start (Scenario.world ∅ Scenario.transfer_interrupted Scenario.expo_go) in
  in_unit_interval
    (getDownloadProgress (Sys.mgr (snd (downloadModel Scenario.base s))) "base").
Proof.
  apply (downloadModel_progress_in_unit_interval Scenario.base
           (Scenario.start
              (Scenario.world ∅ Scenario.transfer_interrupted Scenario.expo_go))).
  - repeat constructor; cbn; lia.
  - split; discriminate.
Defined.


(** ** The draft of the hook *)

Lemma Draft_updateModelFileInfo_run model file s :
  Draft.updateModelFileInfo model file s =
    match stat (Sys.world s) (File.uri file) with
    | Returned stats =>
        (Returned
           (if negb (FileInfo.exists_ stats) then Draft.stat_failed model file
            else
              setModelFiles (fun prev =>
                <[WhisperModel.id model :=
                    ModelFileInfo.mk (File.uri file)
                      (number_or_zero (FileInfo.size stats))]> prev)),
         observe [FsInfo (File.uri file)] s)
    | Threw e =>
        (Returned (ret tt),
         snd (Draft.stat_failed model file (observe [FsInfo (File.uri file)] s)))
    end.
Proof.
  unfold Draft.updateModelFileInfo, try_catch. unfold bind at 1.
  rewrite File_info_stat.
  destruct (stat (Sys.world s) (File.uri file)) as [stats|e]; [reflexivity|].
  unfold bind. rewrite Draft_stat_failed_run. reflexivity.
Qed.

Lemma Draft_downloadModel_existing_agrees model file s :
  same_outcome (Draft.downloadModel_existing model file s)
    (downloadModel_existing model file s).
Proof.
  rewrite downloadModel_existing_run. unfold Draft.downloadModel_existing.
  unfold bind at 1. unfold console at 1, emit at 1.
  unfold bind at 1. rewrite Draft_updateModelFileInfo_run.
  cbn [Sys.world Sys.mgr Sys.trace]. unfold stat_size.
  destruct s as [m w tr]. cbn [Sys.world Sys.mgr Sys.trace].
  destruct (stat w (File.uri file)) as [[[] sz]|e]; repeat split.
Qed.

Lemma Draft_downloadModel_transfer_agrees model file s :
  same_outcome (Draft.downloadModel_transfer model file s)
    (downloadModel_transfer model file s).
Proof.
  pose proof (downloadModel_transfer_run model file s) as Hrun. cbn zeta in Hrun.
  rewrite Hrun. clear Hrun. unfold Draft.downloadModel_transfer.
  unfold bind at 1. unfold setIsDownloading at 1, update at 1.
  unfold bind at 1. unfold console at 1, emit at 1.
  unfold bind at 1. unfold try_finally, try_catch. unfold bind at 1.
  unfold Draft.onProgress. rewrite downloadAsync_progress.
  destruct s as [m w tr]. cbn [Sys.mgr Sys.world Sys.trace].
  destruct (Transfer.settles (World.network w (WhisperModel.url model))) as [r|e];
    [destruct (download_succeeded r)|]; try (repeat split; fail).
  unfold bind at 1. unfold console at 1, emit at 1. cbn [Sys.mgr Sys.world Sys.trace].
  unfold bind at 1. rewrite Draft_updateModelFileInfo_run.
  cbn [Sys.world Sys.mgr Sys.trace]. unfold stat_size.
  destruct (stat _ (File.uri file)) as [[[] sz]|e]; repeat split.
Qed.

(** X22: the draft's [downloadModel] and the hook's agree.  With the
    model directory available, the two end in the same way (the same path
    returned or the same error thrown) and leave the same hook state and
    the same disk; they differ in their log lines only. *)
Theorem draft_downloadModel_agrees_with_hook
    (model : WhisperModel.t) (s : Sys.t) (root : string) :
  storage_ready (Sys.world s) root ->
  same_outcome (Draft.downloadModel model s) (downloadModel model s).
Proof.
  intros Hready.
  rewrite (Draft_downloadModel_run _ _ _ Hready), (downloadModel_run _ _ _ Hready).
  destruct (stat_exists (Sys.world s) (model_file root model)).
  - apply Draft_downloadModel_existing_agrees.
  - apply Draft_downloadModel_transfer_agrees.
Qed.

Lemma draft_downloadModel_agrees_with_hook_witness :
  same_outcome
    (Draft.downloadModel Scenario.base
       (Scenario.start (Scenario.world ∅ Scenario.transfer_complete Scenario.expo_go)))
    (downloadModel Scenario.base
       (Scenario.start (Scenario.world ∅ Scenario.transfer_complete Scenario.expo_go))).
Proof.
  apply (draft_downloadModel_agrees_with_hook Scenario.base
           (Scenario.start (Scenario.world ∅ Scenario.transfer_complete Scenario.expo_go))
           Scenario.root).
  repeat split. discriminate.
Defined.


Lemma respects_same_engine_Draft_downloadModel model :
  respects same_engine (Draft.downloadModel model).
Proof.
  unfold Draft.downloadModel.
  apply (respects_bind _ same_engine_trans).
  { unfold Draft.getModelDirectory.
    apply (respects_bind _ same_engine_trans).
    - apply (respects_try_catch _ same_engine_trans);
        [apply (respects_Paths_document _ same_engine_refl same_engine_trans)|intros e].
      apply (respects_bind _ same_engine_trans);
        [apply (respects_console _ same_engine_refl)
        |intros _; apply (respects_throw _ same_engine_refl)].
    - intros [root|]; [|apply (respects_throw _ same_engine_refl)].
      apply (respects_bind _ same_engine_trans);
        [apply (respects_Directory_create _ same_engine_refl same_engine_trans)
        |intros _; apply (respects_ret _ same_engine_refl)]. }
  intros directory.
  apply (respects_bind _ same_engine_trans).
  { apply (respects_try_catch _ same_engine_trans);
      [apply (respects_File_info _ same_engine_refl)|intros e].
    apply (respects_bind _ same_engine_trans);
      [apply (respects_console _ same_engine_refl)
      |intros _; apply (respects_ret _ same_engine_refl)]. }
  intros existingInfo. destruct (FileInfo.exists_ existingInfo); intros s.
  - destruct (Draft_downloadModel_existing_agrees model
                (new_File directory (WhisperModel.filename model)) s) as (_ & -> & _).
    rewrite downloadModel_existing_run. repeat split.
  - destruct (Draft_downloadModel_transfer_agrees model
                (new_File directory (WhisperModel.filename model)) s) as (_ & -> & _).
    pose proof (downloadModel_transfer_run model
                  (new_File directory (WhisperModel.filename model)) s) as H.
    cbn zeta in H. rewrite H.
    destruct (Transfer.settles _) as [r|e]; [destruct (download_succeeded r)|];
      repeat split.
Qed.

Lemma respects_same_engine_Draft_initWhisper filePath :
  respects same_engine (Draft.initWhisper filePath).
Proof.
  unfold Draft.initWhisper, call_initWhisper.
  respects_struct same_engine_refl same_engine_trans.
Qed.

Lemma Draft_initializeModel_run modelId model s :
  find_model Draft.WHISPER_MODELS modelId = Some model ->
  Draft.initializeModel modelId s =
    let swallowed (s' : Sys.t) : Completion (option InitResult.t) * Sys.t :=
      (Returned None,
       Sys.mk (Manager.with_isInitializingModel false (Sys.mgr s')) (Sys.world s')
         (Sys.trace s' ++ [Console LError "Error initializing model:"])) in
    match Draft.downloadModel model
            (Sys.mk (Manager.with_isInitializingModel true (Sys.mgr s))
               (Sys.world s) (Sys.trace s)) with
    | (Threw _, s2) => swallowed s2
    | (Returned modelPath, s2) =>
        match Draft.initWhisper modelPath s2 with
        | (Threw _, s3) => swallowed s3
        | (Returned context, s3) =>
            (Returned (Some (InitResult.mk context None)),
             Sys.mk
               (Manager.with_isInitializingModel false
                  (Manager.with_currentModelId (Some modelId)
                     (Manager.with_whisperContext (Some context) (Sys.mgr s3))))
               (Sys.world s3)
               (Sys.trace s3
                ++ [Console LLog ("Whisper context initialized for model: "
                                  ++ WhisperModel.label model)]))
        end
    end.
Proof.
  intros Hfind. unfold Draft.initializeModel. rewrite Hfind.
  unfold try_finally, try_catch.
  unfold bind at 1. unfold Draft.setInitializingModel at 1, setIsInitializingModel at 1,
    update at 1.
  unfold bind at 1. cbn [Sys.mgr Sys.world Sys.trace].
  destruct (Draft.downloadModel model _) as [[p|e] s2]; [|reflexivity].
  unfold bind at 1.
  destruct (Draft.initWhisper p s2) as [[context|e] s3]; [|reflexivity].
  destruct s3. reflexivity.
Qed.

(** X23: the draft's [initializeModel] swallows every failure after the
    catalog lookup.  It throws only for an id its catalog does not hold,
    and then changes nothing; for a catalog entry it always returns and
    clears the initializing flag: either the new context, which the hook
    state then holds with the model id, or undefined, with the engine slot
    as it was before the call. *)
Theorem Draft_initializeModel_never_throws_for_a_catalog_entry
    (modelId : string) (s : Sys.t) :
  let run := Draft.initializeModel modelId s in
  let after := Sys.mgr (snd run) in
  match fst run with
  | Threw e =>
      e = ModelWithIdNotFound modelId /\
      find_model Draft.WHISPER_MODELS modelId = None /\ snd run = s
  | Returned result =>
      is_Some (find_model Draft.WHISPER_MODELS modelId) /\
      Manager.isInitializingModel after = false /\
      match result with
      | Some r =>
          InitResult.vadContext r = None /\
          Manager.whisperContext after = Some (InitResult.whisperContext r) /\
          Manager.currentModelId after = Some modelId /\
          Manager.vadContext after = Manager.vadContext (Sys.mgr s)
      | None => same_engine (Sys.mgr s) after
      end
  end.
Proof.
  cbn zeta.
  destruct (find_model Draft.WHISPER_MODELS modelId) as [model|] eqn:Hfind.
  2:{ unfold Draft.initializeModel. rewrite Hfind. repeat split. }
  rewrite (Draft_initializeModel_run _ _ _ Hfind). cbn zeta.
  match goal with
  | |- context [Draft.downloadModel model ?x] =>
      pose proof (respects_same_engine_Draft_downloadModel model x) as Hdl;
      destruct (Draft.downloadModel model x) as [[p|e] s2]
  end; cbn [snd Sys.mgr] in Hdl.
  2:{ cbn. split; [eauto|]. split; [reflexivity|exact Hdl]. }
  pose proof (respects_same_engine_Draft_initWhisper p s2) as Hinit.
  destruct (Draft.initWhisper p s2) as [[context|e] s3]; cbn [snd] in Hinit.
  2:{ cbn. split; [eauto|]. split; [reflexivity|].
      eapply same_engine_trans; [exact Hdl|exact Hinit]. }
  cbn. split; [eauto|]. split; [reflexivity|]. split; [reflexivity|].
  split; [reflexivity|]. split; [reflexivity|].
  destruct Hdl as (_ & _ & Hv1). destruct Hinit as (_ & _ & Hv2).
  cbn in Hv1. congruence.
Qed.


(** ** Retrying and resetting *)

Lemma downloadModel_on_disk model s root sz :
  storage_ready (Sys.world s) root ->
  stat (Sys.world s) (model_file root model) = Returned (FileInfo.mk true sz) ->
  downloadModel model s
  = (Returned (model_file root model),
     Sys.mk
       (Manager.map_modelFiles
          (fun prev => <[WhisperModel.id model :=
             ModelFileInfo.mk (model_file root model) (number_or_zero sz)]> prev)
          (Sys.mgr s))
       (ensure_directory (Sys.world s) (model_directory root))
       (Sys.trace s
        ++ [FsCreateDirectory (model_directory root);
            FsInfo (model_file root model);
            Console LLog ("Model " ++ WhisperModel.id model ++ " already exists at "
                          ++ model_file root model);
            FsInfo (model_file root model)])).
Proof.
  intros Hready Hstat.
  assert (Hexists : stat_exists (Sys.world s) (model_file root model) = true).
  { unfold stat_exists. rewrite Hstat. reflexivity. }
  rewrite (downloadModel_run _ _ _ Hready), Hexists, downloadModel_existing_run.
  cbn [Sys.mgr Sys.world Sys.trace File.uri].
  unfold stat_warning, info_warning, stat_size, stat_exists.
  rewrite !stat_ensure_directory, Hstat.
  cbn [FileInfo.exists_ FileInfo.size]. rewrite <- app_assoc. reflexivity.
Qed.

(** X24: retrying after a failed transfer.  When the stat reports no
    file and the transfer fails (it throws, or ends with a status that is
    not accepted) but leaves a file, the first [downloadModel] throws and
    the retry accepts the file that was left: it returns the path without
    a network call and caches the file with the size left on disk, and the
    model's progress stays where the failed transfer left it. *)
Theorem downloadModel_retry_accepts_left_file
    (model : WhisperModel.t) (s : Sys.t) (root : string) (sz : option Z) :
  storage_ready (Sys.world s) root ->
  stat (Sys.world s) (model_file root model) = Returned (FileInfo.mk false None) ->
  let t := World.network (Sys.world s) (WhisperModel.url model) in
  terminal_ok (Transfer.settles t) = false ->
  Transfer.leaves t = Some sz ->
  let first := downloadModel model s in
  let retry := downloadModel model (snd first) in
  (exists e, fst first = Threw e) /\
  fst retry = Returned (model_file root model) /\
  Manager.modelFiles (Sys.mgr (snd retry))
    = <[WhisperModel.id model :=
          ModelFileInfo.mk (model_file root model) (number_or_zero sz)]>
        (Manager.modelFiles (Sys.mgr s)) /\
  Manager.downloadProgress (Sys.mgr (snd retry))
    = after_ticks (WhisperModel.id model) (Transfer.ticks t)
        (Manager.downloadProgress (Sys.mgr s)) /\
  Sys.trace (snd retry)
    = Sys.trace (snd first)
      ++ [FsCreateDirectory (model_directory root);
          FsInfo (model_file root model);
          Console LLog ("Model " ++ WhisperModel.id model ++ " already exists at "
                        ++ model_file root model);
          FsInfo (model_file root model)].
Proof.
  intros Hready Hstat. cbn zeta. intros Hfail Hleaves.
  assert (Habsent : stat_exists (Sys.world s) (model_file root model) = false).
  { unfold stat_exists. rewrite Hstat. reflexivity. }
  assert (Hinfo : World.info_error (Sys.world s) (model_file root model) = None).
  { unfold stat in Hstat. destruct (World.info_error _ _); [discriminate|reflexivity]. }
  assert (Hfirst :
    exists e tr,
      downloadModel model s
      = (Threw e,
         Sys.mk
           (Manager.with_isDownloading false
              (Manager.map_downloadProgress
                 (after_ticks (WhisperModel.id model)
                    (Transfer.ticks (World.network (Sys.world s) (WhisperModel.url model))))
                 (Manager.with_isDownloading true (Sys.mgr s))))
           (write_file (ensure_directory (Sys.world s) (model_directory root))
              (model_file root model) (Some sz))
           tr)).
  { rewrite (downloadModel_run _ _ _ Hready), Habsent.
    pose proof (downloadModel_transfer_run model (File.mk (model_file root model))) as Htr.
    cbn zeta in Htr. rewrite Htr. clear Htr.
    cbn [Sys.world Sys.mgr Sys.trace File.uri].
    rewrite ensure_directory_network, Hleaves.
    unfold terminal_ok in Hfail.
    destruct (Transfer.settles _) as [r|e]; [rewrite Hfail|]; eexists _, _; reflexivity. }
  destruct Hfirst as (e & tr & Hfirst). rewrite Hfirst. cbn [fst snd].
  split; [eauto|].
  set (w1 := write_file _ _ _).
  assert (Hstat1 : stat w1 (model_file root model) = Returned (FileInfo.mk true sz)).
  { unfold stat, w1. cbn. unfold ensure_directory. case_bool_decide; cbn;
      rewrite Hinfo, lookup_insert_eq; reflexivity. }
  assert (Hready1 : forall m tr', storage_ready (Sys.world (Sys.mk m w1 tr')) root).
  { intros m tr'. destruct Hready as (Hd & Hr & Hc). unfold w1. cbn.
    unfold ensure_directory. case_bool_decide; repeat split; assumption. }
  rewrite (downloadModel_on_disk _ _ _ _ (Hready1 _ _) Hstat1).
  cbn [fst snd Sys.mgr Sys.trace].
  split; [reflexivity|]. split; [reflexivity|]. split; reflexivity.
Qed.

Lemma downloadModel_retry_accepts_left_file_witness :
  let s :=
    Scenario.start (Scenario.world ∅ Scenario.transfer_interrupted Scenario.expo_go) in
  let first := downloadModel Scenario.base s in
  let retry := downloadModel Scenario.base (snd first) in
  fst retry = Returned Scenario.base_file /\
  Manager.modelFiles (Sys.mgr (snd retry))
    = <["base" := ModelFileInfo.mk Scenario.base_file 500]> ∅.
Proof.
  destruct (downloadModel_retry_accepts_left_file Scenario.base
              (Scenario.start
                 (Scenario.world ∅ Scenario.transfer_interrupted Scenario.expo_go))
              Scenario.root (Some 500))
    as (_ & H2 & H3 & _).
  - repeat split. discriminate.
  - reflexivity.
  - reflexivity.
  - reflexivity.
  - cbn zeta. split; [exact H2|exact H3].
Defined.

Lemma catalog_id_not_inherited model :
  In model WHISPER_MODELS -> inherited (WhisperModel.id model) = false.
Proof.
  cbn. intros H.
  repeat (destruct H as [<-|H]; [vm_compute; reflexivity|]). destruct H.
Qed.

(** X25: [resetWhisperContext] forgets the engine without releasing it.
    It always returns, empties the engine slot (no context, no VAD context,
    no current model) and touches neither the caches nor the disk.  After
    it, a [deleteModel] through the function of the new render makes no
    release call.  A [deleteModel] through the function of any render
    releases only the handle held in that function's closure, and only for
    the model current in that render: the forgotten handle can still be
    released by the function of a render from before the reset, and is,
    when that function deletes the model that was current there and the
    removal of its file does not throw. *)
Theorem resetWhisperContext_forgets_engine (s : Sys.t) :
  let run := resetWhisperContext s in
  let after := Sys.mgr (snd run) in
  fst run = Returned tt /\
  Manager.whisperContext after = None /\
  Manager.vadContext after = None /\
  Manager.currentModelId after = None /\
  getCurrentModel after = None /\
  Manager.modelFiles after = Manager.modelFiles (Sys.mgr s) /\
  Manager.downloadProgress after = Manager.downloadProgress (Sys.mgr s) /\
  Sys.world (snd run) = Sys.world s /\
  (forall modelId,
     exists evs,
       Sys.trace (snd (on_render (fun r => deleteModel r modelId) (snd run)))
         = Sys.trace (snd run) ++ evs /\
       Forall (fun e => is_release e = false) evs) /\
  (forall rendered modelId,
     exists evs,
       Sys.trace (snd (deleteModel rendered modelId (snd run)))
         = Sys.trace (snd run) ++ evs /\
       forall h,
         In (NativeRelease h) evs ->
         exists ctx,
           Manager.whisperContext rendered = Some ctx /\
           Manager.currentModelId rendered = Some modelId /\
           h = WhisperContext.handle ctx) /\
  (forall rendered modelId fileInfo ctx behaviour,
     Manager.modelFiles rendered !! modelId = Some fileInfo ->
     Manager.currentModelId rendered = Some modelId ->
     Manager.whisperContext rendered = Some ctx ->
     WhisperContext.release ctx = Some behaviour ->
     removal (Sys.world s) (ModelFileInfo.path fileInfo) = Returned tt ->
     In (NativeRelease (WhisperContext.handle ctx))
        (Sys.trace (snd (deleteModel rendered modelId (snd run))))).
Proof.
  cbn zeta. repeat split.
  - intros modelId. unfold on_render.
    destruct (emits_deleteModel (Sys.mgr (snd (resetWhisperContext s))) modelId
                (snd (resetWhisperContext s))) as (evs & Htrace & Hevs).
    exists evs. split; [exact Htrace|].
    eapply Forall_impl; [exact Hevs|].
    intros e He. destruct e; try reflexivity.
    cbn in He. destruct He as (ctx & Hctx & _). discriminate.
  - intros rendered modelId.
    destruct (emits_deleteModel rendered modelId (snd (resetWhisperContext s)))
      as (evs & Htrace & Hevs).
    exists evs. split; [exact Htrace|].
    intros h Hin. rewrite Forall_forall in Hevs.
    apply (Hevs (NativeRelease h)). apply list_elem_of_In. exact Hin.
  - intros rendered modelId fileInfo ctx behaviour Hentry Hcur Hctx Hrelease Hremoval.
    rewrite (deleteModel_current rendered modelId fileInfo (snd (resetWhisperContext s))
               Hentry Hremoval Hcur).
    cbn [snd Sys.trace]. unfold release_events. rewrite Hctx, Hrelease.
    apply in_or_app. right. apply in_or_app. right.
    destruct behaviour; left; reflexivity.
Qed.

Lemma resetWhisperContext_forgets_engine_witness :
  let s := Sys.mk (Sys.mgr Scenario.base_loaded) (Sys.world Scenario.base_loaded) [] in
  let reset := snd (resetWhisperContext s) in
  Manager.whisperContext (Sys.mgr reset) = None /\
  In (NativeRelease 7) (Sys.trace (snd (deleteModel (Sys.mgr s) "base" reset))).
Proof.
  destruct (resetWhisperContext_forgets_engine
              (Sys.mk (Sys.mgr Scenario.base_loaded) (Sys.world Scenario.base_loaded) []))
    as (_ & Hctx & _ & _ & _ & _ & _ & _ & _ & _ & Hstale).
  cbn zeta. split; [exact Hctx|].
  apply (Hstale _ "base" (ModelFileInfo.mk Scenario.base_file 2000) Scenario.context7
           (ReleaseThrows "context already released")).
  - vm_compute. reflexivity.
  - vm_compute. reflexivity.
  - vm_compute. reflexivity.
  - reflexivity.
  - vm_compute. reflexivity.
Defined.

(** X26: a handler that awaits [initializeWhisperModel] and then
    [deleteModel] through the functions of the one render it was created
    in.  When that render has a ModelFileInfo entry for the model and
    another current model (or none), the initialisation returns and the
    removal of the file does not throw, [deleteModel] removes the model's
    entries but skips the engine branch: the hook is left with the model as
    its current model and the context in place, and with no ModelFileInfo
    entry for it, so [isModelDownloaded] is false for the current model
    and a [deleteModel] through the function of the new render only logs
    its warning. *)
Theorem deleteModel_through_earlier_render_keeps_engine
    (rendered : Manager.t) (modelId : string) (options : option InitOptions.t)
    (fileInfo : ModelFileInfo.t) (result : InitResult.t) (s : Sys.t) :
  Manager.modelFiles rendered !! modelId = Some fileInfo ->
  Manager.currentModelId rendered <> Some modelId ->
  let initialized := initializeWhisperModel rendered modelId options s in
  fst initialized = Returned result ->
  removal (Sys.world (snd initialized)) (ModelFileInfo.path fileInfo) = Returned tt ->
  let deleted := deleteModel rendered modelId (snd initialized) in
  let after := Sys.mgr (snd deleted) in
  fst deleted = Returned tt /\
  Manager.currentModelId after = Some modelId /\
  Manager.whisperContext after = Some (InitResult.whisperContext result) /\
  Manager.modelFiles after !! modelId = None /\
  isModelDownloaded after modelId = false /\
  deleteModel after modelId (snd deleted)
  = (Returned tt,
     observe [Console LWarn ("Attempted to delete non-downloaded model: " ++ modelId)]
       (snd deleted)).
Proof.
  intros Hentry Hcur. cbn zeta. intros Hreturned Hremoval.
  destruct (initializeWhisperModel_returned _ _ _ _ _ Hreturned)
    as (model & Hfind & Hctx & Hcurrent & _).
  destruct (find_model_known _ _ _ Hfind) as [Hin Hid].
  pose proof (catalog_id_not_inherited model Hin) as Hown. rewrite Hid in Hown.
  rewrite (deleteModel_other _ _ _ _ Hentry Hremoval Hcur).
  cbn [fst snd Sys.mgr].
  assert (Hnone :
    Manager.modelFiles
      (Manager.map_downloadProgress (fun prev => delete modelId prev)
         (Manager.map_modelFiles (fun prev => delete modelId prev)
            (Sys.mgr (snd (initializeWhisperModel rendered modelId options s)))))
      !! modelId = None).
  { cbn. apply lookup_delete_eq. }
  split; [reflexivity|]. split; [exact Hcurrent|]. split; [exact Hctx|].
  split; [exact Hnone|]. split.
  - rewrite (isModelDownloaded_not_own _ _ Hnone). exact Hown.
  - apply deleteModel_not_downloaded; assumption.
Qed.

Lemma deleteModel_through_earlier_render_keeps_engine_witness :
  let cached :=
    snd (downloadModel Scenario.base
           (Scenario.start
              (Scenario.world ∅ Scenario.transfer_complete
                 (ImportResolves (Some Scenario.native_with_vad))))) in
  let initialized := initializeWhisperModel (Sys.mgr cached) "base" None cached in
  let deleted := deleteModel (Sys.mgr cached) "base" (snd initialized) in
  Manager.currentModelId (Sys.mgr (snd deleted)) = Some "base" /\
  Manager.whisperContext (Sys.mgr (snd deleted)) = Some Scenario.context7 /\
  isModelDownloaded (Sys.mgr (snd deleted)) "base" = false.
Proof.
  destruct (deleteModel_through_earlier_render_keeps_engine
              (Sys.mgr
                 (snd (downloadModel Scenario.base
                         (Scenario.start
                            (Scenario.world ∅ Scenario.transfer_complete
                               (ImportResolves (Some Scenario.native_with_vad)))))))
              "base" None (ModelFileInfo.mk Scenario.base_file 2000)
              (InitResult.mk Scenario.context7 None)
              (snd (downloadModel Scenario.base
                      (Scenario.start
                         (Scenario.world ∅ Scenario.transfer_complete
                            (ImportResolves (Some Scenario.native_with_vad)))))))
    as (_ & H2 & H3 & _ & H5 & _).
  - vm_compute. reflexivity.
  - vm_compute. discriminate.
  - vm_compute. reflexivity.
  - vm_compute. reflexivity.
  - cbn zeta. split; [exact H2|]. split; [exact H3|exact H5].
Defined.
